(** * The data-cleaning pipeline of the Seattle Airbnb notebook

    A shallow embedding of the helper functions and of [clean_dataset] from
    [Seattle Airbnb Kaggle - 4.ipynb], together with the part of Python and
    pandas they rest on, and the properties of the pipeline.

    Scope of the model.
    - Python 3 with dictionaries that keep insertion order (the rule of
      the language since 3.7; before, the order in which [value_dict] hands
      out its items, and with it the order of equal counts, is not
      specified); pandas 0.2x, where [Series.str.replace] reads its pattern
      as a regular expression and [df[c].fillna(v, inplace=True)] writes
      through to [df].
    - Text is a string of bytes.  [int()] and [float()] are modelled on
      printable ASCII text without digit separators; a numeral outside this
      range, and the spellings of infinity, give the outcome [Unmodelled].
    - Numbers are exact rationals: binary64 rounding is not modelled, and
      there are no infinite values.
    - A table cell is missing ([NaN]), a text or a number.
    - Whatever the model does not cover ends in [Unmodelled], which no
      [except] clause catches, so that it is never mistaken for a result
      of the program. *)

From Stdlib Require Import String Ascii List ZArith QArith Qround Bool Lia.
From Stdlib Require Import Sorted Permutation.
From stdpp Require Import base list.
Import ListNotations.

Local Open Scope string_scope.
Local Open Scope list_scope.

(** ** Exceptions and results *)

Module Py.

Inductive exn : Type :=
| AttributeError
| IndexError
| KeyError
| TypeError
| ValueError
| Unmodelled.

Inductive result (A : Type) : Type :=
| Ok (a : A)
| Raise (e : exn).

Arguments Ok {A} a.
Arguments Raise {A} e.

Definition bind {A B : Type} (m : result A) (k : A -> result B) : result B :=
  match m with
  | Ok a => k a
  | Raise e => Raise e
  end.

Definition is_ok {A : Type} (m : result A) : bool :=
  match m with Ok _ => true | Raise _ => false end.

(** [try: body / except: handler] with a bare [except]. *)
Definition try_except {A : Type} (body handler : result A) : result A :=
  match body with
  | Ok a => Ok a
  | Raise Unmodelled => Raise Unmodelled
  | Raise _ => handler
  end.

Fixpoint mapM {A B : Type} (f : A -> result B) (l : list A) : result (list B) :=
  match l with
  | [] => Ok []
  | x :: xs =>
      match f x with
      | Ok y => match mapM f xs with
                | Ok ys => Ok (y :: ys)
                | Raise e => Raise e
                end
      | Raise e => Raise e
      end
  end.

(** *** Text *)

(** [s.replace(c, '')] for a one-character [c]. *)
Fixpoint remove_char (c : ascii) (s : string) : string :=
  match s with
  | EmptyString => EmptyString
  | String a s' =>
      if Ascii.eqb a c then remove_char c s' else String a (remove_char c s')
  end.

(** Deleting every character of a class, as [re.sub('[..]', '', s)] does. *)
Fixpoint remove_chars (cls : list ascii) (s : string) : string :=
  match s with
  | EmptyString => EmptyString
  | String a s' =>
      if existsb (Ascii.eqb a) cls
      then remove_chars cls s' else String a (remove_chars cls s')
  end.

(** [s.split(sep)] for a one-character separator: never empty. *)
Fixpoint split (sep : ascii) (s : string) : list string :=
  match s with
  | EmptyString => [EmptyString]
  | String a s' =>
      if Ascii.eqb a sep then EmptyString :: split sep s'
      else match split sep s' with
           | [] => [String a EmptyString]
           | w :: ws => String a w :: ws
           end
  end.

(** [l[i]] on a list. *)
Definition item {A : Type} (l : list A) (i : nat) : result A :=
  match nth_error l i with
  | Some x => Ok x
  | None => Raise IndexError
  end.

(** *** Numerals *)

Definition is_digit (c : ascii) : bool :=
  (48 <=? nat_of_ascii c)%nat && (nat_of_ascii c <=? 57)%nat.

Definition digit_value (c : ascii) : Z := Z.of_nat (nat_of_ascii c - 48).

(** Printable ASCII without the digit separator. *)
Definition plain_char (c : ascii) : bool :=
  (32 <=? nat_of_ascii c)%nat && (nat_of_ascii c <=? 126)%nat
  && negb (Ascii.eqb c "_").

Definition plain_text (s : string) : bool :=
  forallb plain_char (list_ascii_of_string s).

Fixpoint lstrip (cs : list ascii) : list ascii :=
  match cs with
  | c :: cs' => if Ascii.eqb c " " then lstrip cs' else cs
  | [] => []
  end.

Definition strip (cs : list ascii) : list ascii :=
  rev (lstrip (rev (lstrip cs))).

(** A non-empty run of decimal digits and its value. *)
Definition digits_value (cs : list ascii) : option Z :=
  match cs with
  | [] => None
  | _ => if forallb is_digit cs
         then Some (fold_left (fun acc c => 10 * acc + digit_value c) cs 0)%Z
         else None
  end.

Definition split_sign (cs : list ascii) : bool * list ascii :=
  match cs with
  | c :: cs' =>
      if Ascii.eqb c "-" then (true, cs')
      else if Ascii.eqb c "+" then (false, cs')
      else (false, cs)
  | [] => (false, [])
  end.

Definition signed (neg : bool) (z : Z) : Z := if neg then (- z)%Z else z.

(** [int(s)] *)
Definition int (s : string) : result Z :=
  if plain_text s then
    let (neg, body) := split_sign (strip (list_ascii_of_string s)) in
    match digits_value body with
    | Some n => Ok (signed neg n)
    | None => Raise ValueError
    end
  else Raise Unmodelled.

Definition lower (c : ascii) : ascii :=
  let n := nat_of_ascii c in
  if (65 <=? n)%nat && (n <=? 90)%nat then ascii_of_nat (n + 32) else c.

(** The text before and, if there is one, after the first character
    satisfying [p]. *)
Fixpoint break (p : ascii -> bool) (cs : list ascii)
  : list ascii * option (list ascii) :=
  match cs with
  | [] => ([], None)
  | c :: cs' =>
      if p c then ([], Some cs')
      else let (a, b) := break p cs' in (c :: a, b)
  end.

(** The rational [m * 10^e], in lowest terms. *)
Definition decimal (m e : Z) : Q :=
  Qred (if (0 <=? e)%Z then inject_Z (m * 10 ^ e)
        else Qmake m (Z.to_pos (10 ^ (- e)))).

(** An optional run of digits, read as zero when absent. *)
Definition digits_or_empty (cs : list ascii) : option Z :=
  match cs with
  | [] => Some 0%Z
  | _ => digits_value cs
  end.

(** The exponent part: absent, or a sign and digits. *)
Definition exponent (e : option (list ascii)) : option Z :=
  match e with
  | None => Some 0%Z
  | Some cs =>
      let (neg, ds) := split_sign cs in
      match digits_value ds with
      | Some n => Some (signed neg n)
      | None => None
      end
  end.

(** A decimal literal [digits [. digits] [e [sign] digits]] with a digit
    before or after the point. *)
Definition decimal_literal (cs : list ascii) : option Q :=
  let (mant, ex) := break (fun c => Ascii.eqb (lower c) "e") cs in
  let (ip, fp) := break (fun c => Ascii.eqb c ".") mant in
  let fp := match fp with Some f => f | None => [] end in
  match ip, fp with
  | [], [] => None
  | _, _ =>
      match digits_or_empty ip, digits_or_empty fp, exponent ex with
      | Some i, Some f, Some e =>
          let k := Z.of_nat (length fp) in
          Some (decimal (i * 10 ^ k + f) (e - k))
      | _, _, _ => None
      end
  end.

(** A Python float of the model: not-a-number or a rational. *)
Inductive float : Type :=
| Nan
| Fin (q : Q).

(** [float(s)] *)
Definition to_float (s : string) : result float :=
  if plain_text s then
    let (neg, body) := split_sign (strip (list_ascii_of_string s)) in
    let word := string_of_list_ascii (map lower body) in
    if String.eqb word "nan" then Ok Nan
    else if String.eqb word "inf" || String.eqb word "infinity"
    then Raise Unmodelled
    else match decimal_literal body with
         | Some q => Ok (Fin (if neg then Qred (- q) else q))
         | None => Raise ValueError
         end
  else Raise Unmodelled.

End Py.

Import Py.

Notation "'let*' x ':=' m 'in' k" := (bind m (fun x => k))
  (at level 10, x name, m at level 100, k at level 200).

(** ** Tables: the part of pandas the notebook uses *)

Module Frame.

Inductive cell : Type :=
| NaN
| Str (s : string)
| Num (q : Q).

Definition of_float (f : float) : cell :=
  match f with
  | Nan => NaN
  | Fin q => Num q
  end.

Definition isnull (c : cell) : bool :=
  match c with NaN => true | _ => false end.

Definition notnull (c : cell) : bool := negb (isnull c).

(** Equality of cells as [unique] and [merge] see it: missing values are
    alike. *)
Definition cell_eqb (a b : cell) : bool :=
  match a, b with
  | NaN, NaN => true
  | Str s, Str t => String.eqb s t
  | Num p, Num q => Qeq_bool p q
  | _, _ => false
  end.

(** A table is stored by columns, in column order. *)
Record DataFrame : Type := mkFrame {
  nrows : nat;
  columns : list (string * list cell)
}.

(** A row as [apply(axis=1)] hands it over: cells indexed by column name. *)
Definition Row : Type := list (string * cell).

Definition names (df : DataFrame) : list string := map fst (columns df).

Fixpoint assoc {A : Type} (name : string) (l : list (string * A)) : option A :=
  match l with
  | [] => None
  | (n, x) :: l' => if String.eqb n name then Some x else assoc name l'
  end.

Definition mem (name : string) (l : list string) : bool :=
  existsb (String.eqb name) l.

Fixpoint distinct (l : list string) : bool :=
  match l with
  | [] => true
  | x :: xs => negb (mem x xs) && distinct xs
  end.

Definition well_formed (df : DataFrame) : bool :=
  distinct (names df)
  && forallb (fun c => Nat.eqb (length (snd c)) (nrows df)) (columns df).

(** [row[name]] *)
Definition getitem (row : Row) (name : string) : result cell :=
  match assoc name row with
  | Some c => Ok c
  | None => Raise KeyError
  end.

(** [df[name]] *)
Definition column (df : DataFrame) (name : string) : result (list cell) :=
  match assoc name (columns df) with
  | Some c => Ok c
  | None => Raise KeyError
  end.

Definition row_at (df : DataFrame) (i : nat) : Row :=
  map (fun c => (fst c, nth i (snd c) NaN)) (columns df).

Definition rows (df : DataFrame) : list Row :=
  map (row_at df) (seq 0 (nrows df)).

(** [df.apply(f, axis=1)]: [f] on every row, top to bottom.  What pandas
    makes of a table without rows is not modelled. *)
Definition apply {A : Type} (df : DataFrame) (f : Row -> result A) : result (list A) :=
  match nrows df with
  | O => Raise Unmodelled
  | S _ => mapM f (rows df)
  end.

Fixpoint assign {A : Type} (name : string) (v : A) (l : list (string * A))
  : list (string * A) :=
  match l with
  | [] => [(name, v)]
  | (n, x) :: l' =>
      if String.eqb n name then (n, v) :: l' else (n, x) :: assign name v l'
  end.

(** [df[name] = values]: an existing column is replaced where it stands, a
    new one is added last. *)
Definition setitem (df : DataFrame) (name : string) (values : list cell) : DataFrame :=
  mkFrame (nrows df) (assign name values (columns df)).

(** [df.rename(columns=mapping)] *)
Definition rename (df : DataFrame) (mapping : list (string * string)) : DataFrame :=
  mkFrame (nrows df)
    (map (fun c => (match assoc (fst c) mapping with
                    | Some n => n
                    | None => fst c
                    end, snd c)) (columns df)).

(** [df.drop(columns=labels)]: every label has to be there. *)
Definition drop (df : DataFrame) (labels : list string) : result DataFrame :=
  if forallb (fun l => mem l (names df)) labels
  then Ok (mkFrame (nrows df)
             (List.filter (fun c => negb (mem (fst c) labels)) (columns df)))
  else Raise KeyError.

Fixpoint select {A : Type} (mask : list bool) (l : list A) : list A :=
  match mask, l with
  | b :: mask', x :: l' => if b then x :: select mask' l' else select mask' l'
  | _, _ => []
  end.

(** [df.dropna(subset=[name])] *)
Definition dropna (df : DataFrame) (name : string) : result DataFrame :=
  let* col := column df name in
  let mask := map notnull col in
  Ok (mkFrame (length (List.filter notnull col))
        (map (fun c => (fst c, select mask (snd c))) (columns df))).

(** [pd.merge(left, right, on=key)]: the inner join.  Every left row, in
    order, is paired with the right rows of the same key; a column name the
    two tables share gets the suffixes [_x] and [_y].  Tables with repeated
    column names are not modelled. *)
Definition merge (left right : DataFrame) (key : string) : result DataFrame :=
  if well_formed left && well_formed right then
    let* lk := column left key in
    let* rk := column right key in
    let pairs :=
      flat_map (fun i =>
        map (fun j => (i, j))
          (List.filter (fun j => cell_eqb (nth i lk NaN) (nth j rk NaN))
             (seq 0 (nrows right))))
        (seq 0 (nrows left)) in
    let shared other n := negb (String.eqb n key) && mem n (names other) in
    let lcols :=
      map (fun c => (if shared right (fst c) then String.append (fst c) "_x" else fst c,
                     map (fun p => nth (fst p) (snd c) NaN) pairs))
        (columns left) in
    let rcols :=
      map (fun c => (if shared left (fst c) then String.append (fst c) "_y" else fst c,
                     map (fun p => nth (snd p) (snd c) NaN) pairs))
        (List.filter (fun c => negb (String.eqb (fst c) key)) (columns right)) in
    let out := mkFrame (length pairs) (lcols ++ rcols) in
    if distinct (names out) then Ok out else Raise Unmodelled
  else Raise Unmodelled.

(** [s.astype(str).str.replace(pattern, '').astype('float')] on one cell,
    for a pattern that deletes the characters of [cls].  A missing cell
    becomes the text [nan] and reads back as missing; a number is printed
    and read back unchanged. *)
Definition to_number (cls : list ascii) (c : cell) : result cell :=
  match c with
  | NaN => Ok NaN
  | Str s => let* f := to_float (remove_chars cls s) in Ok (of_float f)
  | Num q => Ok (Num q)
  end.

(** The numbers of a column, missing cells skipped.  Arithmetic on a column
    that holds text is not modelled. *)
Fixpoint numbers (col : list cell) : result (list Q) :=
  match col with
  | [] => Ok []
  | NaN :: col' => numbers col'
  | Num q :: col' => let* qs := numbers col' in Ok (q :: qs)
  | Str _ :: _ => Raise Unmodelled
  end.

Definition Qsum (qs : list Q) : Q := fold_right Qplus 0%Q qs.

(** [s.mean()]: missing when there is nothing to average. *)
Definition mean (col : list cell) : result cell :=
  let* qs := numbers col in
  match qs with
  | [] => Ok NaN
  | _ => Ok (Num (Qred (Qsum qs / inject_Z (Z.of_nat (length qs)))%Q))
  end.

Definition count (q : Q) (qs : list Q) : nat :=
  length (List.filter (Qeq_bool q) qs).

(** Does [x] come before [y] in the result of [mode]: more frequent, or as
    frequent and smaller. *)
Definition before (qs : list Q) (x y : Q) : bool :=
  (count y qs <? count x qs)%nat
  || ((count x qs =? count y qs)%nat && negb (Qle_bool y x)).

(** [s.mode()[0]]: the smallest of the most frequent values.  The class of
    the exception on a column without values depends on the pandas version. *)
Definition mode0 (col : list cell) : result cell :=
  let* qs := numbers col in
  match qs with
  | [] => Raise IndexError
  | q :: qs' =>
      Ok (Num (fold_left (fun b x => if before qs x b then x else b) qs' q))
  end.

(** [s.fillna(v)] on one cell. *)
Definition fill (v c : cell) : cell := if isnull c then v else c.

(** [s.unique()]: the distinct cells in order of first appearance. *)
Fixpoint unique (col : list cell) : list cell :=
  match col with
  | [] => []
  | c :: col' => c :: List.filter (fun d => negb (cell_eqb c d)) (unique col')
  end.

(** [s.fillna(v)] on the column [name] of a table; a table without that
    column is left as it is. *)
Definition fillna (df : DataFrame) (name : string) (v : cell) : DataFrame :=
  mkFrame (nrows df)
    (map (fun c => if String.eqb (fst c) name
                   then (fst c, map (fill v) (snd c)) else c) (columns df)).

(** *** Quantile buckets *)

Fixpoint insert_sorted (x : Q) (l : list Q) : list Q :=
  match l with
  | [] => [x]
  | y :: l' => if Qle_bool x y then x :: l else y :: insert_sorted x l'
  end.

Definition sort (l : list Q) : list Q := fold_right insert_sorted [] l.

(** The quantile of sorted values at [p], interpolating linearly between
    the two neighbours of position [p * (n - 1)]. *)
Definition quantile (values : list Q) (p : Q) : Q :=
  let idx := (p * inject_Z (Z.of_nat (length values) - 1))%Q in
  let i := Z.to_nat (Qfloor idx) in
  let frac := (idx - inject_Z (Qfloor idx))%Q in
  if Qeq_bool frac 0 then nth i values 0%Q
  else let a := nth i values 0%Q in
       let b := nth (S i) values 0%Q in
       Qred (a + (b - a) * frac)%Q.

(** The distinct bin edges, first occurrences kept. *)
Fixpoint dedupe (l : list Q) : list Q :=
  match l with
  | [] => []
  | x :: l' => x :: List.filter (fun y => negb (Qeq_bool x y)) (dedupe l')
  end.

(** [bins.searchsorted(x, side='left')] on ascending edges: how many edges
    lie strictly below [x]. *)
Definition searchsorted (bins : list Q) (x : Q) : nat :=
  length (List.filter (fun b => negb (Qle_bool x b)) bins).

(** The bucket of one cell: the lowest edge belongs to the first bucket; a
    value on no bucket, like a missing one, gets no label. *)
Definition bucket (bins : list Q) (c : cell) : cell :=
  match c with
  | Num x =>
      let ids := if Qeq_bool x (nth 0 bins 0%Q) then 1%nat
                 else searchsorted bins x in
      if Nat.eqb ids (length bins) || Nat.eqb ids 0 then NaN
      else Num (inject_Z (Z.of_nat ids - 1))
  | _ => NaN
  end.

(** The edges [qcut] cuts at: the [q + 1] quantiles of the values, with
    duplicates dropped. *)
Definition edges (values : list Q) (q : nat) : list Q :=
  let sorted := sort values in
  let bins :=
    map (fun k => quantile sorted (inject_Z (Z.of_nat k) / inject_Z (Z.of_nat q))%Q)
      (seq 0 (S q)) in
  let u := dedupe bins in
  if (length u <? length bins)%nat && negb (Nat.eqb (length bins) 2)
  then u else bins.

(** [pd.qcut(s, q, labels=False, duplicates='drop')] *)
Definition qcut (col : list cell) (q : nat) : result (list cell) :=
  let* values := numbers col in
  match values with
  | [] => Ok (map (fun _ => NaN) col)
  | _ => Ok (map (bucket (edges values q)) col)
  end.

End Frame.

Import Frame.

(** ** The helper functions of the notebook *)

(** The text of a cell on which a [str] method is called; a missing cell
    and a number are floats and have no such method. *)
Definition text (c : cell) : result string :=
  match c with
  | Str s => Ok s
  | _ => Raise AttributeError
  end.

Definition of_int (n : Z) : cell := Num (inject_Z n).

Definition get_month_from_date (row : Row) : result cell :=
  let* d := getitem row "date" in
  let* s := text d in
  let* part := item (split "-" s) 1 in
  let* n := int part in
  Ok (of_int n).

Definition get_year_from_date (row : Row) : result cell :=
  let* d := getitem row "date" in
  let* s := text d in
  let* part := item (split "-" s) 0 in
  let* n := int part in
  Ok (of_int n).

Definition get_host_since_year (row : Row) : result cell :=
  try_except
    (let* d := getitem row "host_since" in
     let* s := text d in
     let* part := item (split "-" s) 0 in
     let* n := int part in
     Ok (of_int n))
    (Ok NaN).

(** The chain of [replace] calls and the [split(',')] that both
    [get_val_from_list] and [split_list_into_columns] apply to a cell. *)
Definition list_items (s : string) : list string :=
  split ","
    (remove_char "}" (remove_char "{" (remove_char "034" (remove_char "'"
      (remove_char "]" (remove_char "[" s)))))).

Definition get_val_from_list (row : Row) (column_name value : string) : result cell :=
  try_except
    (let* c := getitem row column_name in
     let* s := text c in
     let vals := list_items s in
     if mem value vals then Ok (Num 1) else Ok (Num 0))
    (Ok (Num 0)).

Definition get_extra_people_fee (row : Row) : result cell :=
  let* c := getitem row "extra_people" in
  if cell_eqb c (Str "$0.00") then Ok (Num 0) else Ok (Num 1).

(** *** [value_dict] and its ranking *)

(** The dictionary keeps its keys in insertion order.  A value starts at 0
    and gains 1 each time it is met again. *)
Fixpoint tally (value : string) (d : list (string * Z)) : list (string * Z) :=
  match d with
  | [] => [(value, 0%Z)]
  | (k, n) :: d' =>
      if String.eqb k value then (k, (n + 1)%Z) :: d'
      else (k, n) :: tally value d'
  end.

(** The two nested loops over [df[column_name].unique()]. *)
Fixpoint count_values (cells : list cell) (value_dict : list (string * Z))
  : result (list (string * Z)) :=
  match cells with
  | [] => Ok value_dict
  | unique_value :: cells' =>
      let* s := text unique_value in
      count_values cells'
        (fold_left (fun d value => tally value d) (list_items s) value_dict)
  end.

Fixpoint insert_desc (x : string * Z) (l : list (string * Z)) : list (string * Z) :=
  match l with
  | [] => [x]
  | y :: l' => if (snd x <? snd y)%Z then y :: insert_desc x l' else x :: l
  end.

(** [sorted(items, key=lambda x: x[1], reverse=True)]: descending and
    stable, equal counts keep the order of the dictionary. *)
Definition sorted_desc (items : list (string * Z)) : list (string * Z) :=
  fold_right insert_desc [] items.

Definition dummy_name (column_name value : string) : string :=
  String.append column_name (String.append "_" value).

(** The items that get a column, from the cells of the list column. *)
Definition selected (col : list cell) (max_dummies_num : nat) : result (list string) :=
  let* value_dict := count_values (unique col) [] in
  Ok (map fst (firstn max_dummies_num (sorted_desc value_dict))).

(** ** Tables on the heap *)

(** Python variables hold references; a table lives on the heap and some
    operations change it where it is. *)
Abbreviation ref := nat.
Abbreviation heap := (list DataFrame).
Definition M (A : Type) : Type := heap -> heap * result A.

Definition ret {A : Type} (a : A) : M A := fun h => (h, Ok a).

Definition bindM {A B : Type} (m : M A) (k : A -> M B) : M B :=
  fun h =>
    match m h with
    | (h', Ok a) => k a h'
    | (h', Raise e) => (h', Raise e)
    end.

Definition lift {A : Type} (r : result A) : M A := fun h => (h, r).

Definition load (l : ref) : M DataFrame :=
  fun h =>
    match h !! l with
    | Some t => (h, Ok t)
    | None => (h, Raise Unmodelled)
    end.

Definition store (l : ref) (t : DataFrame) : M unit :=
  fun h => (<[l := t]> h, Ok tt).

Definition alloc (t : DataFrame) : M ref :=
  fun h => (h ++ [t], Ok (length h)).

Notation "'let!' x ':=' m 'in' k" := (bindM m (fun x => k))
  (at level 10, x name, m at level 100, k at level 200).

(** [for x in l: body] *)
Fixpoint for_each {A : Type} (l : list A) (body : A -> M unit) : M unit :=
  match l with
  | [] => ret tt
  | x :: l' => let! _ := body x in for_each l' body
  end.

(** A method that returns a new table. *)
Definition derive (df : ref) (f : DataFrame -> result DataFrame) : M ref :=
  let! t := load df in
  let! t' := lift (f t) in
  alloc t'.

(** A method that only reads the table. *)
Definition query {A : Type} (df : ref) (f : DataFrame -> result A) : M A :=
  let! t := load df in lift (f t).

(** A statement that changes the table where it is. *)
Definition update (df : ref) (f : DataFrame -> DataFrame) : M unit :=
  let! t := load df in store df (f t).

Definition df_rename (df : ref) (mapping : list (string * string)) : M ref :=
  derive df (fun t => Ok (rename t mapping)).

Definition pd_merge (left right : ref) (key : string) : M ref :=
  let! l := load left in
  let! r := load right in
  let! t := lift (merge l r key) in
  alloc t.

Definition df_drop (df : ref) (labels : list string) : M ref :=
  derive df (fun t => drop t labels).

Definition df_dropna (df : ref) (name : string) : M ref :=
  derive df (fun t => dropna t name).

Definition df_apply (df : ref) (f : Row -> result cell) : M (list cell) :=
  query df (fun t => apply t f).

Definition df_getitem (df : ref) (name : string) : M (list cell) :=
  query df (fun t => column t name).

Definition df_setitem (df : ref) (name : string) (values : list cell) : M unit :=
  update df (fun t => setitem t name values).

(** [df[name].fillna(v, inplace=True)] *)
Definition df_fillna_inplace (df : ref) (name : string) (v : cell) : M unit :=
  let! _ := df_getitem df name in update df (fun t => fillna t name v).

Definition split_list_into_columns (df : ref) (column_name : string)
    (max_dummies_num : nat) : M unit :=
  let! col := df_getitem df column_name in
  let! values := lift (selected col max_dummies_num) in
  for_each values (fun value =>
    let! dummy := df_apply df (fun row => get_val_from_list row column_name value) in
    df_setitem df (dummy_name column_name value) dummy).

(** [df[name] = df[name].fillna(df[name].mode()[0])] *)
Definition fill_with_mode (df : ref) (name : string) : M unit :=
  let! col := df_getitem df name in
  let! col' := df_getitem df name in
  let! m := lift (mode0 col') in
  df_setitem df name (map (fill m) col).

(** ** The main cleaning function *)

Definition columns_to_drop : list string :=
  ["available"; "host_id"; "host_location"; "host_acceptance_rate";
   "host_neighbourhood"; "host_total_listings_count"; "weekly_price";
   "monthly_price"; "security_deposit"; "cleaning_fee"; "calendar_updated";
   "listing_url"; "last_scraped"; "scrape_id"; "name"; "summary"; "space";
   "description"; "experiences_offered"; "street"; "neighbourhood";
   "neighbourhood_cleansed"; "zipcode"; "neighborhood_overview"; "notes";
   "transit"; "thumbnail_url"; "medium_url"; "picture_url"; "xl_picture_url";
   "host_url"; "host_name"; "host_about"; "host_thumbnail_url";
   "host_picture_url"; "city"; "state"; "market"; "smart_location";
   "country_code"; "country"; "latitude"; "longitude"; "is_location_exact";
   "square_feet"; "has_availability"; "availability_30"; "availability_60";
   "availability_90"; "availability_365"; "calendar_last_scraped";
   "first_review"; "last_review"; "requires_license"; "license";
   "jurisdiction_names"; "price_y"; "reviews_per_month"].

Definition review_scores_columns : list string :=
  ["review_scores_rating"; "review_scores_accuracy";
   "review_scores_cleanliness"; "review_scores_checkin";
   "review_scores_communication"; "review_scores_location";
   "review_scores_value"].

(** [s.astype(str)]: the cell is kept and stands for its printed text, which
    [to_number] then reads. *)
Definition astype_str (col : list cell) : list cell := col.

(** [s.str.replace(pattern, '').astype('float')] *)
Definition replace_astype_float (cls : list ascii) (col : list cell) : result (list cell) :=
  mapM (to_number cls) col.

Definition clean_dataset (listings_df calendar_df : ref) : M ref :=
  (* merge *)
  let! listings_df := df_rename listings_df [("id", "listing_id")] in
  let! df := pd_merge calendar_df listings_df "listing_id" in
  (* drop irrelevant cols *)
  let! df := df_drop df columns_to_drop in
  (* convert date from calendar into month and drop the original column *)
  let! month := df_apply df get_month_from_date in
  let! _ := df_setitem df "month" month in
  let! year := df_apply df get_year_from_date in
  let! _ := df_setitem df "year" year in
  let! df := df_drop df ["date"] in
  (* remove rows where price_x == nan *)
  let! df := df_dropna df "price_x" in
  (* convert price to number and drop the price_x column *)
  let! price_x := df_getitem df "price_x" in
  let! _ := df_setitem df "price" (astype_str price_x) in
  let! price := df_getitem df "price" in
  let! price := lift (replace_astype_float ["$"; ","; " "]%char price) in
  let! _ := df_setitem df "price" price in
  let! df := df_drop df ["price_x"] in
  (* convert host_since date into number and fill in missing values *)
  let! host_since_year := df_apply df get_host_since_year in
  let! _ := df_setitem df "host_since_year" host_since_year in
  let! col := df_getitem df "host_since_year" in
  let! m := lift (mean col) in
  let! _ := df_fillna_inplace df "host_since_year" m in
  let! df := df_drop df ["host_since"] in
  (* convert host_response_rate into number and fill in missing values *)
  let! rate := df_getitem df "host_response_rate" in
  let! _ := df_setitem df "host_response_rate_num" (astype_str rate) in
  let! rate := df_getitem df "host_response_rate_num" in
  let! rate := lift (replace_astype_float ["%"]%char rate) in
  let! _ := df_setitem df "host_response_rate_num" rate in
  let! col := df_getitem df "host_response_rate_num" in
  let! m := lift (mean col) in
  let! _ := df_fillna_inplace df "host_response_rate_num" m in
  let! col := df_getitem df "host_response_rate_num" in
  let! buckets := lift (qcut col 5) in
  let! _ := df_setitem df "host_response_rate_buckets" buckets in
  let! df := df_drop df ["host_response_rate"; "host_response_rate_num"] in
  (* fill missing values with mean value for host_listings_count *)
  let! col := df_getitem df "host_listings_count" in
  let! m := lift (mean col) in
  let! _ := df_fillna_inplace df "host_listings_count" m in
  (* split host_verifications into dummy columns and drop the original *)
  let! _ := split_list_into_columns df "host_verifications" 10 in
  let! df := df_drop df ["host_verifications"] in
  (* fill in missing values for bathrooms, bedrooms and beds with mode *)
  let! _ := fill_with_mode df "bathrooms" in
  let! _ := fill_with_mode df "bedrooms" in
  let! _ := fill_with_mode df "beds" in
  (* split amenities into dummy columns and drop the original column *)
  let! _ := split_list_into_columns df "amenities" 10 in
  let! df := df_drop df ["amenities"] in
  (* turn extra people fee into binary column *)
  let! fee := df_apply df get_extra_people_fee in
  let! _ := df_setitem df "extra_people_fee" fee in
  let! df := df_drop df ["extra_people"] in
  (* fill missing values for review scores columns *)
  let! _ := for_each review_scores_columns (fun column =>
    let! col := df_getitem df column in
    let! m := lift (mean col) in
    df_fillna_inplace df column m) in
  ret df.

(** ** The pipeline as a function on tables

    What [clean_dataset] computes, stage by stage, with the heap left out.
    [clean_dataset_run] below shows that the program on the heap returns a
    reference to exactly this table. *)

Module Stage.

(** merge, and drop irrelevant cols *)
Definition joined (listings calendar : DataFrame) : result DataFrame :=
  let* df := merge calendar (rename listings [("id", "listing_id")]) "listing_id" in
  drop df columns_to_drop.

(** month and year *)
Definition dated (df : DataFrame) : result DataFrame :=
  let* month := apply df get_month_from_date in
  let df := setitem df "month" month in
  let* year := apply df get_year_from_date in
  let df := setitem df "year" year in
  drop df ["date"].

(** rows without price removed, price as a number *)
Definition priced (df : DataFrame) : result DataFrame :=
  let* df := dropna df "price_x" in
  let* price_x := column df "price_x" in
  let df := setitem df "price" (astype_str price_x) in
  let* price := column df "price" in
  let* price := replace_astype_float ["$"; ","; " "]%char price in
  let df := setitem df "price" price in
  drop df ["price_x"].

Definition fill_with_mean (df : DataFrame) (name : string) : result DataFrame :=
  let* col := column df name in
  let* m := mean col in
  let* _ := column df name in
  Ok (fillna df name m).

Definition hosted (df : DataFrame) : result DataFrame :=
  let* host_since_year := apply df get_host_since_year in
  let df := setitem df "host_since_year" host_since_year in
  let* df := fill_with_mean df "host_since_year" in
  drop df ["host_since"].

Definition rated (df : DataFrame) : result DataFrame :=
  let* rate := column df "host_response_rate" in
  let df := setitem df "host_response_rate_num" (astype_str rate) in
  let* rate := column df "host_response_rate_num" in
  let* rate := replace_astype_float ["%"]%char rate in
  let df := setitem df "host_response_rate_num" rate in
  let* df := fill_with_mean df "host_response_rate_num" in
  let* col := column df "host_response_rate_num" in
  let* buckets := qcut col 5 in
  let df := setitem df "host_response_rate_buckets" buckets in
  drop df ["host_response_rate"; "host_response_rate_num"].

(** One turn of the loop of [split_list_into_columns]. *)
Definition add_dummy (column_name : string) (df : DataFrame) (value : string)
  : result DataFrame :=
  let* dummy := apply df (fun row => get_val_from_list row column_name value) in
  Ok (setitem df (dummy_name column_name value) dummy).

Fixpoint foldM {A : Type} (f : DataFrame -> A -> result DataFrame)
    (l : list A) (df : DataFrame) : result DataFrame :=
  match l with
  | [] => Ok df
  | x :: l' => let* df := f df x in foldM f l' df
  end.

Definition split_columns (column_name : string) (max_dummies_num : nat)
    (df : DataFrame) : result DataFrame :=
  let* col := column df column_name in
  let* values := selected col max_dummies_num in
  foldM (add_dummy column_name) values df.

Definition fill_mode (df : DataFrame) (name : string) : result DataFrame :=
  let* col := column df name in
  let* col' := column df name in
  let* m := mode0 col' in
  Ok (setitem df name (map (fill m) col)).

Definition with_fee (df : DataFrame) : result DataFrame :=
  let* fee := apply df get_extra_people_fee in
  let df := setitem df "extra_people_fee" fee in
  drop df ["extra_people"].

Definition clean_table (listings calendar : DataFrame) : result DataFrame :=
  let* df := joined listings calendar in
  let* df := dated df in
  let* df := priced df in
  let* df := hosted df in
  let* df := rated df in
  let* df := fill_with_mean df "host_listings_count" in
  let* df := split_columns "host_verifications" 10 df in
  let* df := drop df ["host_verifications"] in
  let* df := fill_mode df "bathrooms" in
  let* df := fill_mode df "bedrooms" in
  let* df := fill_mode df "beds" in
  let* df := split_columns "amenities" 10 df in
  let* df := drop df ["amenities"] in
  let* df := with_fee df in
  foldM fill_with_mean review_scores_columns df.

End Stage.

(** ** Relating the program on the heap to the function on tables *)

(** A run from the heap [h0] only adds tables to it, and ends like the
    function on tables [r]: it raises the same exception, or it returns a
    reference to the table [r] gives. *)
Definition agrees (h0 : heap) (p : heap * result ref) (r : result DataFrame) : Prop :=
  exists ext,
    fst p = h0 ++ ext
    /\ match r with
       | Ok t => exists l, snd p = Ok l /\ fst p !! l = Some t
       | Raise e => snd p = Raise e
       end.

(** The statement [m] works on the table at position [k] behind [h0] where
    it stands, as the function [g] says, and touches nothing else. *)
Definition in_place (h0 : heap) (k : nat) (m : M unit)
    (g : DataFrame -> result DataFrame) : Prop :=
  forall ext t,
    ext !! k = Some t ->
    exists t'',
      m (h0 ++ ext)
      = (h0 ++ <[k := t'']> ext,
         match g t with Ok _ => Ok tt | Raise e => Raise e end)
      /\ forall t', g t = Ok t' -> t'' = t'.

(** ** Small tables to run the pipeline on *)

Module Demo.

(** The columns of the listings table that the pipeline only drops. *)
Definition filler (n : nat) : list (string * list cell) :=
  map (fun c => (c, repeat NaN n))
    (List.filter (fun c => negb (mem c ["available"; "price_y"])) columns_to_drop).

(** Two listings. *)
Definition listings : DataFrame :=
  mkFrame 2
    ([("id", [Num 1; Num 2]);
      ("host_since", [Str "2011-08-11"; NaN]);
      ("host_response_rate", [Str "96%"; Str "100%"]);
      ("host_listings_count", [Num 3; NaN]);
      ("host_verifications", [Str "['email', 'phone']"; Str "['email']"]);
      ("bathrooms", [Num 1; NaN]);
      ("bedrooms", [Num 1; Num 2]);
      ("beds", [NaN; Num 2]);
      ("amenities", [Str "{TV,Wifi}"; Str "{}"]);
      ("extra_people", [Str "$5.00"; Str "$0.00"]);
      ("price", [Str "$85.00"; Str "$150.00"]);
      ("accommodates", [Num 4; Num 2])]
     ++ map (fun c => (c, [Num 95; NaN])) review_scores_columns
     ++ filler 2).

(** Four calendar rows: one without price, one of an unknown listing. *)
Definition calendar : DataFrame :=
  mkFrame 4
    [("listing_id", [Num 1; Num 1; Num 2; Num 3]);
     ("date", [Str "2016-01-04"; Str "2016-01-05"; Str "2016-07-04";
               Str "2016-07-04"]);
     ("available", [Str "t"; Str "f"; Str "t"; Str "t"]);
     ("price", [Str "$85.00"; NaN; Str "$150.00"; Str "$1,250.00"])].

(** The heap before the call: the listings at 0, the calendar at 1. *)
Definition memory : list DataFrame := [listings; calendar].

Definition empty : DataFrame := mkFrame 0 [].

(** The table a call returns, the empty table standing in if it raises. *)
Definition result_of (p : list DataFrame * result nat) : DataFrame :=
  match snd p with
  | Ok r => nth r (fst p) empty
  | Raise _ => empty
  end.

Definition out : DataFrame := result_of (clean_dataset 0 1 memory).

(** The joined table of the two, before any row is removed. *)
Definition joined : DataFrame :=
  match Stage.joined listings calendar with
  | Ok t => t
  | Raise _ => empty
  end.



(** The listings with one column replaced. *)
Definition listings_with (name : string) (values : list cell) : DataFrame :=
  setitem listings name values.

End Demo.

(** ** The tables between the stages *)

(** The intermediate tables of a run of [Stage.clean_table] that ends with
    the table [out]. *)
Record Trace (listings calendar out : DataFrame) : Type := mkTrace {
  t_joined : DataFrame;
  t_dated : DataFrame;
  t_priced : DataFrame;
  t_hosted : DataFrame;
  t_rated : DataFrame;
  t_counted : DataFrame;
  t_verified : DataFrame;
  t_verified' : DataFrame;
  t_bathrooms : DataFrame;
  t_bedrooms : DataFrame;
  t_beds : DataFrame;
  t_amenities : DataFrame;
  t_amenities' : DataFrame;
  t_fee : DataFrame;
  run_joined : Stage.joined listings calendar = Ok t_joined;
  run_dated : Stage.dated t_joined = Ok t_dated;
  run_priced : Stage.priced t_dated = Ok t_priced;
  run_hosted : Stage.hosted t_priced = Ok t_hosted;
  run_rated : Stage.rated t_hosted = Ok t_rated;
  run_counted : Stage.fill_with_mean t_rated "host_listings_count" = Ok t_counted;
  run_verified : Stage.split_columns "host_verifications" 10 t_counted = Ok t_verified;
  run_verified' : drop t_verified ["host_verifications"] = Ok t_verified';
  run_bathrooms : Stage.fill_mode t_verified' "bathrooms" = Ok t_bathrooms;
  run_bedrooms : Stage.fill_mode t_bathrooms "bedrooms" = Ok t_bedrooms;
  run_beds : Stage.fill_mode t_bedrooms "beds" = Ok t_beds;
  run_amenities : Stage.split_columns "amenities" 10 t_beds = Ok t_amenities;
  run_amenities' : drop t_amenities ["amenities"] = Ok t_amenities';
  run_fee : Stage.with_fee t_amenities' = Ok t_fee;
  run_reviews : Stage.foldM Stage.fill_with_mean review_scores_columns t_fee = Ok out
}.

Arguments t_joined {listings calendar out} _.
Arguments t_dated {listings calendar out} _.
Arguments t_priced {listings calendar out} _.
Arguments t_hosted {listings calendar out} _.
Arguments t_rated {listings calendar out} _.
Arguments t_counted {listings calendar out} _.
Arguments t_verified {listings calendar out} _.
Arguments t_verified' {listings calendar out} _.
Arguments t_bathrooms {listings calendar out} _.
Arguments t_bedrooms {listings calendar out} _.
Arguments t_beds {listings calendar out} _.
Arguments t_amenities {listings calendar out} _.
Arguments t_amenities' {listings calendar out} _.
Arguments t_fee {listings calendar out} _.

(** The name of a dummy column of [column_name] starts with it and an
    underscore. *)
Definition dummy_of (column_name name : string) : bool :=
  String.prefix (String.append column_name "_") name.

(** The call [clean_dataset(listings_df, calendar_df)] on the heap [h]
    returns the table [out]. *)
Definition cleaned (h : heap) (listings_df calendar_df : ref) (out : DataFrame) : Prop :=
  exists h' r,
    clean_dataset listings_df calendar_df h = (h', Ok r) /\ h' !! r = Some out.


(** What the reader of numbers needs to know of a digit or decimal point. *)
Definition numeric_char (c : ascii) : Prop :=
  plain_char c = true
  /\ Ascii.eqb c " " = false
  /\ Ascii.eqb c "-" = false
  /\ Ascii.eqb c "+" = false
  /\ Ascii.eqb (lower c) "n" = false
  /\ Ascii.eqb (lower c) "i" = false.

(** ** Words for the ranking of items *)

(** The distinct items of a list in the order in which they are first
    met. *)
Fixpoint encounter_order (items : list string) : list string :=
  match items with
  | [] => []
  | x :: items' =>
      x :: List.filter (fun y => negb (String.eqb x y)) (encounter_order items')
  end.

(** A key enters the dictionary behind the others, once. *)
Definition add_key (ks : list string) (v : string) : list string :=
  if mem v ks then ks else ks ++ [v].

(** How often an item occurs in a list of items. *)
Definition occurrences (v : string) (items : list string) : Z :=
  Z.of_nat (length (List.filter (String.eqb v) items)).

(** The frequency of an item across all rows of a list column, as the
    specification words it: every row counts. *)
Definition row_frequency (col : list cell) (v : string) : Z :=
  fold_right Z.add 0%Z
    (map (fun c => match c with
                   | Str s => occurrences v (list_items s)
                   | _ => 0%Z
                   end) col).

(** Does the list in a cell hold the item. *)
Definition holds (c : cell) (value : string) : Prop :=
  exists s, c = Str s /\ In value (list_items s).

Module Amenities.

(** Five rows: two different long lists, and three times the same short
    one. *)
Definition col : list cell :=
  [Str "{a,b,c,d,e,f,g,h,i,j}"; Str "{a,b,c,d,e,f,g,h,i,j,z}";
   Str "{k}"; Str "{k}"; Str "{k}"].

Definition table : DataFrame := mkFrame 5 [("amenities", col)].

(** The heap after [split_list_into_columns] on that table. *)
Definition after : list DataFrame :=
  fst (split_list_into_columns 0 "amenities" 10 [table]).

End Amenities.

(** ** Words for the properties of the helpers *)

(** How often a character stands in a text. *)
Fixpoint count_char (c : ascii) (s : string) : nat :=
  match s with
  | EmptyString => 0
  | String a s' => (if Ascii.eqb a c then 1 else 0) + count_char c s'
  end.

(** The characters [list_items] deletes, and the comma it splits at. *)
Definition list_punctuation : list ascii :=
  ["["; "]"; "'"; "034"; "{"; "}"; ","]%char.

(** ** Words for the columns of the cleaned table *)

(** The column names [clean_dataset] assigns to or drops, behind the list
    [columns_to_drop]. *)
Definition touched : list string :=
  ["month"; "year"; "date"; "price"; "price_x"; "host_since_year"; "host_since";
   "host_response_rate_num"; "host_response_rate_buckets"; "host_response_rate";
   "host_listings_count"; "host_verifications"; "bathrooms"; "bedrooms"; "beds";
   "amenities"; "extra_people_fee"; "extra_people"]
  ++ review_scores_columns.

(** The raw columns the steps of [clean_dataset] drop once they are read. *)
Definition raw_columns : list string :=
  ["date"; "price_x"; "host_since"; "host_response_rate";
   "host_response_rate_num"; "host_verifications"; "amenities"; "extra_people"].

(** The columns [clean_dataset] computes. *)
Definition engineered : list string :=
  ["month"; "year"; "price"; "host_since_year"; "host_response_rate_buckets";
   "extra_people_fee"].

(** The columns of the returned table that the cells behind the call read. *)
Definition read_later : list string := "listing_id" :: engineered.

(** The columns the merged table has to bring along. *)
Definition needed : list string :=
  columns_to_drop
  ++ ["date"; "price_x"; "host_since"; "host_response_rate";
      "host_listings_count"; "host_verifications"; "bathrooms"; "bedrooms";
      "beds"; "amenities"; "extra_people"]
  ++ review_scores_columns.

(** The table [pd.merge] hands to the first [drop]. *)
Definition merged (listings calendar : DataFrame) : result DataFrame :=
  merge calendar (rename listings [("id", "listing_id")]) "listing_id".

(** ** Words for the rows of the join *)

(** How many of the cells [ids] equal the key [k], as [merge] compares
    keys. *)
Definition matches (k : cell) (ids : list cell) : nat :=
  length (List.filter (cell_eqb k) ids).

(** No two cells are equal. *)
Fixpoint distinct_cells (l : list cell) : bool :=
  match l with
  | [] => true
  | x :: xs => negb (existsb (cell_eqb x) xs) && distinct_cells xs
  end.

(** A cell that holds a whole number. *)
Definition whole (c : cell) : Prop := exists n : Z, c = Num (inject_Z n).

(** ** The summary of the listings table *)

(** [listings_df.shape[0]] *)
Definition listings_number (listings_df : DataFrame) : nat := nrows listings_df.

(** [len(listings_df['host_id'].unique())] *)
Definition hosts_number (listings_df : DataFrame) : result nat :=
  let* host_id := column listings_df "host_id" in
  Ok (length (unique host_id)).

(** ** Listings per month

    The cell that counts, for every month of 2016, the listings with a
    priced date in that month. *)

(** A series of integers: labels with their values, in order. *)
Definition Series : Type := list (Z * Z).

(** [s[label] = value]: the value of an existing label is replaced, a new
    label is added last. *)
Fixpoint series_set (s : Series) (label value : Z) : Series :=
  match s with
  | [] => [(label, value)]
  | (l, v) :: s' =>
      if Z.eqb l label then (l, value) :: s'
      else (l, v) :: series_set s' label value
  end.

(** [s.drop(label)] *)
Definition series_drop (s : Series) (label : Z) : result Series :=
  if existsb (fun e => Z.eqb (fst e) label) s
  then Ok (List.filter (fun e => negb (Z.eqb (fst e) label)) s)
  else Raise KeyError.

(** [a & b] on two columns of truth values. *)
Fixpoint both (a b : list bool) : list bool :=
  match a, b with
  | x :: a', y :: b' => (x && y) :: both a' b'
  | _, _ => []
  end.

(** [len(df[(df['month'] == i) & (df['year'] == 2016)]['listing_id'].unique())] *)
Definition listings_of_month (df : DataFrame) (i : Z) : result Z :=
  let* month := column df "month" in
  let* year := column df "year" in
  let mask := both (map (fun c => cell_eqb c (of_int i)) month)
                   (map (fun c => cell_eqb c (of_int 2016)) year) in
  let* listing_id := column df "listing_id" in
  Ok (Z.of_nat (length (unique (select mask listing_id)))).

(** [for i in range(1, 13): number_of_listings_by_month[i] = ...] *)
Fixpoint months_loop (df : DataFrame) (months : list Z) (s : Series) : result Series :=
  match months with
  | [] => Ok s
  | i :: months' =>
      let* n := listings_of_month df i in
      months_loop df months' (series_set s i n)
  end.

Definition number_of_listings_by_month (df : DataFrame) : result Series :=
  let number_of_listings_by_month := [(0, 12)]%Z in
  let* number_of_listings_by_month :=
    months_loop df (map Z.of_nat (seq 1 12)) number_of_listings_by_month in
  series_drop number_of_listings_by_month 0.

(** ** The model on small inputs *)

Example int_07 : int "07" = Ok 7%Z.
Proof. reflexivity. Qed.

Example float_150 : to_float "150.00" = Ok (Fin 150).
Proof. reflexivity. Qed.

Example float_exp : to_float " -1.5E+2 " = Ok (Fin (-150)).
Proof. reflexivity. Qed.

Example float_bad : to_float "1e" = Raise ValueError.
Proof. reflexivity. Qed.

Example split_commas : split "," "a,,b" = ["a"; ""; "b"].
Proof. reflexivity. Qed.

Example qcut_spread :
  qcut [Num 10; Num 20; NaN; Num 30; Num 40; Num 50; Num 60] 5
  = Ok [Num 0; Num 0; NaN; Num 1; Num 2; Num 3; Num 4].
Proof. reflexivity. Qed.

Example mode0_ties : mode0 [Num 2; Num 1; NaN; Num 2; Num 1; Num 3] = Ok (Num 1).
Proof. reflexivity. Qed.

Example mean_skips_missing : mean [Num 1; NaN; Num 2] = Ok (Num (3 # 2)).
Proof. reflexivity. Qed.

Example qcut_constant_column : qcut [Num 96; Num 96] 5 = Ok [NaN; NaN].
Proof. reflexivity. Qed.

Example host_since_unreadable :
  get_host_since_year [("host_since", Str "last year")] = Ok NaN.
Proof. reflexivity. Qed.

Example month_unreadable :
  get_month_from_date [("date", Str "2016-July-04")] = Raise ValueError.
Proof. reflexivity. Qed.

Example joined_demo :
  Stage.joined Demo.listings Demo.calendar
  = Ok (mkFrame 3
          ([("listing_id", [Num 1; Num 1; Num 2]);
            ("date", [Str "2016-01-04"; Str "2016-01-05"; Str "2016-07-04"]);
            ("price_x", [Str "$85.00"; NaN; Str "$150.00"]);
            ("host_since", [Str "2011-08-11"; Str "2011-08-11"; NaN]);
            ("host_response_rate", [Str "96%"; Str "96%"; Str "100%"]);
            ("host_listings_count", [Num 3; Num 3; NaN]);
            ("host_verifications",
             [Str "['email', 'phone']"; Str "['email', 'phone']"; Str "['email']"]);
            ("bathrooms", [Num 1; Num 1; NaN]);
            ("bedrooms", [Num 1; Num 1; Num 2]);
            ("beds", [NaN; NaN; Num 2]);
            ("amenities", [Str "{TV,Wifi}"; Str "{TV,Wifi}"; Str "{}"]);
            ("extra_people", [Str "$5.00"; Str "$5.00"; Str "$0.00"]);
            ("accommodates", [Num 4; Num 4; Num 2])]
           ++ map (fun c => (c, [Num 95; Num 95; NaN])) review_scores_columns)).
Proof. vm_compute. reflexivity. Qed.

Example clean_dataset_demo :
  snd (clean_dataset 0 1 Demo.memory) = Ok 12%nat
  /\ Demo.out
     = mkFrame 2
         ([("listing_id", [Num 1; Num 2]);
           ("host_listings_count", [Num 3; Num 3]);
           ("bathrooms", [Num 1; Num 1]);
           ("bedrooms", [Num 1; Num 2]);
           ("beds", [Num 2; Num 2]);
           ("accommodates", [Num 4; Num 2])]
          ++ map (fun c => (c, [Num 95; Num 95])) review_scores_columns
          ++ [("month", [Num 1; Num 7]);
              ("year", [Num 2016; Num 2016]);
              ("price", [Num 85; Num 150]);
              ("host_since_year", [Num 2011; Num 2011]);
              ("host_response_rate_buckets", [Num 0; Num 4]);
              ("host_verifications_email", [Num 1; Num 1]);
              ("host_verifications_ phone", [Num 1; Num 0]);
              ("amenities_TV", [Num 1; Num 0]);
              ("amenities_Wifi", [Num 1; Num 0]);
              ("amenities_", [Num 0; Num 1]);
              ("extra_people_fee", [Num 1; Num 0])]).
Proof. split; vm_compute; reflexivity. Qed.

(** ** The program on the heap computes the function on tables *)

Section Simulation.

Variable h0 : heap.

Lemma lookup_behind (ext : list DataFrame) (k : nat) :
  (h0 ++ ext) !! (length h0 + k) = ext !! k.
Proof.
  rewrite lookup_app_r by lia.
  f_equal. lia.
Qed.

Lemma insert_behind (ext : list DataFrame) (k : nat) (t : DataFrame) :
  <[length h0 + k := t]> (h0 ++ ext) = h0 ++ <[k := t]> ext.
Proof.
  rewrite insert_app_r_alt by lia.
  do 2 f_equal. lia.
Qed.

Lemma lookup_before (ext : list DataFrame) (l : ref) (t : DataFrame) :
  h0 !! l = Some t -> (h0 ++ ext) !! l = Some t.
Proof. intros H. apply lookup_app_l_Some. exact H. Qed.

Lemma agrees_raise (ext : list DataFrame) (e : exn) :
  agrees h0 (h0 ++ ext, Raise e) (Raise e).
Proof. exists ext. split; reflexivity. Qed.

Lemma agrees_ret (ext : list DataFrame) (k : nat) (t : DataFrame) :
  ext !! k = Some t ->
  agrees h0 (ret (length h0 + k) (h0 ++ ext)) (Ok t).
Proof.
  intros H. exists ext. split; [reflexivity|].
  exists (length h0 + k). split; [reflexivity|].
  cbn. rewrite lookup_behind. exact H.
Qed.

Lemma agrees_rename (ext : list DataFrame) (l : ref) (t : DataFrame)
    (mapping : list (string * string)) (K : ref -> M ref) (r : result DataFrame) :
  h0 !! l = Some t ->
  agrees h0 (K (length h0 + length ext) (h0 ++ (ext ++ [rename t mapping]))) r ->
  agrees h0 ((let! x := df_rename l mapping in K x) (h0 ++ ext)) r.
Proof.
  intros Hl H.
  unfold bindM, df_rename, derive, bindM, load, lift, alloc.
  rewrite (lookup_before ext l t Hl).
  rewrite length_app, <- app_assoc. exact H.
Qed.

Lemma agrees_merge (ext : list DataFrame) (c : ref) (k : nat) (tc tr : DataFrame)
    (key : string) (K : ref -> M ref) (K' : DataFrame -> result DataFrame) :
  h0 !! c = Some tc ->
  ext !! k = Some tr ->
  (forall t, merge tc tr key = Ok t ->
     agrees h0 (K (length h0 + length ext) (h0 ++ (ext ++ [t]))) (K' t)) ->
  agrees h0 ((let! x := pd_merge c (length h0 + k) key in K x) (h0 ++ ext))
    (let* x := merge tc tr key in K' x).
Proof.
  intros Hc Hk H.
  unfold bindM, pd_merge, bindM, load, lift, alloc.
  rewrite (lookup_before ext c tc Hc), lookup_behind, Hk.
  destruct (merge tc tr key) as [t|e]; cbn.
  - rewrite length_app, <- app_assoc. apply H. reflexivity.
  - apply agrees_raise.
Qed.

Lemma agrees_derive (ext : list DataFrame) (k : nat) (t : DataFrame)
    (f : DataFrame -> result DataFrame) (K : ref -> M ref)
    (r : result DataFrame) (K' : DataFrame -> result DataFrame) :
  ext !! k = Some t ->
  f t = r ->
  (forall t', r = Ok t' ->
     agrees h0 (K (length h0 + length ext) (h0 ++ (ext ++ [t']))) (K' t')) ->
  agrees h0 ((let! x := derive (length h0 + k) f in K x) (h0 ++ ext))
    (let* x := r in K' x).
Proof.
  intros Hk <- H.
  unfold bindM, derive, bindM, load, lift, alloc.
  rewrite lookup_behind, Hk.
  destruct (f t) as [t'|e]; cbn.
  - rewrite length_app, <- app_assoc. apply H. reflexivity.
  - apply agrees_raise.
Qed.

Lemma agrees_query {A : Type} (ext : list DataFrame) (k : nat) (t : DataFrame)
    (f : DataFrame -> result A) (K : A -> M ref)
    (r : result A) (K' : A -> result DataFrame) :
  ext !! k = Some t ->
  f t = r ->
  (forall a, r = Ok a -> agrees h0 (K a (h0 ++ ext)) (K' a)) ->
  agrees h0 ((let! x := query (length h0 + k) f in K x) (h0 ++ ext))
    (let* x := r in K' x).
Proof.
  intros Hk <- H.
  unfold bindM, query, bindM, load, lift.
  rewrite lookup_behind, Hk.
  destruct (f t) as [a|e]; cbn.
  - apply H. reflexivity.
  - apply agrees_raise.
Qed.

Lemma agrees_lift {A : Type} (h : heap) (m : result A) (K : A -> M ref)
    (K' : A -> result DataFrame) (ext : list DataFrame) :
  h = h0 ++ ext ->
  (forall a, m = Ok a -> agrees h0 (K a h) (K' a)) ->
  agrees h0 ((let! x := lift m in K x) h) (let* x := m in K' x).
Proof.
  intros -> H.
  unfold bindM, lift.
  destruct m as [a|e]; cbn.
  - apply H. reflexivity.
  - apply agrees_raise.
Qed.

Lemma agrees_update (ext : list DataFrame) (k : nat) (t : DataFrame)
    (f : DataFrame -> DataFrame) (K : unit -> M ref) (r : result DataFrame) :
  ext !! k = Some t ->
  agrees h0 (K tt (h0 ++ <[k := f t]> ext)) r ->
  agrees h0 ((let! x := update (length h0 + k) f in K x) (h0 ++ ext)) r.
Proof.
  intros Hk H.
  unfold bindM, update, bindM, load, store.
  rewrite lookup_behind, Hk, insert_behind. exact H.
Qed.

Lemma agrees_in_place (ext : list DataFrame) (k : nat) (t : DataFrame)
    (m : M unit) (g : DataFrame -> result DataFrame) (K : unit -> M ref)
    (r : result DataFrame) (K' : DataFrame -> result DataFrame) :
  in_place h0 k m g ->
  ext !! k = Some t ->
  g t = r ->
  (forall t', r = Ok t' -> agrees h0 (K tt (h0 ++ <[k := t']> ext)) (K' t')) ->
  agrees h0 ((let! x := m in K x) (h0 ++ ext)) (let* x := r in K' x).
Proof.
  intros Hm Hk <- H.
  destruct (Hm ext t Hk) as (t'' & Hrun & Ht'').
  unfold bindM. rewrite Hrun.
  destruct (g t) as [t'|e]; cbn.
  - rewrite (Ht'' t' eq_refl). apply H. reflexivity.
  - apply agrees_raise.
Qed.

End Simulation.

Section InPlace.

Variable h0 : heap.
Variable k : nat.

Ltac run_heap H :=
  repeat first
    [ rewrite lookup_behind | rewrite H | rewrite insert_behind | progress cbn ].

Lemma in_place_query_update {A : Type} (f : DataFrame -> result A)
    (u : A -> DataFrame -> DataFrame) :
  in_place h0 k
    (let! a := query (length h0 + k) f in update (length h0 + k) (u a))
    (fun t => let* a := f t in Ok (u a t)).
Proof.
  intros ext t Hk.
  unfold bindM, query, update, bindM, load, lift, store.
  rewrite lookup_behind, Hk.
  destruct (f t) as [a|e]; cbn.
  - run_heap Hk.
    exists (u a t). split; [reflexivity|]. intros t' [= <-]. reflexivity.
  - exists t. rewrite list_insert_id by exact Hk.
    split; [reflexivity|]. intros t' [=].
Qed.

Lemma in_place_for_each {A : Type} (body : A -> M unit)
    (g : DataFrame -> A -> result DataFrame) (l : list A) :
  (forall x, in_place h0 k (body x) (fun t => g t x)) ->
  in_place h0 k (for_each l body) (Stage.foldM g l).
Proof.
  intros Hbody. induction l as [|x l IH]; intros ext t Hk; cbn.
  - exists t. rewrite list_insert_id by exact Hk.
    split; [reflexivity|]. intros t' [= <-]. reflexivity.
  - destruct (Hbody x ext t Hk) as (t1 & Hrun & Ht1).
    unfold bindM. rewrite Hrun.
    destruct (g t x) as [t'|e]; cbn.
    + rewrite (Ht1 t' eq_refl).
      assert (Hk' : <[k := t']> ext !! k = Some t').
      { apply list_lookup_insert_eq. apply lookup_lt_Some in Hk. exact Hk. }
      destruct (IH (<[k := t']> ext) t' Hk') as (t2 & Hrun2 & Ht2).
      rewrite Hrun2, list_insert_insert_eq.
      exists t2. split; [reflexivity|]. exact Ht2.
    + exists t1. split; [reflexivity|]. intros t' [=].
Qed.

Lemma in_place_fill_mean (name : string) :
  in_place h0 k
    (let! col := df_getitem (length h0 + k) name in
     let! m := lift (mean col) in
     df_fillna_inplace (length h0 + k) name m)
    (fun t => Stage.fill_with_mean t name).
Proof.
  intros ext t Hk.
  unfold Stage.fill_with_mean, df_fillna_inplace, df_getitem.
  unfold bindM, query, update, bindM, load, lift, store.
  rewrite lookup_behind, Hk.
  destruct (column t name) as [col|e] eqn:Hcol; cbn.
  - destruct (mean col) as [m|e]; cbn.
    + run_heap Hk. rewrite ?Hcol. run_heap Hk.
      exists (fillna t name m). split; [reflexivity|]. intros t' [= <-]. reflexivity.
    + exists t. rewrite list_insert_id by exact Hk.
      split; [reflexivity|]. intros t' [=].
  - exists t. rewrite list_insert_id by exact Hk.
    split; [reflexivity|]. intros t' [=].
Qed.

Lemma in_place_fill_mode (name : string) :
  in_place h0 k (fill_with_mode (length h0 + k) name)
    (fun t => Stage.fill_mode t name).
Proof.
  intros ext t Hk.
  unfold Stage.fill_mode, fill_with_mode, df_getitem, df_setitem.
  unfold bindM, query, update, bindM, load, lift, store.
  rewrite lookup_behind, Hk.
  destruct (column t name) as [col|e] eqn:Hcol; cbn.
  - run_heap Hk. rewrite ?Hcol. cbn.
    destruct (mode0 col) as [m|e]; cbn.
    + run_heap Hk.
      exists (setitem t name (map (fill m) col)).
      split; [reflexivity|]. intros t' [= <-]. reflexivity.
    + exists t. rewrite list_insert_id by exact Hk.
      split; [reflexivity|]. intros t' [=].
  - exists t. rewrite list_insert_id by exact Hk.
    split; [reflexivity|]. intros t' [=].
Qed.

Lemma in_place_split (column_name : string) (n : nat) :
  in_place h0 k (split_list_into_columns (length h0 + k) column_name n)
    (Stage.split_columns column_name n).
Proof.
  intros ext t Hk.
  unfold split_list_into_columns, Stage.split_columns, df_getitem.
  unfold bindM at 1, query, bindM at 1, load, lift.
  rewrite lookup_behind, Hk.
  destruct (column t column_name) as [col|e]; cbn.
  - unfold bindM at 1.
    destruct (selected col n) as [values|e]; cbn.
    + apply (in_place_for_each _ (Stage.add_dummy column_name)); [|exact Hk].
      intros value. apply in_place_query_update.
    + exists t. rewrite list_insert_id by exact Hk.
      split; [reflexivity|]. intros t' [=].
  - exists t. rewrite list_insert_id by exact Hk.
    split; [reflexivity|]. intros t' [=].
Qed.

End InPlace.

Lemma bind_assoc {A B C : Type} (m : result A) (f : A -> result B)
    (g : B -> result C) :
  bind (bind m f) g = bind m (fun x => bind (f x) g).
Proof. destruct m; reflexivity. Qed.

Lemma bind_ok_r {A : Type} (m : result A) : m = bind m Ok.
Proof. destruct m; reflexivity. Qed.

Lemma in_place_fillna (h0 : heap) (k : nat) (name : string) (v : cell) :
  in_place h0 k (df_fillna_inplace (length h0 + k) name v)
    (fun t => let* _ := column t name in Ok (fillna t name v)).
Proof.
  apply (in_place_query_update h0 k (fun t => column t name)
           (fun _ t => fillna t name v)).
Qed.

Lemma agrees_fillna (h0 : heap) (ext : list DataFrame) (k : nat) (t : DataFrame)
    (name : string) (v : cell) (K : unit -> M ref)
    (r : result (list cell)) (K' : list cell -> result DataFrame) :
  ext !! k = Some t ->
  column t name = r ->
  (forall c, r = Ok c ->
     agrees h0 (K tt (h0 ++ <[k := fillna t name v]> ext)) (K' c)) ->
  agrees h0 ((let! x := df_fillna_inplace (length h0 + k) name v in K x) (h0 ++ ext))
    (let* x := r in K' x).
Proof.
  intros Hk <- H.
  destruct (in_place_fillna h0 k name v ext t Hk) as (t'' & Hrun & Ht'').
  unfold bindM. rewrite Hrun.
  destruct (column t name) as [c|e]; cbn.
  - rewrite (Ht'' _ eq_refl). apply H. reflexivity.
  - apply agrees_raise.
Qed.

Ltac sim_step :=
  rewrite ?bind_assoc; cbv beta zeta;
  first
    [ eapply agrees_derive; [reflexivity | reflexivity | intros ? ?]
    | eapply agrees_query; [reflexivity | reflexivity | intros ? ?]
    | eapply agrees_update; [reflexivity | ]
    | eapply agrees_lift; [reflexivity | intros ? ?]
    | eapply agrees_fillna; [reflexivity | reflexivity | intros ? ?]
    | eapply agrees_in_place;
      [ first [ apply in_place_fill_mode | apply in_place_split ]
      | reflexivity | reflexivity | intros ? ? ] ];
  cbn [bind app length lookup list_lookup insert list_insert Nat.add].

(** Started on a heap that holds the two tables, [clean_dataset] ends like
    [Stage.clean_table] on them. *)
Lemma clean_dataset_agrees (h : heap) (l c : ref) (tl tc : DataFrame) :
  h !! l = Some tl ->
  h !! c = Some tc ->
  agrees h (clean_dataset l c h) (Stage.clean_table tl tc).
Proof.
  intros Hl Hc.
  rewrite <- (app_nil_r h) at 2.
  unfold clean_dataset, Stage.clean_table, Stage.joined, Stage.dated,
    Stage.priced, Stage.hosted, Stage.rated, Stage.with_fee,
    Stage.fill_with_mean at 1 2 3.
  unfold df_drop, df_dropna, df_apply, df_getitem, df_setitem.
  eapply agrees_rename; [exact Hl|]. cbn [app length].
  rewrite ?bind_assoc.
  eapply agrees_merge; [exact Hc | reflexivity | intros ? ?].
  cbn [app length].
  repeat sim_step.
  rewrite (bind_ok_r (Stage.foldM _ _ _)).
  eapply agrees_in_place;
    [ apply in_place_for_each; intros column; apply in_place_fill_mean
    | reflexivity | reflexivity | intros ? ? ].
  apply agrees_ret. reflexivity.
Qed.

(** ** Columns under the table operations *)

Lemma eqb_sym_false (a b : string) : String.eqb a b = false -> String.eqb b a = false.
Proof. rewrite (String.eqb_sym a b). auto. Qed.

Lemma assoc_assign {A : Type} (n m : string) (v : A) (l : list (string * A)) :
  assoc m (assign n v l) = if String.eqb n m then Some v else assoc m l.
Proof.
  induction l as [|[k x] l IH]; cbn.
  - destruct (String.eqb n m); reflexivity.
  - destruct (String.eqb k n) eqn:Hkn; cbn.
    + apply String.eqb_eq in Hkn. subst k.
      destruct (String.eqb n m); reflexivity.
    + rewrite IH.
      destruct (String.eqb k m) eqn:Hkm; [|reflexivity].
      apply String.eqb_eq in Hkm. subst k.
      rewrite (String.eqb_sym n m), Hkn. reflexivity.
Qed.

Lemma column_setitem (t : DataFrame) (n m : string) (v : list cell) :
  column (setitem t n v) m = if String.eqb n m then Ok v else column t m.
Proof.
  unfold column, setitem; cbn. rewrite assoc_assign.
  destruct (String.eqb n m); reflexivity.
Qed.

Lemma column_setitem_same (t : DataFrame) (n : string) (v : list cell) :
  column (setitem t n v) n = Ok v.
Proof. rewrite column_setitem, String.eqb_refl. reflexivity. Qed.

Lemma column_setitem_other (t : DataFrame) (n m : string) (v : list cell) :
  String.eqb n m = false -> column (setitem t n v) m = column t m.
Proof. intros H. rewrite column_setitem, H. reflexivity. Qed.

Lemma assoc_fillna (n m : string) (v : cell) (l : list (string * list cell)) :
  assoc m (map (fun c => if String.eqb (fst c) n
                         then (fst c, map (fill v) (snd c)) else c) l)
  = if String.eqb n m then option_map (map (fill v)) (assoc m l) else assoc m l.
Proof.
  induction l as [|[k x] l IH]; cbn.
  - destruct (String.eqb n m); reflexivity.
  - destruct (String.eqb k n) eqn:Hkn; cbn.
    + apply String.eqb_eq in Hkn. subst k.
      destruct (String.eqb n m); [reflexivity | exact IH].
    + destruct (String.eqb k m) eqn:Hkm.
      * apply String.eqb_eq in Hkm. subst k.
        rewrite (String.eqb_sym n m), Hkn. reflexivity.
      * exact IH.
Qed.

Lemma column_fillna_same (t : DataFrame) (n : string) (v : cell) (col : list cell) :
  column t n = Ok col -> column (fillna t n v) n = Ok (map (fill v) col).
Proof.
  unfold column, fillna; cbn. rewrite assoc_fillna, String.eqb_refl.
  destruct (assoc n (columns t)); [|discriminate].
  intros [= ->]. reflexivity.
Qed.

Lemma column_fillna_other (t : DataFrame) (n m : string) (v : cell) :
  String.eqb n m = false -> column (fillna t n v) m = column t m.
Proof.
  intros H. unfold column, fillna; cbn. rewrite assoc_fillna, H. reflexivity.
Qed.

Lemma assoc_filter {A : Type} (p : string -> bool) (m : string)
    (l : list (string * A)) :
  p m = true ->
  assoc m (List.filter (fun c => p (fst c)) l) = assoc m l.
Proof.
  intros Hp. induction l as [|[k x] l IH]; cbn; [reflexivity|].
  destruct (String.eqb k m) eqn:Hkm.
  - apply String.eqb_eq in Hkm. subst k. rewrite Hp. cbn.
    rewrite String.eqb_refl. reflexivity.
  - destruct (p k); cbn; [rewrite Hkm|]; exact IH.
Qed.

Lemma drop_ok (t t' : DataFrame) (labels : list string) :
  drop t labels = Ok t' ->
  nrows t' = nrows t
  /\ forall m, mem m labels = false -> column t' m = column t m.
Proof.
  unfold drop. destruct (forallb _ labels); [|discriminate].
  intros [= <-]. split; [reflexivity|].
  intros m Hm. unfold column; cbn.
  rewrite (assoc_filter (fun k => negb (mem k labels))); [reflexivity|].
  rewrite Hm. reflexivity.
Qed.

Lemma assoc_map_snd {A B : Type} (f : A -> B) (m : string) (l : list (string * A)) :
  assoc m (map (fun c => (fst c, f (snd c))) l) = option_map f (assoc m l).
Proof.
  induction l as [|[k x] l IH]; cbn; [reflexivity|].
  destruct (String.eqb k m); [reflexivity | exact IH].
Qed.

Lemma select_notnull (col : list cell) :
  select (map notnull col) col = List.filter notnull col.
Proof.
  induction col as [|c col IH]; cbn; [reflexivity|].
  destruct (notnull c); rewrite IH; reflexivity.
Qed.

Lemma dropna_ok (t t' : DataFrame) (n : string) :
  dropna t n = Ok t' ->
  exists col,
    column t n = Ok col
    /\ nrows t' = length (List.filter notnull col)
    /\ forall m,
         column t' m = (let* c := column t m in Ok (select (map notnull col) c)).
Proof.
  unfold dropna. destruct (column t n) as [col|e] eqn:Hcol; [|discriminate].
  cbn. intros [= <-]. exists col. split; [reflexivity|]. split; [reflexivity|].
  intros m. unfold column; cbn. rewrite assoc_map_snd.
  destruct (assoc m (columns t)); reflexivity.
Qed.

Lemma getitem_row_at (t : DataFrame) (i : nat) (m : string) (col : list cell) :
  column t m = Ok col -> getitem (row_at t i) m = Ok (nth i col NaN).
Proof.
  unfold column, getitem, row_at.
  rewrite (assoc_map_snd (fun c => nth i c NaN)).
  destruct (assoc m (columns t)); [|discriminate].
  intros [= ->]. reflexivity.
Qed.

Lemma mapM_ok {A B : Type} (f : A -> result B) (l : list A) (vs : list B) :
  mapM f l = Ok vs -> Forall2 (fun x v => f x = Ok v) l vs.
Proof.
  revert vs. induction l as [|x l IH]; cbn; intros vs.
  - intros [= <-]. constructor.
  - destruct (f x) as [y|e] eqn:Hx; [|discriminate].
    destruct (mapM f l) as [ys|e]; [|discriminate].
    intros [= <-]. constructor; [exact Hx | apply IH; reflexivity].
Qed.

Lemma mapM_raise {A B : Type} (f : A -> result B) (l : list A) (x : A) (e : exn) :
  In x l -> f x = Raise e -> exists e', mapM f l = Raise e'.
Proof.
  induction l as [|y l IH]; cbn; [contradiction|].
  intros [->|Hin] Hx.
  - rewrite Hx. eauto.
  - destruct (f y); [|eauto].
    destruct (IH Hin Hx) as [e' ->]. eauto.
Qed.

Lemma mapM_total {A B : Type} (f : A -> result B) (l : list A) :
  (forall x, In x l -> exists v, f x = Ok v) -> exists vs, mapM f l = Ok vs.
Proof.
  induction l as [|y l IH]; cbn; intros H; [eauto|].
  destruct (H y (or_introl eq_refl)) as [v ->].
  destruct IH as [vs ->]; [intros x Hx; apply H; right; exact Hx|].
  eauto.
Qed.

Lemma rows_lookup (t : DataFrame) (i : nat) :
  (i < nrows t)%nat -> rows t !! i = Some (row_at t i).
Proof.
  intros Hi. unfold rows.
  rewrite list_lookup_fmap, lookup_seq_lt by exact Hi. reflexivity.
Qed.

Lemma apply_ok {A : Type} (t : DataFrame) (f : Row -> result A) (vs : list A) :
  apply t f = Ok vs ->
  length vs = nrows t
  /\ forall i, (i < nrows t)%nat ->
       exists v, vs !! i = Some v /\ f (row_at t i) = Ok v.
Proof.
  unfold apply. intros H.
  assert (Hm : mapM f (rows t) = Ok vs)
    by (destruct (nrows t); [discriminate | exact H]).
  clear H. apply mapM_ok in Hm. rename Hm into H.
  split.
  - rewrite <- (Forall2_length _ _ _ H). unfold rows.
    rewrite length_map, length_seq. reflexivity.
  - intros i Hi.
    destruct (Forall2_lookup_l _ _ _ _ _ H (rows_lookup t i Hi)) as (v & Hv & Hf).
    eauto.
Qed.

Lemma apply_raise {A : Type} (t : DataFrame) (f : Row -> result A) (i : nat) (e : exn) :
  (i < nrows t)%nat -> f (row_at t i) = Raise e -> exists e', apply t f = Raise e'.
Proof.
  intros Hi He.
  assert (Hm : exists e', mapM f (rows t) = Raise e').
  { apply (mapM_raise f (rows t) (row_at t i) e); [|exact He].
    apply list_elem_of_In, list_elem_of_lookup. exists i.
    apply rows_lookup. exact Hi. }
  unfold apply. destruct (nrows t); [lia | exact Hm].
Qed.

(** ** The helper functions *)

(** C10.  [get_val_from_list] is total and never raises: for every row,
    column name and candidate item it returns 0.0 or 1.0, and it returns
    0.0 when the cell of the row is missing, absent or not a text. *)
Theorem get_val_from_list_total (row : Row) (column_name value : string) :
  (get_val_from_list row column_name value = Ok (Num 0)
   \/ get_val_from_list row column_name value = Ok (Num 1))
  /\ match getitem row column_name with
     | Ok (Str _) => True
     | _ => get_val_from_list row column_name value = Ok (Num 0)
     end.
Proof.
  unfold get_val_from_list, getitem.
  destruct (assoc column_name row) as [[|s|q]|]; cbn.
  - split; [left|]; reflexivity.
  - split; [|exact I].
    destruct (mem value (list_items s)); [right | left]; reflexivity.
  - split; [left|]; reflexivity.
  - split; [left|]; reflexivity.
Qed.

(** ** The two input tables *)

(** C9.  [clean_dataset] leaves its two input tables as they were, and with
    them every table that was on the heap before the call: all it writes
    to are tables it has made itself. *)
Theorem clean_dataset_inputs_unchanged (h : heap) (listings_df calendar_df : ref)
    (listings calendar : DataFrame) :
  h !! listings_df = Some listings ->
  h !! calendar_df = Some calendar ->
  let h' := fst (clean_dataset listings_df calendar_df h) in
  h' !! listings_df = Some listings
  /\ h' !! calendar_df = Some calendar
  /\ forall (l : ref) (t : DataFrame), h !! l = Some t -> h' !! l = Some t.
Proof.
  intros Hl Hc h'.
  destruct (clean_dataset_agrees h listings_df calendar_df listings calendar Hl Hc)
    as (ext & Hext & _).
  assert (Hkeep : forall (l : ref) (t : DataFrame),
             h !! l = Some t -> h' !! l = Some t).
  { intros l t Ht. subst h'. rewrite Hext. apply lookup_app_l_Some. exact Ht. }
  auto.
Qed.

Lemma clean_dataset_inputs_unchanged_demo :
  fst (clean_dataset 0 1 Demo.memory) !! 0%nat = Some Demo.listings
  /\ fst (clean_dataset 0 1 Demo.memory) !! 1%nat = Some Demo.calendar.
Proof.
  destruct (clean_dataset_inputs_unchanged Demo.memory 0 1
              Demo.listings Demo.calendar eq_refl eq_refl) as (H0 & H1 & _).
  split; [exact H0 | exact H1].
Defined.

(** ** From the heap to the tables *)

Lemma clean_dataset_ok (h h' : heap) (l c r : ref) (tl tc : DataFrame) :
  h !! l = Some tl ->
  h !! c = Some tc ->
  clean_dataset l c h = (h', Ok r) ->
  exists out, Stage.clean_table tl tc = Ok out /\ h' !! r = Some out.
Proof.
  intros Hl Hc Hrun.
  destruct (clean_dataset_agrees h l c tl tc Hl Hc) as (ext & _ & H).
  rewrite Hrun in H. cbn in H.
  destruct (Stage.clean_table tl tc) as [out|e]; [|discriminate].
  destruct H as (l0 & [= <-] & Hout). eauto.
Qed.

Lemma clean_dataset_raises (h : heap) (l c : ref) (tl tc : DataFrame) (e : exn) :
  h !! l = Some tl ->
  h !! c = Some tc ->
  Stage.clean_table tl tc = Raise e ->
  snd (clean_dataset l c h) = Raise e.
Proof.
  intros Hl Hc He.
  destruct (clean_dataset_agrees h l c tl tc Hl Hc) as (ext & _ & H).
  rewrite He in H. exact H.
Qed.

Ltac inv_bind H :=
  repeat match type of H with
         | bind ?m _ = Ok _ =>
             let E := fresh "E" in
             destruct m eqn:E; [cbn [bind] in H | discriminate H]
         end.

Lemma clean_table_trace (listings calendar out : DataFrame) :
  Stage.clean_table listings calendar = Ok out ->
  inhabited (Trace listings calendar out).
Proof.
  unfold Stage.clean_table. intros H.
  do 14 (match type of H with
         | bind ?m _ = Ok _ =>
             let E := fresh "E" in
             destruct m eqn:E; [cbn [bind] in H | discriminate H]
         end).
  constructor. econstructor; eassumption.
Qed.

(** ** What each stage does to the columns *)

Lemma dated_ok (t t' : DataFrame) :
  Stage.dated t = Ok t' ->
  nrows t' = nrows t
  /\ (forall m, mem m ["month"; "year"; "date"] = false ->
        column t' m = column t m)
  /\ exists months years,
       apply t get_month_from_date = Ok months
       /\ apply (setitem t "month" months) get_year_from_date = Ok years
       /\ column t' "month" = Ok months
       /\ column t' "year" = Ok years.
Proof.
  unfold Stage.dated. intros H. inv_bind H.
  destruct (drop_ok _ _ _ H) as [Hn Hkeep].
  split; [exact Hn|]. split.
  - intros m Hm. cbn [mem existsb] in Hm.
    apply orb_false_elim in Hm as [Hm1 Hm]. apply orb_false_elim in Hm as [Hm2 Hm].
    apply orb_false_elim in Hm as [Hm3 _].
    rewrite Hkeep by (cbn [mem existsb]; rewrite Hm3; reflexivity).
    repeat (rewrite column_setitem_other by (apply eqb_sym_false; assumption)).
    reflexivity.
  - exists a, a0. repeat split; try assumption.
    + rewrite Hkeep by reflexivity.
      rewrite column_setitem_other by reflexivity. apply column_setitem_same.
    + rewrite Hkeep by reflexivity. apply column_setitem_same.
Qed.

Lemma priced_ok (t t' : DataFrame) :
  Stage.priced t = Ok t' ->
  exists px prices,
    column t "price_x" = Ok px
    /\ nrows t' = length (List.filter notnull px)
    /\ mapM (to_number ["$"; ","; " "]%char) (List.filter notnull px) = Ok prices
    /\ column t' "price" = Ok prices
    /\ forall m, mem m ["price"; "price_x"] = false ->
         column t' m
         = (let* c := column t m in Ok (select (map notnull px) c)).
Proof.
  unfold Stage.priced. intros H. inv_bind H.
  destruct (dropna_ok _ _ _ E) as (px & Hpx & Hn & Hsel).
  destruct (drop_ok _ _ _ H) as [Hn' Hkeep].
  rewrite Hsel, Hpx in E0. cbn [bind] in E0.
  rewrite select_notnull in E0. injection E0 as <-.
  rewrite column_setitem_same in E1. injection E1 as <-.
  exists px, a2. split; [exact Hpx|]. split; [rewrite Hn'; exact Hn|].
  split; [exact E2|]. split.
  - rewrite Hkeep by reflexivity. apply column_setitem_same.
  - intros m Hm. cbn [mem existsb] in Hm.
    apply orb_false_elim in Hm as [Hm1 Hm]. apply orb_false_elim in Hm as [Hm2 _].
    rewrite Hkeep by (cbn [mem existsb]; rewrite Hm2; reflexivity).
    repeat (rewrite column_setitem_other by (apply eqb_sym_false; assumption)).
    apply Hsel.
Qed.

Lemma fill_with_mean_ok (t t' : DataFrame) (n : string) :
  Stage.fill_with_mean t n = Ok t' ->
  nrows t' = nrows t
  /\ (forall m, String.eqb n m = false -> column t' m = column t m)
  /\ exists col v,
       column t n = Ok col
       /\ mean col = Ok v
       /\ column t' n = Ok (map (fill v) col).
Proof.
  unfold Stage.fill_with_mean. intros H.
  destruct (column t n) as [col|e] eqn:Hcol; [cbn [bind] in H | discriminate].
  destruct (mean col) as [v|e] eqn:Hv; [cbn [bind] in H | discriminate].
  injection H as <-.
  split; [reflexivity|]. split.
  - intros m Hm. apply column_fillna_other. exact Hm.
  - exists col, v. repeat split; try assumption.
    apply column_fillna_same. exact Hcol.
Qed.

Lemma hosted_ok (t t' : DataFrame) :
  Stage.hosted t = Ok t' ->
  nrows t' = nrows t
  /\ (forall m, mem m ["host_since_year"; "host_since"] = false ->
        column t' m = column t m)
  /\ exists years v,
       apply t get_host_since_year = Ok years
       /\ mean years = Ok v
       /\ column t' "host_since_year" = Ok (map (fill v) years).
Proof.
  unfold Stage.hosted. intros H. inv_bind H.
  destruct (drop_ok _ _ _ H) as [Hn Hkeep].
  destruct (fill_with_mean_ok _ _ _ E0) as (Hn' & Hkeep' & col & v & Hcol & Hv & Hout).
  rewrite column_setitem_same in Hcol. injection Hcol as <-.
  split; [rewrite Hn, Hn'; reflexivity|]. split.
  - intros m Hm. cbn [mem existsb] in Hm.
    apply orb_false_elim in Hm as [Hm1 Hm]. apply orb_false_elim in Hm as [Hm2 _].
    rewrite Hkeep by (cbn [mem existsb]; rewrite Hm2; reflexivity).
    rewrite Hkeep' by (apply eqb_sym_false; assumption).
    apply column_setitem_other. apply eqb_sym_false. assumption.
  - exists a, v. repeat split; try assumption.
    rewrite Hkeep by reflexivity. exact Hout.
Qed.

Lemma rated_ok (t t' : DataFrame) :
  Stage.rated t = Ok t' ->
  nrows t' = nrows t
  /\ (forall m, mem m ["host_response_rate_num"; "host_response_rate_buckets";
                      "host_response_rate"] = false ->
        column t' m = column t m)
  /\ exists raw rates v buckets,
       column t "host_response_rate" = Ok raw
       /\ mapM (to_number ["%"]%char) raw = Ok rates
       /\ mean rates = Ok v
       /\ qcut (map (fill v) rates) 5 = Ok buckets
       /\ column t' "host_response_rate_buckets" = Ok buckets.
Proof.
  unfold Stage.rated. intros H. inv_bind H.
  destruct (drop_ok _ _ _ H) as [Hn Hkeep].
  destruct (fill_with_mean_ok _ _ _ E2) as (Hn' & Hkeep' & col & v & Hcol & Hv & Hout).
  rewrite column_setitem_same in E0, Hcol. injection E0 as <-. injection Hcol as <-.
  rewrite Hout in E3. injection E3 as <-.
  split; [rewrite Hn; cbn; rewrite Hn'; reflexivity|]. split.
  - intros m Hm. cbn [mem existsb] in Hm.
    apply orb_false_elim in Hm as [Hm1 Hm]. apply orb_false_elim in Hm as [Hm2 Hm].
    apply orb_false_elim in Hm as [Hm3 _].
    rewrite Hkeep by (cbn [mem existsb]; rewrite Hm3, Hm1; reflexivity).
    rewrite column_setitem_other by (apply eqb_sym_false; assumption).
    rewrite Hkeep' by (apply eqb_sym_false; assumption).
    repeat (rewrite column_setitem_other by (apply eqb_sym_false; assumption)).
    reflexivity.
  - exists a, a1, v, a4. repeat split; try assumption.
    rewrite Hkeep by reflexivity. apply column_setitem_same.
Qed.

Lemma fill_mode_ok (t t' : DataFrame) (n : string) :
  Stage.fill_mode t n = Ok t' ->
  nrows t' = nrows t
  /\ (forall m, String.eqb n m = false -> column t' m = column t m)
  /\ exists col v,
       column t n = Ok col
       /\ mode0 col = Ok v
       /\ column t' n = Ok (map (fill v) col).
Proof.
  unfold Stage.fill_mode. intros H.
  destruct (column t n) as [col|e] eqn:Hcol; [cbn [bind] in H | discriminate].
  destruct (mode0 col) as [v|e] eqn:Hv; [cbn [bind] in H | discriminate].
  injection H as <-.
  split; [reflexivity|]. split.
  - intros m Hm. apply column_setitem_other. exact Hm.
  - exists col, v. repeat split; try assumption. apply column_setitem_same.
Qed.

Lemma with_fee_ok (t t' : DataFrame) :
  Stage.with_fee t = Ok t' ->
  nrows t' = nrows t
  /\ (forall m, mem m ["extra_people_fee"; "extra_people"] = false ->
        column t' m = column t m)
  /\ exists fee,
       apply t get_extra_people_fee = Ok fee
       /\ column t' "extra_people_fee" = Ok fee.
Proof.
  unfold Stage.with_fee. intros H. inv_bind H.
  destruct (drop_ok _ _ _ H) as [Hn Hkeep].
  split; [exact Hn|]. split.
  - intros m Hm. cbn [mem existsb] in Hm.
    apply orb_false_elim in Hm as [Hm1 Hm]. apply orb_false_elim in Hm as [Hm2 _].
    rewrite Hkeep by (cbn [mem existsb]; rewrite Hm2; reflexivity).
    apply column_setitem_other. apply eqb_sym_false. assumption.
  - exists a. split; [reflexivity|].
    rewrite Hkeep by reflexivity. apply column_setitem_same.
Qed.

(** ** Dummy columns *)

Lemma mem_In (x : string) (l : list string) : mem x l = true <-> In x l.
Proof.
  unfold mem. rewrite existsb_exists. split.
  - intros (y & Hy & He). apply String.eqb_eq in He. subst y. exact Hy.
  - intros H. exists x. split; [exact H | apply String.eqb_refl].
Qed.

Lemma mem_not_In (x : string) (l : list string) : mem x l = false <-> ~ In x l.
Proof.
  rewrite <- mem_In. destruct (mem x l); split; intros H; congruence.
Qed.

Lemma append_inj (a b c : string) : String.append a b = String.append a c -> b = c.
Proof.
  induction a as [|x a IH]; cbn; intros H; [exact H|].
  injection H as H. apply IH. exact H.
Qed.

Lemma dummy_name_inj (column_name u v : string) :
  dummy_name column_name u = dummy_name column_name v -> u = v.
Proof.
  unfold dummy_name. intros H.
  apply append_inj in H. cbn in H. injection H as H. exact H.
Qed.

Lemma prefix_append (a b c : string) :
  String.prefix (String.append a b) (String.append a (String.append b c)) = true.
Proof.
  induction a as [|x a IH]; cbn.
  - induction b as [|y b IHb]; cbn; [destruct c; reflexivity|].
    destruct (ascii_dec y y); [exact IHb | contradiction].
  - destruct (ascii_dec x x); [exact IH | contradiction].
Qed.

Lemma dummy_of_dummy_name (column_name v : string) :
  dummy_of column_name (dummy_name column_name v) = true.
Proof. apply prefix_append. Qed.

Lemma not_dummy_eqb (column_name m v : string) :
  dummy_of column_name m = false ->
  String.eqb (dummy_name column_name v) m = false.
Proof.
  intros H. destruct (String.eqb (dummy_name column_name v) m) eqn:E; [|reflexivity].
  apply String.eqb_eq in E. subst m.
  rewrite dummy_of_dummy_name in H. discriminate.
Qed.

Lemma length_append (a b : string) :
  String.length (String.append a b) = (String.length a + String.length b)%nat.
Proof. induction a as [|x a IH]; cbn; [reflexivity | rewrite IH; reflexivity]. Qed.

Lemma dummy_name_fresh (column_name v : string) :
  String.eqb (dummy_name column_name v) column_name = false.
Proof.
  destruct (String.eqb (dummy_name column_name v) column_name) eqn:E; [|reflexivity].
  apply String.eqb_eq in E. apply (f_equal String.length) in E.
  unfold dummy_name in E. rewrite !length_append in E. cbn in E. lia.
Qed.

Lemma add_dummy_ok (column_name value : string) (t t' : DataFrame) :
  Stage.add_dummy column_name t value = Ok t' ->
  exists dummy,
    apply t (fun row => get_val_from_list row column_name value) = Ok dummy
    /\ t' = setitem t (dummy_name column_name value) dummy.
Proof.
  unfold Stage.add_dummy. intros H. inv_bind H. injection H as <-. eauto.
Qed.

Lemma foldM_dummies_keep (column_name : string) (values : list string)
    (t t' : DataFrame) :
  Stage.foldM (Stage.add_dummy column_name) values t = Ok t' ->
  nrows t' = nrows t
  /\ forall m, (forall v, In v values -> String.eqb (dummy_name column_name v) m = false) ->
       column t' m = column t m.
Proof.
  revert t. induction values as [|v values IH]; cbn; intros t H.
  - injection H as <-. auto.
  - destruct (Stage.add_dummy column_name t v) as [t1|e] eqn:E; [|discriminate].
    cbn [bind] in H.
    destruct (add_dummy_ok _ _ _ _ E) as (dummy & _ & ->).
    destruct (IH _ H) as [Hn Hkeep].
    split; [rewrite Hn; reflexivity|].
    intros m Hm. rewrite Hkeep by (intros u Hu; apply Hm; right; exact Hu).
    apply column_setitem_other. apply Hm. left. reflexivity.
Qed.

Lemma split_columns_ok (column_name : string) (n : nat) (t t' : DataFrame) :
  Stage.split_columns column_name n t = Ok t' ->
  nrows t' = nrows t
  /\ forall m, dummy_of column_name m = false -> column t' m = column t m.
Proof.
  unfold Stage.split_columns. intros H. inv_bind H.
  destruct (foldM_dummies_keep _ _ _ _ H) as [Hn Hkeep].
  split; [exact Hn|].
  intros m Hm. apply Hkeep. intros v _. apply not_dummy_eqb. exact Hm.
Qed.

Lemma foldM_means_ok (cols : list string) (t t' : DataFrame) :
  Stage.foldM Stage.fill_with_mean cols t = Ok t' ->
  List.NoDup cols ->
  nrows t' = nrows t
  /\ (forall m, mem m cols = false -> column t' m = column t m)
  /\ forall n, In n cols ->
       exists col v,
         column t n = Ok col /\ mean col = Ok v
         /\ column t' n = Ok (map (fill v) col).
Proof.
  revert t. induction cols as [|c cols IH]; cbn [Stage.foldM]; intros t H Hnd.
  - injection H as <-. split; [reflexivity|]. split; [reflexivity|].
    intros n [].
  - destruct (Stage.fill_with_mean t c) as [t1|e] eqn:E; [|discriminate].
    cbn [bind] in H.
    apply List.NoDup_cons_iff in Hnd as [Hc Hnd].
    destruct (fill_with_mean_ok _ _ _ E) as (Hn1 & Hk1 & col & v & Hcol & Hv & Hout).
    destruct (IH _ H Hnd) as (Hn & Hk & Hcols).
    split; [rewrite Hn, Hn1; reflexivity|]. split.
    + intros m Hm. cbn [mem existsb] in Hm.
      apply orb_false_elim in Hm as [Hm1 Hm].
      rewrite Hk by exact Hm. apply Hk1. apply eqb_sym_false. exact Hm1.
    + intros n [<-|Hin].
      * exists col, v. repeat split; try assumption.
        rewrite Hk by (apply mem_not_In; exact Hc). exact Hout.
      * destruct (Hcols n Hin) as (col' & v' & Hcol' & Hv' & Hout').
        exists col', v'. repeat split; try assumption.
        rewrite <- Hk1; [exact Hcol'|].
        destruct (String.eqb c n) eqn:Ecn; [|reflexivity].
        apply String.eqb_eq in Ecn. subst n. contradiction.
Qed.

(** ** Following a column through the run *)

Lemma review_scores_columns_distinct : List.NoDup review_scores_columns.
Proof.
  unfold review_scores_columns.
  repeat (constructor; [cbn; intuition discriminate|]). constructor.
Qed.

Lemma cleaned_trace (h : heap) (l c : ref) (listings calendar out : DataFrame) :
  h !! l = Some listings ->
  h !! c = Some calendar ->
  cleaned h l c out ->
  inhabited (Trace listings calendar out).
Proof.
  intros Hl Hc (h' & r & Hrun & Hout).
  destruct (clean_dataset_ok h h' l c r listings calendar Hl Hc Hrun)
    as (out' & Htable & Hout').
  rewrite Hout in Hout'. injection Hout' as <-.
  apply clean_table_trace. exact Htable.
Qed.

(** Rewrites [column t' m] into [column t m] across the stages that leave
    the column [m] alone. *)
Ltac follow :=
  repeat match goal with
    | H : Stage.dated ?t = Ok ?t' |- context [column ?t' ?m] =>
        rewrite (proj1 (proj2 (dated_ok t t' H)) m) by reflexivity
    | H : Stage.hosted ?t = Ok ?t' |- context [column ?t' ?m] =>
        rewrite (proj1 (proj2 (hosted_ok t t' H)) m) by reflexivity
    | H : Stage.rated ?t = Ok ?t' |- context [column ?t' ?m] =>
        rewrite (proj1 (proj2 (rated_ok t t' H)) m) by reflexivity
    | H : Stage.fill_with_mean ?t ?n = Ok ?t' |- context [column ?t' ?m] =>
        rewrite (proj1 (proj2 (fill_with_mean_ok t t' n H)) m) by reflexivity
    | H : Stage.split_columns ?cn ?k ?t = Ok ?t' |- context [column ?t' ?m] =>
        rewrite (proj2 (split_columns_ok cn k t t' H) m) by reflexivity
    | H : drop ?t ?ls = Ok ?t' |- context [column ?t' ?m] =>
        rewrite (proj2 (drop_ok t t' ls H) m) by reflexivity
    | H : Stage.fill_mode ?t ?n = Ok ?t' |- context [column ?t' ?m] =>
        rewrite (proj1 (proj2 (fill_mode_ok t t' n H)) m) by reflexivity
    | H : Stage.with_fee ?t = Ok ?t' |- context [column ?t' ?m] =>
        rewrite (proj1 (proj2 (with_fee_ok t t' H)) m) by reflexivity
    | H : Stage.foldM Stage.fill_with_mean ?cols ?t = Ok ?t'
      |- context [column ?t' ?m] =>
        rewrite (proj1 (proj2 (foldM_means_ok cols t t' H
                                 review_scores_columns_distinct)) m)
          by reflexivity
    end.

(** The same for the number of rows. *)
Ltac follow_rows :=
  repeat match goal with
    | H : Stage.dated ?t = Ok ?t' |- context [nrows ?t'] =>
        rewrite (proj1 (dated_ok t t' H))
    | H : Stage.hosted ?t = Ok ?t' |- context [nrows ?t'] =>
        rewrite (proj1 (hosted_ok t t' H))
    | H : Stage.rated ?t = Ok ?t' |- context [nrows ?t'] =>
        rewrite (proj1 (rated_ok t t' H))
    | H : Stage.fill_with_mean ?t ?n = Ok ?t' |- context [nrows ?t'] =>
        rewrite (proj1 (fill_with_mean_ok t t' n H))
    | H : Stage.split_columns ?cn ?k ?t = Ok ?t' |- context [nrows ?t'] =>
        rewrite (proj1 (split_columns_ok cn k t t' H))
    | H : drop ?t ?ls = Ok ?t' |- context [nrows ?t'] =>
        rewrite (proj1 (drop_ok t t' ls H))
    | H : Stage.fill_mode ?t ?n = Ok ?t' |- context [nrows ?t'] =>
        rewrite (proj1 (fill_mode_ok t t' n H))
    | H : Stage.with_fee ?t = Ok ?t' |- context [nrows ?t'] =>
        rewrite (proj1 (with_fee_ok t t' H))
    | H : Stage.foldM Stage.fill_with_mean ?cols ?t = Ok ?t'
      |- context [nrows ?t'] =>
        rewrite (proj1 (foldM_means_ok cols t t' H review_scores_columns_distinct))
    end.


(** ** Rows that stay *)



(** Runs the call on a given heap. *)
Ltac run_call := eexists _, 12%nat; split; vm_compute; reflexivity.

(** ** The example of the specification *)



(** ** Reading numbers *)

Lemma digit_value_nonneg (c : ascii) : (0 <= digit_value c)%Z.
Proof. unfold digit_value. lia. Qed.

Lemma digits_fold_nonneg (cs : list ascii) (acc : Z) :
  (0 <= acc)%Z ->
  (0 <= fold_left (fun acc c => 10 * acc + digit_value c) cs acc)%Z.
Proof.
  revert acc. induction cs as [|c cs IH]; cbn; intros acc H; [exact H|].
  apply IH. pose proof (digit_value_nonneg c). lia.
Qed.

Lemma digits_value_nonneg (cs : list ascii) (n : Z) :
  digits_value cs = Some n -> (0 <= n)%Z.
Proof.
  unfold digits_value. destruct cs as [|c cs]; [discriminate|].
  destruct (forallb is_digit (c :: cs)); [|discriminate].
  intros [= <-]. apply digits_fold_nonneg.
  pose proof (digit_value_nonneg c). lia.
Qed.





Lemma numeric_char_intro (c : ascii) :
  is_digit c || Ascii.eqb c "." = true -> numeric_char c.
Proof.
  destruct c as [b0 b1 b2 b3 b4 b5 b6 b7].
  destruct b0, b1, b2, b3, b4, b5, b6, b7; cbn; intros H;
    try discriminate H; repeat split; reflexivity.
Qed.

Lemma lstrip_no_space (cs : list ascii) :
  Forall numeric_char cs -> lstrip cs = cs.
Proof.
  intros H. destruct H as [|c cs (_ & Hc & _) _]; cbn; [reflexivity|].
  rewrite Hc. reflexivity.
Qed.

Lemma strip_no_space (cs : list ascii) : Forall numeric_char cs -> strip cs = cs.
Proof.
  intros H. unfold strip. rewrite (lstrip_no_space cs H).
  rewrite lstrip_no_space by (apply Forall_rev; exact H).
  apply rev_involutive.
Qed.




(** ** The price column *)




(** ** The fee for extra people *)

Lemma cell_eqb_str (c : cell) (s : string) : cell_eqb c (Str s) = true <-> c = Str s.
Proof.
  destruct c as [|t|q]; cbn; split; try discriminate.
  - intros H. apply String.eqb_eq in H. subst t. reflexivity.
  - intros [= ->]. apply String.eqb_refl.
Qed.

Lemma column_of_name (t : DataFrame) (n : string) :
  mem n (names t) = true -> exists col, column t n = Ok col.
Proof.
  unfold names, column. induction (columns t) as [|[k x] l IH]; cbn; [discriminate|].
  rewrite (String.eqb_sym n k).
  destruct (String.eqb k n); cbn; [eauto | exact IH].
Qed.

Lemma drop_needs (t t' : DataFrame) (labels : list string) (n : string) :
  drop t labels = Ok t' -> In n labels -> exists col, column t n = Ok col.
Proof.
  unfold drop. destruct (forallb _ labels) eqn:H; [|discriminate].
  intros _ Hn. rewrite forallb_forall in H.
  apply column_of_name. apply H. exact Hn.
Qed.

(** C6.  [extra_people_fee] is a binary column: in every row it is 0.0
    when the fee is zero, which is when the [extra_people] cell is the fee
    text "$0.00", and 1.0 for any other cell. *)
Theorem extra_people_fee_binary (h : heap) (listings_df calendar_df : ref)
    (listings calendar out : DataFrame) :
  h !! listings_df = Some listings ->
  h !! calendar_df = Some calendar ->
  cleaned h listings_df calendar_df out ->
  (forall row c, getitem row "extra_people" = Ok c ->
     get_extra_people_fee row
     = Ok (if cell_eqb c (Str "$0.00") then Num 0 else Num 1))
  /\ exists (tr : Trace listings calendar out) extra fees,
       nrows out = nrows (t_priced tr)
       /\ column (t_priced tr) "extra_people" = Ok extra
       /\ column out "extra_people_fee" = Ok fees
       /\ length fees = nrows out
       /\ forall i, (i < nrows out)%nat ->
            (nth i extra NaN = Str "$0.00" /\ fees !! i = Some (Num 0))
            \/ (nth i extra NaN <> Str "$0.00" /\ fees !! i = Some (Num 1)).
Proof.
  intros Hl Hc Hout.
  assert (Hfun : forall row c, getitem row "extra_people" = Ok c ->
            get_extra_people_fee row
            = Ok (if cell_eqb c (Str "$0.00") then Num 0 else Num 1)).
  { intros row c Hrow. unfold get_extra_people_fee. rewrite Hrow. cbn [bind].
    destruct (cell_eqb c (Str "$0.00")); reflexivity. }
  split; [exact Hfun|].
  destruct (cleaned_trace _ _ _ _ _ _ Hl Hc Hout) as [tr].
  exists tr. destruct tr; cbn [t_priced].
  destruct (with_fee_ok _ _ run_fee0) as (Hn & _ & fees & Hfees & Hcol).
  assert (Hextra : exists extra, column t_amenities'0 "extra_people" = Ok extra).
  { unfold Stage.with_fee in run_fee0. inv_bind run_fee0.
    destruct (drop_needs _ _ _ "extra_people" run_fee0 (or_introl eq_refl))
      as [extra Hextra].
    rewrite column_setitem_other in Hextra by reflexivity. eauto. }
  destruct Hextra as [extra Hextra].
  destruct (apply_ok _ _ _ Hfees) as [Hlen Hrows].
  assert (Hrows_out : nrows out = nrows t_amenities'0) by (follow_rows; reflexivity).
  exists extra, fees.
  split; [follow_rows; reflexivity|].
  split; [revert Hextra; follow; auto|].
  split; [follow; exact Hcol|].
  split; [rewrite Hrows_out; exact Hlen|].
  intros i Hi. rewrite Hrows_out in Hi.
  destruct (Hrows i Hi) as (v & Hv & Hf).
  rewrite (Hfun _ _ (getitem_row_at _ i _ _ Hextra)) in Hf.
  destruct (cell_eqb (nth i extra NaN) (Str "$0.00")) eqn:E;
    injection Hf as <-.
  - left. split; [apply cell_eqb_str; exact E | exact Hv].
  - right. split; [|exact Hv].
    intros Heq. apply cell_eqb_str in Heq. congruence.
Qed.

Lemma extra_people_fee_binary_demo :
  exists fees, column Demo.out "extra_people_fee" = Ok fees
               /\ length fees = nrows Demo.out.
Proof.
  assert (Hrun : cleaned Demo.memory 0 1 Demo.out) by run_call.
  destruct (extra_people_fee_binary Demo.memory 0 1 Demo.listings Demo.calendar
              Demo.out eq_refl eq_refl Hrun)
    as (_ & tr & extra & fees & _ & _ & Hfees & Hlen & _).
  exists fees. split; [exact Hfees | exact Hlen].
Defined.

Example fee_of_other_texts :
  get_extra_people_fee [("extra_people", Str "$0.00")] = Ok (Num 0)
  /\ get_extra_people_fee [("extra_people", Str "$25.00")] = Ok (Num 1)
  /\ get_extra_people_fee [("extra_people", Str "$0")] = Ok (Num 1)
  /\ get_extra_people_fee [("extra_people", NaN)] = Ok (Num 1).
Proof. repeat split. Qed.

(** ** Imputation *)










(** ** Values that cannot be read *)






(** ** Quantile buckets *)

Lemma Qle_bool_false (x y : Q) : Qle_bool x y = false -> (y < x)%Q.
Proof.
  intros H. apply Qnot_le_lt. intros Hle.
  apply Qle_bool_iff in Hle. congruence.
Qed.

Lemma In_insert_sorted (x y : Q) (l : list Q) :
  In y (insert_sorted x l) <-> y = x \/ In y l.
Proof.
  induction l as [|z l IH]; cbn; [intuition|].
  destruct (Qle_bool x z); cbn; [intuition|].
  rewrite IH. intuition.
Qed.

Lemma sort_cons (y : Q) (l : list Q) : sort (y :: l) = insert_sorted y (sort l).
Proof. reflexivity. Qed.

Lemma In_sort (x : Q) (l : list Q) : In x (sort l) <-> In x l.
Proof.
  induction l as [|y l IH]; [reflexivity|].
  rewrite sort_cons, In_insert_sorted, IH. cbn. intuition.
Qed.

Lemma length_insert_sorted (x : Q) (l : list Q) :
  length (insert_sorted x l) = S (length l).
Proof.
  induction l as [|z l IH]; cbn; [reflexivity|].
  destruct (Qle_bool x z); cbn; [reflexivity | rewrite IH; reflexivity].
Qed.

Lemma length_sort (l : list Q) : length (sort l) = length l.
Proof.
  induction l as [|y l IH]; [reflexivity|].
  rewrite sort_cons, length_insert_sorted, IH. reflexivity.
Qed.

Lemma insert_sorted_sorted (x : Q) (l : list Q) :
  StronglySorted Qle l -> StronglySorted Qle (insert_sorted x l).
Proof.
  induction 1 as [|z l Hs IH Hz]; cbn.
  - constructor; constructor.
  - destruct (Qle_bool x z) eqn:E.
    + apply Qle_bool_iff in E. constructor.
      * constructor; assumption.
      * constructor; [exact E|].
        rewrite Forall_forall in Hz |- *. intros y Hy.
        apply Qle_trans with z; [exact E | apply Hz; exact Hy].
    + apply Qle_bool_false in E. constructor; [exact IH|].
      rewrite Forall_forall in Hz |- *. intros y Hy.
      apply list_elem_of_In, In_insert_sorted in Hy as [->|Hy].
      * apply Qlt_le_weak. exact E.
      * apply Hz. apply list_elem_of_In. exact Hy.
Qed.

Lemma sort_sorted (l : list Q) : StronglySorted Qle (sort l).
Proof.
  induction l as [|y l IH]; [constructor|].
  rewrite sort_cons. apply insert_sorted_sorted. exact IH.
Qed.

Lemma sorted_first (l : list Q) (x : Q) :
  StronglySorted Qle l -> In x l -> (nth 0 l 0 <= x)%Q.
Proof.
  intros Hs Hx. destruct Hs as [|z l Hs Hz]; [contradiction|].
  cbn. destruct Hx as [<-|Hx]; [apply Qle_refl|].
  rewrite Forall_forall in Hz. apply Hz. apply list_elem_of_In. exact Hx.
Qed.


Lemma quantile_lowest (values : list Q) :
  quantile values (inject_Z (Z.of_nat 0) / inject_Z (Z.of_nat 5)) = nth 0 values 0%Q.
Proof. reflexivity. Qed.

Lemma quantile_highest (values : list Q) :
  values <> [] ->
  quantile values (inject_Z (Z.of_nat 5) / inject_Z (Z.of_nat 5))
  = nth (length values - 1) values 0%Q.
Proof.
  intros Hne. unfold quantile.
  set (m := (Z.of_nat (length values) - 1)%Z).
  assert (Hm : (0 <= m)%Z) by (destruct values; [contradiction | cbn [length] in m; lia]).
  assert (Hidx : (inject_Z (Z.of_nat 5) / inject_Z (Z.of_nat 5) * inject_Z m == inject_Z m)%Q).
  { change (inject_Z (Z.of_nat 5)) with (5 # 1). field. }
  rewrite (Qfloor_comp _ _ Hidx), Qfloor_Z.
  assert (Hfrac : Qeq_bool
            (inject_Z (Z.of_nat 5) / inject_Z (Z.of_nat 5) * inject_Z m - inject_Z m) 0
          = true).
  { apply Qeq_bool_iff. rewrite Hidx. ring. }
  rewrite Hfrac. f_equal. subst m. lia.
Qed.

Lemma filter_length_le {A : Type} (f : A -> bool) (l : list A) :
  (length (List.filter f l) <= length l)%nat.
Proof.
  induction l as [|x l IH]; cbn; [lia|]. destruct (f x); cbn; lia.
Qed.


Lemma dedupe_length (l : list Q) : (length (dedupe l) <= length l)%nat.
Proof.
  induction l as [|x l IH]; cbn; [lia|].
  pose proof (filter_length_le (fun y => negb (Qeq_bool x y)) (dedupe l)). lia.
Qed.

Lemma dedupe_keeps (x : Q) (l : list Q) :
  In x l -> exists y, In y (dedupe l) /\ (y == x)%Q.
Proof.
  induction l as [|a l IH]; cbn; [contradiction|].
  intros [->|Hx].
  - exists x. split; [left; reflexivity | reflexivity].
  - destruct (IH Hx) as (y & Hy & Hyx).
    destruct (Qeq_bool a y) eqn:E.
    + apply Qeq_bool_iff in E. exists a. split; [left; reflexivity|].
      rewrite E. exact Hyx.
    + exists y. split; [|exact Hyx].
      right. apply filter_In. split; [exact Hy|]. rewrite E. reflexivity.
Qed.

(** The edges [qcut] cuts at start with the smallest value, hold the
    largest one, and are at most six. *)
Lemma edges_facts (values : list Q) :
  values <> [] ->
  exists rest b,
    edges values 5 = nth 0 (sort values) 0%Q :: rest
    /\ (length rest <= 5)%nat
    /\ In b (edges values 5)
    /\ (b == nth (length values - 1) (sort values) 0)%Q.
Proof.
  intros Hne.
  assert (Hs : sort values <> []).
  { intros E. apply (f_equal (@length Q)) in E. rewrite length_sort in E.
    destruct values; [contradiction | discriminate]. }
  unfold edges. cbn [seq map].
  rewrite quantile_lowest, (quantile_highest _ Hs), length_sort.
  set (lo := nth 0 (sort values) 0%Q).
  set (hi := nth (length values - 1) (sort values) 0%Q).
  match goal with
  | |- context [dedupe ?l] => set (bins := l)
  end.
  assert (Hhi : In hi bins) by (subst bins; cbn; tauto).
  destruct ((length (dedupe bins) <? length bins)%nat
            && negb (Nat.eqb (length bins) 2)).
  - destruct (dedupe_keeps hi bins Hhi) as (b & Hb & Hbq).
    pose proof (dedupe_length bins) as Hlen.
    subst bins. cbn [dedupe] in *.
    eexists _, b. split; [reflexivity|].
    split; [cbn [length] in Hlen; lia|]. split; [exact Hb | exact Hbq].
  - subst bins. eexists _, hi. split; [reflexivity|].
    split; [cbn; lia|]. split; [exact Hhi | reflexivity].
Qed.




Lemma numbers_In (col : list cell) (values : list Q) :
  numbers col = Ok values ->
  forall c, In c col -> c = NaN \/ exists x, c = Num x /\ In x values.
Proof.
  revert values. induction col as [|d col IH]; intros values H c Hc; [contradiction|].
  destruct d as [|s|q]; cbn in H.
  - destruct Hc as [<-|Hc]; [left; reflexivity | apply (IH _ H c Hc)].
  - discriminate.
  - destruct (numbers col) as [qs|e]; cbn in H; [|discriminate].
    injection H as <-.
    destruct Hc as [<-|Hc].
    + right. exists q. split; [reflexivity | left; reflexivity].
    + destruct (IH _ eq_refl c Hc) as [->|(x & -> & Hx)]; [left; reflexivity|].
      right. exists x. split; [reflexivity | right; exact Hx].
Qed.



(** *** Equal values *)







Lemma In_numbers (col : list cell) (values : list Q) (z : Q) :
  numbers col = Ok values -> In z values -> In (Num z) col.
Proof.
  revert values. induction col as [|d col IH]; intros values H Hz.
  - cbn in H. injection H as <-. contradiction.
  - destruct d as [|s|q]; cbn in H.
    + right. apply (IH _ H Hz).
    + discriminate.
    + destruct (numbers col) as [qs|e]; cbn in H; [|discriminate].
      injection H as <-. destruct Hz as [<-|Hz]; [left; reflexivity|].
      right. apply (IH _ eq_refl Hz).
Qed.




(** ** The response-rate buckets *)




(** ** The dictionary of values *)

Lemma keys_tally (v : string) (d : list (string * Z)) :
  map fst (tally v d)
  = if mem v (map fst d) then map fst d else map fst d ++ [v].
Proof.
  unfold mem. induction d as [|[k n] d IH]; cbn; [reflexivity|].
  rewrite (String.eqb_sym v k).
  destruct (String.eqb k v); cbn; [reflexivity|].
  rewrite IH. destruct (existsb (String.eqb v) (map fst d)); reflexivity.
Qed.

Lemma assoc_tally (u v : string) (d : list (string * Z)) :
  assoc u (tally v d)
  = if String.eqb v u
    then Some (match assoc v d with Some n => (n + 1)%Z | None => 0%Z end)
    else assoc u d.
Proof.
  induction d as [|[k n] d IH]; cbn.
  - destruct (String.eqb v u); reflexivity.
  - destruct (String.eqb k v) eqn:Ekv; cbn.
    + apply String.eqb_eq in Ekv. subst k.
      destruct (String.eqb v u); reflexivity.
    + rewrite IH. destruct (String.eqb v u) eqn:Evu.
      * apply String.eqb_eq in Evu. subst u. rewrite Ekv. reflexivity.
      * reflexivity.
Qed.

Lemma keys_fold_tally (items : list string) (d : list (string * Z)) :
  map fst (fold_left (fun d v => tally v d) items d)
  = fold_left add_key items (map fst d).
Proof.
  revert d. induction items as [|x items IH]; intros d; cbn; [reflexivity|].
  rewrite IH, keys_tally. reflexivity.
Qed.

Lemma mem_app (y : string) (ks ks' : list string) :
  mem y (ks ++ ks') = mem y ks || mem y ks'.
Proof. unfold mem. apply existsb_app. Qed.

Lemma filter_twice {A : Type} (f g : A -> bool) (l : list A) :
  List.filter f (List.filter g l) = List.filter (fun y => g y && f y) l.
Proof.
  induction l as [|x l IH]; cbn; [reflexivity|].
  destruct (g x); cbn; [destruct (f x)|]; rewrite IH; reflexivity.
Qed.

Lemma fold_add_key (items ks : list string) :
  fold_left add_key items ks
  = ks ++ List.filter (fun y => negb (mem y ks)) (encounter_order items).
Proof.
  revert ks. induction items as [|x items IH]; intros ks; cbn [fold_left encounter_order].
  - cbn. rewrite app_nil_r. reflexivity.
  - rewrite IH. unfold add_key. cbn [List.filter].
    destruct (mem x ks) eqn:Hx; cbn [negb].
    + f_equal. rewrite filter_twice. apply filter_ext. intros y.
      destruct (String.eqb x y) eqn:E; [|reflexivity].
      apply String.eqb_eq in E. subst y. rewrite Hx. reflexivity.
    + rewrite <- app_assoc. cbn [app]. do 2 f_equal.
      rewrite filter_twice. apply filter_ext. intros y.
      rewrite mem_app. cbn. rewrite orb_false_r, (String.eqb_sym y x).
      destruct (String.eqb x y), (mem y ks); reflexivity.
Qed.

Lemma filter_all {A : Type} (l : list A) : List.filter (fun _ => true) l = l.
Proof. induction l as [|x l IH]; cbn; [|rewrite IH]; reflexivity. Qed.

Lemma keys_of_items (items : list string) :
  map fst (fold_left (fun d v => tally v d) items []) = encounter_order items.
Proof.
  rewrite keys_fold_tally, fold_add_key. cbn. apply filter_all.
Qed.

Lemma encounter_order_distinct (items : list string) :
  List.NoDup (encounter_order items).
Proof.
  induction items as [|x items IH]; cbn; constructor.
  - intros H. apply filter_In in H as [_ H].
    rewrite String.eqb_refl in H. discriminate.
  - apply List.NoDup_filter. exact IH.
Qed.

Lemma In_encounter_order (v : string) (items : list string) :
  In v (encounter_order items) <-> In v items.
Proof.
  induction items as [|x items IH]; cbn; [reflexivity|].
  rewrite filter_In, IH. split.
  - intros [H|[H _]]; auto.
  - intros [H|H]; [left; exact H|].
    destruct (String.eqb x v) eqn:E.
    + left. apply String.eqb_eq. exact E.
    + right. split; [exact H | reflexivity].
Qed.

Lemma occurrences_cons (u x : string) (items : list string) :
  occurrences u (x :: items)
  = ((if String.eqb u x then 1 else 0) + occurrences u items)%Z.
Proof.
  unfold occurrences. cbn [List.filter].
  destruct (String.eqb u x); cbn [length]; lia.
Qed.

Lemma occurrences_nonneg (u : string) (items : list string) :
  (0 <= occurrences u items)%Z.
Proof. unfold occurrences. lia. Qed.

Lemma assoc_fold_tally (u : string) (items : list string) (d : list (string * Z)) :
  assoc u (fold_left (fun d v => tally v d) items d)
  = match assoc u d with
    | Some n => Some (n + occurrences u items)%Z
    | None => if (occurrences u items =? 0)%Z then None
              else Some (occurrences u items - 1)%Z
    end.
Proof.
  revert d. induction items as [|x items IH]; intros d; cbn [fold_left].
  - unfold occurrences; cbn. destruct (assoc u d); [f_equal; lia | reflexivity].
  - rewrite IH, assoc_tally, occurrences_cons, (String.eqb_sym u x).
    pose proof (occurrences_nonneg u items) as Hocc.
    destruct (String.eqb x u) eqn:E.
    + apply String.eqb_eq in E. subst x.
      destruct (assoc u d) as [n|]; [f_equal; lia|].
      destruct (Z.eqb_spec (1 + occurrences u items) 0); [lia|]. f_equal. lia.
    + destruct (assoc u d); reflexivity.
Qed.

Lemma assoc_of_In {A : Type} (v : string) (x : A) (d : list (string * A)) :
  List.NoDup (map fst d) -> In (v, x) d -> assoc v d = Some x.
Proof.
  induction d as [|[k y] d IH]; cbn; [contradiction|].
  intros Hnd Hin. apply List.NoDup_cons_iff in Hnd as [Hk Hnd].
  destruct Hin as [[= -> ->]|Hin]; [rewrite String.eqb_refl; reflexivity|].
  destruct (String.eqb k v) eqn:E; [|apply IH; assumption].
  apply String.eqb_eq in E. subst k. exfalso. apply Hk.
  apply in_map_iff. exists (v, x). split; [reflexivity | exact Hin].
Qed.

Lemma count_of_items (items : list string) (v : string) (n : Z) :
  In (v, n) (fold_left (fun d v => tally v d) items []) ->
  n = (occurrences v items - 1)%Z.
Proof.
  intros Hin.
  assert (Hnd : List.NoDup (map fst (fold_left (fun d v => tally v d) items [])))
    by (rewrite keys_of_items; apply encounter_order_distinct).
  pose proof (assoc_of_In v n _ Hnd Hin) as H.
  rewrite assoc_fold_tally in H. cbn [assoc] in H.
  destruct (occurrences v items =? 0)%Z; congruence.
Qed.

Lemma count_values_texts (texts : list string) (d : list (string * Z)) :
  count_values (map Str texts) d
  = Ok (fold_left (fun d v => tally v d) (flat_map list_items texts) d).
Proof.
  revert d. induction texts as [|s texts IH]; intros d; cbn; [reflexivity|].
  rewrite IH, fold_left_app. reflexivity.
Qed.

Lemma add_key_distinct (ks : list string) (v : string) :
  List.NoDup ks -> List.NoDup (add_key ks v).
Proof.
  intros H. unfold add_key. destruct (mem v ks) eqn:E; [exact H|].
  apply mem_not_In in E.
  apply List.NoDup_app; [exact H | repeat constructor; intros [] |].
  intros a Ha [<-|[]]. contradiction.
Qed.

Lemma fold_tally_distinct (items : list string) (d : list (string * Z)) :
  List.NoDup (map fst d) ->
  List.NoDup (map fst (fold_left (fun d v => tally v d) items d)).
Proof.
  revert d. induction items as [|x items IH]; intros d H; cbn; [exact H|].
  apply IH. rewrite keys_tally. apply (add_key_distinct _ x H).
Qed.

Lemma count_values_distinct (cells : list cell) (d d' : list (string * Z)) :
  List.NoDup (map fst d) ->
  count_values cells d = Ok d' ->
  List.NoDup (map fst d').
Proof.
  revert d. induction cells as [|c cells IH]; intros d Hd H; cbn in H.
  - injection H as <-. exact Hd.
  - destruct (text c) as [s|e]; cbn [bind] in H; [|discriminate].
    apply (IH _ (fold_tally_distinct _ _ Hd) H).
Qed.

(** ** The ranking *)

Lemma insert_desc_perm (x : string * Z) (l : list (string * Z)) :
  Permutation (insert_desc x l) (x :: l).
Proof.
  induction l as [|y l IH]; cbn; [reflexivity|].
  destruct (snd x <? snd y)%Z; [|reflexivity].
  rewrite IH. apply perm_swap.
Qed.

Lemma sorted_desc_cons (x : string * Z) (l : list (string * Z)) :
  sorted_desc (x :: l) = insert_desc x (sorted_desc l).
Proof. reflexivity. Qed.

Lemma sorted_desc_perm (l : list (string * Z)) : Permutation (sorted_desc l) l.
Proof.
  induction l as [|x l IH]; [reflexivity|].
  rewrite sorted_desc_cons, insert_desc_perm, IH. reflexivity.
Qed.

Lemma insert_desc_sorted (x : string * Z) (l : list (string * Z)) :
  StronglySorted (fun a b => (snd b <= snd a)%Z) l ->
  StronglySorted (fun a b => (snd b <= snd a)%Z) (insert_desc x l).
Proof.
  induction 1 as [|y l Hs IH Hy]; cbn.
  - constructor; constructor.
  - destruct (Z.ltb_spec (snd x) (snd y)) as [Hlt|Hge].
    + constructor; [exact IH|].
      rewrite Forall_forall in Hy |- *. intros z Hz.
      apply list_elem_of_In in Hz.
      apply (Permutation_in _ (insert_desc_perm x l)) in Hz as [<-|Hz]; [lia|].
      apply Hy. apply list_elem_of_In. exact Hz.
    + constructor; [constructor; assumption|].
      constructor; [exact Hge|].
      rewrite Forall_forall in Hy |- *. intros z Hz. specialize (Hy z Hz). lia.
Qed.

Lemma sorted_desc_sorted (l : list (string * Z)) :
  StronglySorted (fun a b => (snd b <= snd a)%Z) (sorted_desc l).
Proof.
  induction l as [|x l IH]; [constructor|].
  rewrite sorted_desc_cons. apply insert_desc_sorted. exact IH.
Qed.

(** The ranking is stable: the entries of one count keep the order they
    have in the dictionary. *)
Lemma insert_desc_stable (n : Z) (x : string * Z) (l : list (string * Z)) :
  List.filter (fun e => (snd e =? n)%Z) (insert_desc x l)
  = List.filter (fun e => (snd e =? n)%Z) (x :: l).
Proof.
  induction l as [|y l IH]; [reflexivity|].
  cbn [insert_desc]. destruct (Z.ltb_spec (snd x) (snd y)) as [Hlt|Hge];
    [|reflexivity].
  cbn [List.filter] in *. rewrite IH.
  destruct (Z.eqb_spec (snd x) n), (Z.eqb_spec (snd y) n); try reflexivity. lia.
Qed.

Lemma sorted_desc_stable (n : Z) (l : list (string * Z)) :
  List.filter (fun e => (snd e =? n)%Z) (sorted_desc l)
  = List.filter (fun e => (snd e =? n)%Z) l.
Proof.
  induction l as [|x l IH]; [reflexivity|].
  rewrite sorted_desc_cons, insert_desc_stable. cbn [List.filter].
  rewrite IH. reflexivity.
Qed.

Lemma firstn_distinct {A : Type} (n : nat) (l : list A) :
  List.NoDup l -> List.NoDup (firstn n l).
Proof.
  intros H. rewrite <- (firstn_skipn n l) in H.
  apply (List.NoDup_app_remove_r _ _ H).
Qed.

Lemma selected_distinct (col : list cell) (n : nat) (values : list string) :
  selected col n = Ok values -> List.NoDup values.
Proof.
  unfold selected.
  destruct (count_values (unique col) []) as [d|e] eqn:Hd; cbn [bind]; [|discriminate].
  intros [= <-].
  rewrite <- firstn_map. apply firstn_distinct.
  apply (Permutation_NoDup (l := map fst d)).
  - apply Permutation_map. symmetry. apply sorted_desc_perm.
  - apply (count_values_distinct (unique col) [] d); [constructor | exact Hd].
Qed.

(** ** The indicator columns *)

Lemma holds_dec (c : cell) (value : string) : holds c value \/ ~ holds c value.
Proof.
  destruct c as [|s|q].
  - right. intros (s & [=] & _).
  - destruct (mem value (list_items s)) eqn:E.
    + left. exists s. split; [reflexivity | apply mem_In; exact E].
    + right. intros (s' & [= <-] & H). apply mem_In in H. congruence.
  - right. intros (s & [=] & _).
Qed.

Lemma get_val_holds (row : Row) (column_name value : string) (c : cell) :
  getitem row column_name = Ok c ->
  holds c value ->
  get_val_from_list row column_name value = Ok (Num 1).
Proof.
  intros Hrow (s & -> & Hin). unfold get_val_from_list. rewrite Hrow. cbn.
  apply mem_In in Hin. rewrite Hin. reflexivity.
Qed.

Lemma get_val_not_holds (row : Row) (column_name value : string) (c : cell) :
  getitem row column_name = Ok c ->
  ~ holds c value ->
  get_val_from_list row column_name value = Ok (Num 0).
Proof.
  intros Hrow Hc. unfold get_val_from_list. rewrite Hrow.
  destruct c as [|s|q]; cbn; try reflexivity.
  destruct (mem value (list_items s)) eqn:E; [|reflexivity].
  exfalso. apply Hc. exists s. split; [reflexivity | apply mem_In; exact E].
Qed.

Lemma get_val_value (row : Row) (column_name value : string) :
  exists v, get_val_from_list row column_name value = Ok v.
Proof.
  unfold get_val_from_list, getitem.
  destruct (assoc column_name row) as [[|s|q]|]; cbn; eauto.
  destruct (mem value (list_items s)); eauto.
Qed.

Lemma foldM_dummies (column_name : string) (col : list cell) (values : list string) :
  forall t t',
    List.NoDup values ->
    column t column_name = Ok col ->
    Stage.foldM (Stage.add_dummy column_name) values t = Ok t' ->
    forall value, In value values ->
      exists dummy,
        column t' (dummy_name column_name value) = Ok dummy
        /\ length dummy = nrows t
        /\ forall i, (i < nrows t)%nat ->
             (holds (nth i col NaN) value /\ dummy !! i = Some (Num 1))
             \/ (~ holds (nth i col NaN) value /\ dummy !! i = Some (Num 0)).
Proof.
  induction values as [|v values IH]; intros t t' Hnd Hcol H value Hin;
    [contradiction|].
  cbn [Stage.foldM] in H.
  destruct (Stage.add_dummy column_name t v) as [t1|e] eqn:E; [|discriminate].
  cbn [bind] in H.
  destruct (add_dummy_ok _ _ _ _ E) as (dummy & Happly & ->).
  apply List.NoDup_cons_iff in Hnd as [Hv Hnd].
  destruct Hin as [<-|Hin].
  - exists dummy. destruct (apply_ok _ _ _ Happly) as [Hlen Hrows].
    split; [|split; [exact Hlen|]].
    + rewrite (proj2 (foldM_dummies_keep _ _ _ _ H)); [apply column_setitem_same|].
      intros u Hu. destruct (String.eqb _ _) eqn:Eu; [|reflexivity].
      apply String.eqb_eq, dummy_name_inj in Eu. subst u. contradiction.
    + intros i Hi. destruct (Hrows i Hi) as (c & Hc & Hf).
      pose proof (getitem_row_at t i column_name col Hcol) as Hrow.
      destruct (holds_dec (nth i col NaN) v) as [Hh|Hh].
      * left. split; [exact Hh|].
        rewrite (get_val_holds _ _ _ _ Hrow Hh) in Hf. injection Hf as <-. exact Hc.
      * right. split; [exact Hh|].
        rewrite (get_val_not_holds _ _ _ _ Hrow Hh) in Hf. injection Hf as <-. exact Hc.
  - apply (IH (setitem t (dummy_name column_name v) dummy) t' Hnd);
      [|exact H | exact Hin].
    rewrite column_setitem_other by apply dummy_name_fresh. exact Hcol.
Qed.

Lemma split_list_into_columns_run (h : heap) (df : ref) (t : DataFrame)
    (column_name : string) (n : nat) :
  h !! df = Some t ->
  exists t'',
    split_list_into_columns df column_name n h
    = (<[df := t'']> h,
       match Stage.split_columns column_name n t with
       | Ok _ => Ok tt
       | Raise e => Raise e
       end)
    /\ forall t', Stage.split_columns column_name n t = Ok t' -> t'' = t'.
Proof.
  intros Hdf. exact (in_place_split [] df column_name n h t Hdf).
Qed.



(** ** The items that get a column *)

Lemma foldM_dummies_total (column_name : string) (values : list string) :
  forall t, (nrows t <> 0)%nat ->
    exists t', Stage.foldM (Stage.add_dummy column_name) values t = Ok t'.
Proof.
  induction values as [|v values IH]; intros t Hn; cbn [Stage.foldM]; [eauto|].
  unfold Stage.add_dummy at 1, apply.
  destruct (nrows t) as [|k] eqn:Hk; [contradiction|].
  destruct (mapM_total (fun row => get_val_from_list row column_name v) (rows t))
    as [dummy Hdummy]; [intros row _; apply get_val_value|].
  rewrite Hdummy. cbn [bind].
  apply IH. cbn. rewrite Hk. discriminate.
Qed.

Lemma names_setitem (t : DataFrame) (n : string) (v : list cell) :
  names (setitem t n v) = add_key (names t) n.
Proof.
  unfold names, setitem, add_key, mem; cbn.
  induction (columns t) as [|[k x] l IH]; cbn; [reflexivity|].
  rewrite (String.eqb_sym n k).
  destruct (String.eqb k n); cbn; [reflexivity|].
  rewrite IH. destruct (existsb (String.eqb n) (map fst l)); reflexivity.
Qed.

Lemma names_foldM_dummies (column_name : string) (values : list string) :
  forall t t',
    Stage.foldM (Stage.add_dummy column_name) values t = Ok t' ->
    names t' = fold_left add_key (map (dummy_name column_name) values) (names t).
Proof.
  induction values as [|v values IH]; intros t t' H; cbn [Stage.foldM] in H.
  - injection H as <-. reflexivity.
  - destruct (Stage.add_dummy column_name t v) as [t1|e] eqn:E; [|discriminate].
    cbn [bind] in H.
    destruct (add_dummy_ok _ _ _ _ E) as (dummy & _ & ->).
    rewrite (IH _ _ H), names_setitem. reflexivity.
Qed.

Lemma encounter_order_id (l : list string) :
  List.NoDup l -> encounter_order l = l.
Proof.
  induction 1 as [|x l Hx Hnd IH]; cbn; [reflexivity|].
  rewrite IH. f_equal.
  rewrite <- (filter_all l) at 2. apply filter_ext_in.
  intros y Hy. destruct (String.eqb x y) eqn:E; [|reflexivity].
  apply String.eqb_eq in E. subst y. contradiction.
Qed.

Lemma unique_keeps_nontext (col : list cell) :
  Exists (fun c => text c = Raise AttributeError) col ->
  Exists (fun c => text c = Raise AttributeError) (unique col).
Proof.
  induction col as [|c col IH]; intros H; cbn; [inversion H|].
  inversion H as [? ? Hc|? ? Hcol]; subst; [left; exact Hc|].
  destruct c as [|s|q]; try (left; reflexivity).
  right. specialize (IH Hcol). apply Exists_exists in IH as (x & Hx & Hxt).
  apply Exists_exists. exists x. split; [|exact Hxt].
  apply list_elem_of_In. apply list_elem_of_In in Hx. apply filter_In.
  split; [exact Hx|]. destruct x; [reflexivity | discriminate | reflexivity].
Qed.

Lemma count_values_nontext (cells : list cell) (d : list (string * Z)) :
  Exists (fun c => text c = Raise AttributeError) cells ->
  count_values cells d = Raise AttributeError.
Proof.
  revert d. induction cells as [|c cells IH]; intros d H; [inversion H|].
  cbn. destruct c as [|s|q]; try reflexivity.
  cbn. apply IH. inversion H as [? ? Hc|? ? Hcells]; subst;
    [discriminate | exact Hcells].
Qed.

Lemma map_fst_filter_counts (d : list (string * Z)) (f : string -> Z) (n : Z) :
  (forall v m, In (v, m) d -> m = f v) ->
  map fst (List.filter (fun e => (snd e =? n)%Z) d)
  = List.filter (fun v => (f v =? n)%Z) (map fst d).
Proof.
  induction d as [|[v m] d IH]; intros H; cbn; [reflexivity|].
  rewrite <- (H v m (or_introl eq_refl)).
  destruct (m =? n)%Z; cbn; rewrite IH; try reflexivity;
    intros u k Hu; apply H; right; exact Hu.
Qed.

(** C1, as the code has it.  For a list column whose cells are all texts,
    [split_list_into_columns] counts each item over the distinct texts of
    the column, a text that several rows hold being read once; the
    dictionary holds for each item one less than the number of its
    occurrences in those texts.  The items are ranked by descending count,
    items of equal count in the order in which they were first met, and
    the first 10 of the ranking each get one indicator column, added
    behind the columns of the table in the order of the ranking (a column
    that already bears the name is overwritten); no other item gets a
    column.  If a cell of the column is not a text, the function raises
    [AttributeError] and adds no column. *)
Theorem ranked_items (h : heap) (df : ref) (t : DataFrame)
    (column_name : string) (col : list cell) :
  h !! df = Some t ->
  column t column_name = Ok col ->
  (forall texts,
     unique col = map Str texts ->
     length col = nrows t ->
     let items := flat_map list_items texts in
     exists ranked t',
       split_list_into_columns df column_name 10 h = (<[df := t']> h, Ok tt)
       /\ Permutation (map fst ranked) (encounter_order items)
       /\ (forall v n, In (v, n) ranked -> n = (occurrences v items - 1)%Z)
       /\ StronglySorted (fun a b => (snd b <= snd a)%Z) ranked
       /\ (forall n,
             map fst (List.filter (fun e => (snd e =? n)%Z) ranked)
             = List.filter (fun v => (occurrences v items - 1 =? n)%Z)
                 (encounter_order items))
       /\ selected col 10 = Ok (map fst (firstn 10 ranked))
       /\ nrows t' = nrows t
       /\ names t'
          = names t
            ++ List.filter (fun m => negb (mem m (names t)))
                 (map (dummy_name column_name) (map fst (firstn 10 ranked))))
  /\ (forall c, In c col -> text c = Raise AttributeError ->
        split_list_into_columns df column_name 10 h = (h, Raise AttributeError)).
Proof.
  intros Hdf Hcol. split.
  - intros texts Htexts Hlen items.
    set (d := fold_left (fun d v => tally v d) items []).
    assert (Hd : count_values (unique col) [] = Ok d)
      by (rewrite Htexts; apply count_values_texts).
    assert (Hsel : selected col 10 = Ok (map fst (firstn 10 (sorted_desc d))))
      by (unfold selected; rewrite Hd; reflexivity).
    assert (Hcount : forall v n, In (v, n) d -> n = (occurrences v items - 1)%Z)
      by (intros v n; apply count_of_items).
    assert (Htotal : exists t',
               Stage.foldM (Stage.add_dummy column_name)
                 (map fst (firstn 10 (sorted_desc d))) t = Ok t').
    { destruct (firstn 10 (sorted_desc d)) as [|e l] eqn:Hfirst; [cbn; eauto|].
      rewrite <- Hfirst. apply foldM_dummies_total.
      rewrite <- Hlen. intros Hcol0. apply length_zero_iff_nil in Hcol0.
      subst col. destruct texts; [|discriminate].
      subst d items. cbn in Hfirst. discriminate. }
    destruct Htotal as [t' Ht'].
    assert (Hsplit : Stage.split_columns column_name 10 t = Ok t')
      by (unfold Stage.split_columns; rewrite Hcol; cbn [bind]; rewrite Hsel; exact Ht').
    exists (sorted_desc d), t'.
    split; [|split; [|split; [|split; [|split; [|split; [|split]]]]]].
    + destruct (split_list_into_columns_run h df t column_name 10 Hdf)
        as (t'' & Hrun & Ht'').
      rewrite Hsplit in Hrun. rewrite (Ht'' t' Hsplit) in Hrun. exact Hrun.
    + rewrite <- (keys_of_items items). apply Permutation_map, sorted_desc_perm.
    + intros v n Hin. apply Hcount.
      apply (Permutation_in _ (sorted_desc_perm d)). exact Hin.
    + apply sorted_desc_sorted.
    + intros n. rewrite sorted_desc_stable.
      rewrite (map_fst_filter_counts d (fun v => (occurrences v items - 1)%Z) n Hcount).
      subst d. rewrite keys_of_items. reflexivity.
    + exact Hsel.
    + apply (split_columns_ok _ _ _ _ Hsplit).
    + rewrite (names_foldM_dummies _ _ _ _ Ht'), fold_add_key.
      rewrite encounter_order_id; [reflexivity|].
      apply Finite.Injective_map_NoDup;
        [intros u v; apply dummy_name_inj | apply (selected_distinct _ _ _ Hsel)].
  - intros c Hc Htext.
    assert (Hsel : selected col 10 = Raise AttributeError).
    { unfold selected. rewrite count_values_nontext; [reflexivity|].
      apply unique_keeps_nontext. apply Exists_exists.
      exists c. split; [apply list_elem_of_In; exact Hc | exact Htext]. }
    unfold split_list_into_columns, df_getitem, query, bindM, load, lift.
    rewrite Hdf, Hcol, Hsel. reflexivity.
Qed.

Lemma ranked_items_demo :
  exists ranked t',
    split_list_into_columns 0 "amenities" 10 [Amenities.table] = ([t'], Ok tt)
    /\ selected Amenities.col 10 = Ok (map fst (firstn 10 ranked))
    /\ StronglySorted (fun a b => (snd b <= snd a)%Z) ranked.
Proof.
  destruct (proj1 (ranked_items [Amenities.table] 0 Amenities.table "amenities"
                     Amenities.col eq_refl eq_refl)
              ["{a,b,c,d,e,f,g,h,i,j}"; "{a,b,c,d,e,f,g,h,i,j,z}"; "{k}"]
              eq_refl eq_refl)
    as (ranked & t' & Hrun & _ & _ & Hsorted & _ & Hsel & _).
  exists ranked, t'. split; [exact Hrun|]. split; [exact Hsel | exact Hsorted].
Defined.

(** C1 as stated fails: the counts are not taken over all rows.  The item
    "k" stands in three rows and "j" in two, but the three rows of "k"
    hold the same text, which is read once: "j" gets a column and "k"
    does not. *)
Lemma ranked_items_counterexample :
  row_frequency Amenities.col "k" = 3%Z
  /\ row_frequency Amenities.col "j" = 2%Z
  /\ exists t',
       split_list_into_columns 0 "amenities" 10 [Amenities.table] = ([t'], Ok tt)
       /\ mem "amenities_j" (names t') = true
       /\ mem "amenities_k" (names t') = false
       /\ length (names t') = 11%nat.
Proof.
  split; [reflexivity|]. split; [reflexivity|].
  eexists. split; [vm_compute; reflexivity|].
  split; [|split]; reflexivity.
Qed.

(** * Further properties of the helpers and of the pipeline *)

(** ** Splitting a text *)

Lemma split_nonempty (sep : ascii) (s : string) : split sep s <> [].
Proof.
  induction s as [|a s IH]; cbn; [discriminate|].
  destruct (Ascii.eqb a sep); [discriminate|].
  destruct (split sep s); [contradiction | discriminate].
Qed.

Lemma length_split (sep : ascii) (s : string) :
  length (split sep s) = S (count_char sep s).
Proof.
  induction s as [|a s IH]; cbn; [reflexivity|].
  destruct (Ascii.eqb a sep); cbn; [rewrite IH; reflexivity|].
  pose proof (split_nonempty sep s) as Hne.
  destruct (split sep s); [contradiction | exact IH].
Qed.

Lemma count_char_cons_zero (c a : ascii) (s : string) :
  count_char c (String a s) = 0%nat ->
  Ascii.eqb a c = false /\ count_char c s = 0%nat.
Proof.
  cbn. destruct (Ascii.eqb a c); [discriminate|]. intros H. split; [reflexivity | exact H].
Qed.

Lemma split_free (sep : ascii) (s : string) :
  count_char sep s = 0%nat -> split sep s = [s].
Proof.
  induction s as [|a s IH]; [reflexivity|].
  intros H. apply count_char_cons_zero in H as [Ha Hs].
  cbn. rewrite Ha, (IH Hs). reflexivity.
Qed.

Lemma split_app (sep : ascii) (a b : string) :
  count_char sep a = 0%nat ->
  split sep (String.append a (String sep b)) = a :: split sep b.
Proof.
  induction a as [|c a IH]; cbn [String.append].
  - intros _. cbn. rewrite Ascii.eqb_refl. reflexivity.
  - intros H. apply count_char_cons_zero in H as [Hc Ha].
    cbn. rewrite Hc, (IH Ha). reflexivity.
Qed.

Lemma split_pieces (c sep : ascii) (s : string) :
  (Ascii.eqb c sep = true \/ count_char c s = 0%nat) ->
  Forall (fun w => count_char c w = 0%nat) (split sep s).
Proof.
  induction s as [|a s IH]; intros H.
  - cbn. constructor; [reflexivity | constructor].
  - cbn [split]. destruct (Ascii.eqb a sep) eqn:Ea.
    + constructor; [reflexivity|]. apply IH.
      destruct H as [H|H]; [left; exact H|].
      right. apply count_char_cons_zero in H. tauto.
    + assert (Hac : Ascii.eqb a c = false).
      { destruct H as [H|H].
        - apply Ascii.eqb_eq in H. subst c. exact Ea.
        - apply count_char_cons_zero in H. tauto. }
      assert (Hs : Forall (fun w => count_char c w = 0%nat) (split sep s)).
      { apply IH. destruct H as [H|H]; [left; exact H|].
        right. apply count_char_cons_zero in H. tauto. }
      pose proof (split_nonempty sep s) as Hne.
      destruct (split sep s) as [|w ws]; [contradiction|].
      inversion Hs as [|? ? Hw Hws]; subst.
      constructor; [cbn; rewrite Hac; exact Hw | exact Hws].
Qed.

Lemma concat_cons (sep x y : string) (l : list string) :
  String.concat sep (x :: y :: l)
  = String.append x (String.append sep (String.concat sep (y :: l))).
Proof. reflexivity. Qed.

Lemma concat_split (sep : ascii) (s : string) :
  String.concat (String sep EmptyString) (split sep s) = s.
Proof.
  induction s as [|a s IH]; [reflexivity|].
  cbn [split]. pose proof (split_nonempty sep s) as Hne.
  destruct (Ascii.eqb a sep) eqn:Ea.
  - apply Ascii.eqb_eq in Ea. subst a.
    destruct (split sep s) as [|w ws] eqn:E; [contradiction|].
    rewrite concat_cons, IH. reflexivity.
  - destruct (split sep s) as [|w ws] eqn:E; [contradiction|].
    destruct ws as [|w' ws].
    + cbn in *. rewrite IH. reflexivity.
    + rewrite concat_cons. rewrite concat_cons in IH.
      rewrite <- IH at 1. reflexivity.
Qed.

Lemma count_remove_char (c d : ascii) (s : string) :
  count_char d (remove_char c s)
  = if Ascii.eqb c d then 0%nat else count_char d s.
Proof.
  induction s as [|a s IH]; cbn; [destruct (Ascii.eqb c d); reflexivity|].
  destruct (Ascii.eqb a c) eqn:Ea.
  - rewrite IH. apply Ascii.eqb_eq in Ea. subst a.
    destruct (Ascii.eqb c d); reflexivity.
  - cbn. rewrite IH. destruct (Ascii.eqb c d) eqn:Ec; [|reflexivity].
    apply Ascii.eqb_eq in Ec. subst d. rewrite Ea. reflexivity.
Qed.

(** ** Reading a run of digits *)

Lemma is_digit_numeric (cs : list ascii) :
  forallb is_digit cs = true -> Forall numeric_char cs.
Proof.
  intros H. apply List.Forall_forall. intros c Hc.
  apply numeric_char_intro. rewrite forallb_forall in H.
  rewrite (H c Hc). reflexivity.
Qed.

Lemma digits_value_digits (cs : list ascii) (n : Z) :
  digits_value cs = Some n -> cs <> [] /\ forallb is_digit cs = true.
Proof.
  unfold digits_value. destruct cs as [|c cs]; [discriminate|].
  destruct (forallb is_digit (c :: cs)); [|discriminate].
  intros _. split; [discriminate | reflexivity].
Qed.

Lemma int_digits (s : string) (n : Z) :
  digits_value (list_ascii_of_string s) = Some n -> int s = Ok n.
Proof.
  intros H. destruct (digits_value_digits _ _ H) as [Hne Hd].
  pose proof (is_digit_numeric _ Hd) as Hnum.
  unfold int.
  assert (Hplain : plain_text s = true).
  { unfold plain_text. apply forallb_forall. intros c Hc.
    rewrite List.Forall_forall in Hnum. apply (Hnum c Hc). }
  rewrite Hplain, (strip_no_space _ Hnum).
  destruct (list_ascii_of_string s) as [|c cs]; [contradiction|].
  inversion Hnum as [|? ? Hc _]; subst.
  destruct Hc as (_ & _ & Hminus & Hplus & _).
  unfold split_sign. rewrite Hminus, Hplus, H. reflexivity.
Qed.

Lemma digits_no_hyphen (s : string) :
  forallb is_digit (list_ascii_of_string s) = true -> count_char "-" s = 0%nat.
Proof.
  induction s as [|a s IH]; [reflexivity|].
  cbn. intros H. apply andb_prop in H as [Ha Hs].
  rewrite (IH Hs).
  destruct (Ascii.eqb a "-") eqn:E; [|reflexivity].
  apply Ascii.eqb_eq in E. subst a. discriminate Ha.
Qed.

(** ** The date helpers *)

(** X1.  On a date made of a year, a month and anything behind them, joined
    by hyphens, [get_year_from_date] and [get_month_from_date] return the
    numbers the two runs of digits spell, leading zeros included; what
    follows the second hyphen is not read. *)
Theorem date_fields (row : Row) (y m rest : string) (ny nm : Z) :
  getitem row "date"
  = Ok (Str (String.append y (String "-" (String.append m (String "-" rest))))) ->
  digits_value (list_ascii_of_string y) = Some ny ->
  digits_value (list_ascii_of_string m) = Some nm ->
  get_year_from_date row = Ok (of_int ny)
  /\ get_month_from_date row = Ok (of_int nm)
  /\ (0 <= ny)%Z /\ (0 <= nm)%Z.
Proof.
  intros Hrow Hy Hm.
  pose proof (digits_no_hyphen y (proj2 (digits_value_digits _ _ Hy))) as Hfy.
  pose proof (digits_no_hyphen m (proj2 (digits_value_digits _ _ Hm))) as Hfm.
  unfold get_year_from_date, get_month_from_date.
  rewrite Hrow. cbn [bind text].
  rewrite (split_app "-" y _ Hfy), (split_app "-" m rest Hfm).
  cbn [item nth_error bind].
  rewrite (int_digits y ny Hy), (int_digits m nm Hm). cbn [bind].
  repeat split; eauto using digits_value_nonneg.
Qed.

Lemma date_fields_demo :
  get_year_from_date [("date", Str "2016-07-04")] = Ok (of_int 2016)
  /\ get_month_from_date [("date", Str "2016-07-04")] = Ok (of_int 7).
Proof.
  destruct (date_fields [("date", Str "2016-07-04")] "2016" "07" "04" 2016 7
              eq_refl eq_refl eq_refl) as (Hy & Hm & _).
  split; [exact Hy | exact Hm].
Defined.

Lemma int_not_index (s : string) : int s <> Raise IndexError.
Proof.
  unfold int. destruct (plain_text s); [|discriminate].
  destruct (split_sign _) as [neg body].
  destruct (digits_value body); discriminate.
Qed.

Lemma getitem_raises (row : Row) (n : string) (e : exn) :
  getitem row n = Raise e -> e = KeyError.
Proof.
  unfold getitem. destruct (assoc n row); [discriminate|]. congruence.
Qed.

(** X2.  How the date helpers fail.  Without a [date] entry both raise
    [KeyError]; on a cell that is not a text (a missing value, a number)
    both raise [AttributeError]; [get_month_from_date] raises [IndexError]
    exactly on a text without hyphen, which [get_year_from_date] reads as a
    whole as the year, and [get_year_from_date] never raises [IndexError]. *)
Theorem date_helper_errors (row : Row) :
  (getitem row "date" = Raise KeyError ->
     get_month_from_date row = Raise KeyError
     /\ get_year_from_date row = Raise KeyError)
  /\ (forall c, getitem row "date" = Ok c -> (forall s, c <> Str s) ->
        get_month_from_date row = Raise AttributeError
        /\ get_year_from_date row = Raise AttributeError)
  /\ (get_month_from_date row = Raise IndexError
      <-> exists s, getitem row "date" = Ok (Str s) /\ count_char "-" s = 0%nat)
  /\ get_year_from_date row <> Raise IndexError
  /\ (forall s, getitem row "date" = Ok (Str s) -> count_char "-" s = 0%nat ->
        get_year_from_date row = (let* n := int s in Ok (of_int n))).
Proof.
  unfold get_month_from_date, get_year_from_date.
  split; [intros ->; split; reflexivity|].
  split.
  { intros c -> Hc. destruct c as [|s|q]; [split; reflexivity| |split; reflexivity].
    destruct (Hc s eq_refl). }
  split; [split|split].
  - destruct (getitem row "date") as [c|e] eqn:Hrow; cbn [bind].
    + destruct c as [|s|q]; cbn [text bind]; try discriminate.
      unfold item. destruct (nth_error (split "-" s) 1) as [part|] eqn:Hnth; cbn [bind].
      * intros H. exfalso. destruct (int part) eqn:Hint; cbn [bind] in H; [discriminate|].
        apply (int_not_index part). congruence.
      * intros _. exists s. split; [reflexivity|].
        apply nth_error_None in Hnth. rewrite length_split in Hnth. lia.
    + intros H. apply getitem_raises in Hrow. congruence.
  - intros (s & -> & Hs). cbn [bind text]. rewrite (split_free _ _ Hs). reflexivity.
  - destruct (getitem row "date") as [c|e] eqn:Hrow; cbn [bind].
    + destruct c as [|s|q]; cbn [text bind]; try discriminate.
      pose proof (split_nonempty "-" s) as Hne.
      destruct (split "-" s) as [|part ws]; [contradiction|].
      cbn [item nth_error bind].
      intros H. destruct (int part) eqn:Hint; cbn [bind] in H; [discriminate|].
      apply (int_not_index part). congruence.
    + intros H. apply getitem_raises in Hrow. congruence.
  - intros s -> Hs. cbn [bind text]. rewrite (split_free _ _ Hs). reflexivity.
Qed.

(** ** The items of a list cell *)

Lemma list_items_split (s : string) :
  exists body,
    list_items s = split "," body
    /\ (forall c, In c list_punctuation -> Ascii.eqb c "," = false ->
          count_char c body = 0%nat)
    /\ count_char "," body = count_char "," s
    /\ body = remove_chars ["["; "]"; "'"; "034"; "{"; "}"]%char s.
Proof.
  eexists. split; [reflexivity|]. split; [|split].
  - intros c Hc Hcomma. rewrite !count_remove_char.
    cbn in Hc. repeat destruct Hc as [<- | Hc]; try reflexivity; try discriminate.
    destruct Hc.
  - rewrite !count_remove_char. reflexivity.
  - induction s as [|a s IH]; [reflexivity|].
    cbn [remove_char remove_chars existsb].
    destruct (Ascii.eqb a "[") eqn:E1; [exact IH|]. cbn [remove_char].
    destruct (Ascii.eqb a "]") eqn:E2; [exact IH|]. cbn [remove_char].
    destruct (Ascii.eqb a "'") eqn:E3; [exact IH|]. cbn [remove_char].
    destruct (Ascii.eqb a "034") eqn:E4; [exact IH|]. cbn [remove_char].
    destruct (Ascii.eqb a "{") eqn:E5; [exact IH|]. cbn [remove_char].
    destruct (Ascii.eqb a "}") eqn:E6; [exact IH|]. cbn [orb].
    rewrite IH. reflexivity.
Qed.

(** X3.  The items [get_val_from_list] and [split_list_into_columns] read
    from a cell: there is always at least one, one more than the cell has
    commas; no item holds a bracket, a quote, a brace or a comma; joined by
    commas they give back the cell's text without brackets, quotes and
    braces, so nothing else is trimmed or changed.  Hence a value that holds
    one of these characters is found in no row. *)
Theorem list_items_clean (s : string) :
  list_items s <> []
  /\ length (list_items s) = S (count_char "," s)
  /\ (forall item c, In item (list_items s) -> In c list_punctuation ->
        count_char c item = 0%nat)
  /\ String.concat "," (list_items s)
     = remove_chars ["["; "]"; "'"; "034"; "{"; "}"]%char s
  /\ (forall row column_name value c,
        In c list_punctuation -> count_char c value <> 0%nat ->
        get_val_from_list row column_name value = Ok (Num 0)).
Proof.
  assert (Hfree : forall s item c, In item (list_items s) -> In c list_punctuation ->
            count_char c item = 0%nat).
  { clear s. intros s item c Hitem Hc.
    destruct (list_items_split s) as (body & Hsplit & Hbody & _ & _).
    rewrite Hsplit in Hitem.
    assert (H : Forall (fun w => count_char c w = 0%nat) (split "," body)).
    { apply split_pieces. destruct (Ascii.eqb c ",") eqn:E; [left; reflexivity|].
      right. apply Hbody; [exact Hc | exact E]. }
    rewrite List.Forall_forall in H. apply H. exact Hitem. }
  destruct (list_items_split s) as (body & Hsplit & Hbody & Hcommas & Hrem).
  split; [rewrite Hsplit; apply split_nonempty|].
  split; [rewrite Hsplit, length_split, Hcommas; reflexivity|].
  split; [apply Hfree|].
  split; [rewrite Hsplit, <- Hrem; apply concat_split|].
  intros row column_name value c Hc Hvalue.
  unfold get_val_from_list.
  destruct (getitem row column_name) as [cell|e] eqn:Hrow; cbn [bind].
  - destruct cell as [|t|q]; cbn [text bind try_except]; try reflexivity.
    destruct (mem value (list_items t)) eqn:Hmem; [|reflexivity].
    exfalso. apply mem_In in Hmem. apply Hvalue. apply (Hfree t value c Hmem Hc).
  - apply getitem_raises in Hrow. subst e. reflexivity.
Qed.

(** ** Columns the pipeline leaves alone *)

Ltac in_list := solve [vm_compute; repeat first [left; reflexivity | right]].

(** Discharges "the column [m] is none of these" from [Hn : ~ In m touched]. *)
Ltac aside Hn :=
  first
    [ assumption
    | match goal with
      | |- mem ?m ?l = false =>
          let Hin := fresh "Hin" in
          apply mem_not_In; intros Hin; apply Hn; cbn in Hin;
          repeat (destruct Hin as [<- | Hin]; [in_list|]); destruct Hin
      | |- String.eqb ?n ?m = false =>
          destruct (String.eqb_spec n m) as [<-|];
          [exfalso; apply Hn; in_list | reflexivity]
      end ].

Lemma column_dropped (t t' : DataFrame) (labels : list string) (m : string) :
  drop t labels = Ok t' -> mem m labels = true -> column t' m = Raise KeyError.
Proof.
  unfold drop. destruct (forallb _ labels); [|discriminate].
  intros [= <-] Hm. unfold column; cbn.
  induction (columns t) as [|[k x] l IH]; cbn; [reflexivity|].
  destruct (mem k labels) eqn:Hk; cbn; [exact IH|].
  destruct (String.eqb k m) eqn:E; [|exact IH].
  apply String.eqb_eq in E. congruence.
Qed.

(** A column that no step names goes through the steps behind the join as
    it is, but for the rows without price. *)
Lemma carried (listings calendar out : DataFrame) (tr : Trace listings calendar out)
    (m : string) :
  ~ In m touched ->
  dummy_of "host_verifications" m = false ->
  dummy_of "amenities" m = false ->
  exists px,
    column (t_joined tr) "price_x" = Ok px
    /\ column out m
       = (let* c := column (t_joined tr) m in Ok (select (map notnull px) c)).
Proof.
  intros Hn Hv Ha. destruct tr; cbn [t_joined].
  destruct (dated_ok _ _ run_dated0) as (_ & Hkeep & _).
  destruct (priced_ok _ _ run_priced0) as (px & prices & Hpx & _ & _ & _ & Hrest).
  rewrite Hkeep in Hpx by reflexivity.
  exists px. split; [exact Hpx|].
  rewrite (proj1 (proj2 (foldM_means_ok _ _ _ run_reviews0
                           review_scores_columns_distinct)) m) by aside Hn.
  rewrite (proj1 (proj2 (with_fee_ok _ _ run_fee0)) m) by aside Hn.
  rewrite (proj2 (drop_ok _ _ _ run_amenities'0) m) by aside Hn.
  rewrite (proj2 (split_columns_ok _ _ _ _ run_amenities0) m) by aside Hn.
  rewrite (proj1 (proj2 (fill_mode_ok _ _ _ run_beds0)) m) by aside Hn.
  rewrite (proj1 (proj2 (fill_mode_ok _ _ _ run_bedrooms0)) m) by aside Hn.
  rewrite (proj1 (proj2 (fill_mode_ok _ _ _ run_bathrooms0)) m) by aside Hn.
  rewrite (proj2 (drop_ok _ _ _ run_verified'0) m) by aside Hn.
  rewrite (proj2 (split_columns_ok _ _ _ _ run_verified0) m) by aside Hn.
  rewrite (proj1 (proj2 (fill_with_mean_ok _ _ _ run_counted0)) m) by aside Hn.
  rewrite (proj1 (proj2 (rated_ok _ _ run_rated0)) m) by aside Hn.
  rewrite (proj1 (proj2 (hosted_ok _ _ run_hosted0)) m) by aside Hn.
  rewrite (Hrest m) by aside Hn.
  rewrite (Hkeep m) by aside Hn.
  reflexivity.
Qed.



(** ** Well-formed tables *)

Lemma distinct_NoDup (l : list string) : distinct l = true <-> List.NoDup l.
Proof.
  induction l as [|x l IH]; cbn.
  - split; [constructor | reflexivity].
  - rewrite andb_true_iff, negb_true_iff, mem_not_In, IH.
    rewrite List.NoDup_cons_iff. reflexivity.
Qed.

Lemma well_formed_iff (t : DataFrame) :
  well_formed t = true
  <-> List.NoDup (names t)
      /\ Forall (fun c => length (snd c) = nrows t) (columns t).
Proof.
  unfold well_formed. rewrite andb_true_iff, distinct_NoDup.
  rewrite forallb_forall, List.Forall_forall.
  split; intros [Hd Hl]; (split; [exact Hd|]); intros c Hc.
  - apply Nat.eqb_eq, Hl, Hc.
  - apply Nat.eqb_eq, Hl, Hc.
Qed.

Lemma assoc_In {A : Type} (n : string) (x : A) (l : list (string * A)) :
  assoc n l = Some x -> In (n, x) l.
Proof.
  induction l as [|[k y] l IH]; cbn; [discriminate|].
  destruct (String.eqb k n) eqn:E.
  - apply String.eqb_eq in E. intros [= <-]. left. congruence.
  - intros H. right. exact (IH H).
Qed.

Lemma column_In (t : DataFrame) (n : string) (col : list cell) :
  column t n = Ok col -> In (n, col) (columns t).
Proof.
  unfold column. destruct (assoc n (columns t)) eqn:E; [|discriminate].
  intros [= <-]. apply assoc_In. exact E.
Qed.

Lemma column_length (t : DataFrame) (n : string) (col : list cell) :
  well_formed t = true -> column t n = Ok col -> length col = nrows t.
Proof.
  intros Hwf Hcol. apply well_formed_iff in Hwf as [_ Hlen].
  rewrite List.Forall_forall in Hlen. apply (Hlen _ (column_In _ _ _ Hcol)).
Qed.

Lemma column_mem (t : DataFrame) (n : string) (col : list cell) :
  column t n = Ok col -> mem n (names t) = true.
Proof.
  intros H. apply mem_In. unfold names.
  apply (in_map fst _ _ (column_In _ _ _ H)).
Qed.

Lemma assign_lengths (k : nat) (n : string) (v : list cell)
    (l : list (string * list cell)) :
  length v = k ->
  Forall (fun c => length (snd c) = k) l ->
  Forall (fun c => length (snd c) = k) (assign n v l).
Proof.
  intros Hv. induction 1 as [|[m x] l Hx Hl IH]; cbn.
  - constructor; [exact Hv | constructor].
  - destruct (String.eqb m n); constructor; assumption.
Qed.

Lemma wf_setitem (t : DataFrame) (n : string) (v : list cell) :
  well_formed t = true -> length v = nrows t ->
  well_formed (setitem t n v) = true.
Proof.
  rewrite !well_formed_iff. intros [Hd Hl] Hv. split.
  - rewrite names_setitem. apply add_key_distinct. exact Hd.
  - cbn. apply assign_lengths; assumption.
Qed.

Lemma names_filter (p : string -> bool) (l : list (string * list cell)) :
  map fst (List.filter (fun c => p (fst c)) l) = List.filter p (map fst l).
Proof.
  induction l as [|[k x] l IH]; cbn; [reflexivity|].
  destruct (p k); cbn; rewrite IH; reflexivity.
Qed.

Lemma Forall_filter_keep {A : Type} (P : A -> Prop) (f : A -> bool) (l : list A) :
  Forall P l -> Forall P (List.filter f l).
Proof.
  induction 1 as [|x l Hx Hl IH]; cbn; [constructor|].
  destruct (f x); [constructor|]; assumption.
Qed.

Lemma wf_drop (t t' : DataFrame) (labels : list string) :
  drop t labels = Ok t' -> well_formed t = true -> well_formed t' = true.
Proof.
  unfold drop. destruct (forallb _ labels); [|discriminate].
  intros [= <-]. rewrite !well_formed_iff. intros [Hd Hl]. split.
  - unfold names; cbn.
    rewrite (names_filter (fun k => negb (mem k labels))).
    apply List.NoDup_filter. exact Hd.
  - cbn. apply Forall_filter_keep. exact Hl.
Qed.

Lemma length_select (col : list cell) (c : list cell) :
  length c = length col ->
  length (select (map notnull col) c) = length (List.filter notnull col).
Proof.
  revert c. induction col as [|x col IH]; intros [|y c] H; cbn in *;
    try reflexivity; try discriminate.
  injection H as H. destruct (notnull x); cbn; rewrite (IH c H); reflexivity.
Qed.

Lemma names_map_snd (f : string * list cell -> list cell)
    (l : list (string * list cell)) :
  map fst (map (fun c => (fst c, f c)) l) = map fst l.
Proof. rewrite map_map. reflexivity. Qed.

Lemma wf_dropna (t t' : DataFrame) (n : string) :
  dropna t n = Ok t' -> well_formed t = true -> well_formed t' = true.
Proof.
  unfold dropna. destruct (column t n) as [col|] eqn:Hcol; [|discriminate].
  cbn [bind]. intros [= <-] Hwf.
  pose proof (column_length _ _ _ Hwf Hcol) as Hlen.
  apply well_formed_iff in Hwf as [Hd Hl]. apply well_formed_iff. split.
  - unfold names; cbn. rewrite map_map. exact Hd.
  - cbn. apply Forall_map. cbn.
    rewrite List.Forall_forall in Hl |- *. intros c Hc.
    apply length_select. rewrite (Hl c Hc). symmetry. exact Hlen.
Qed.

Lemma wf_fillna (t : DataFrame) (n : string) (v : cell) :
  well_formed t = true -> well_formed (fillna t n v) = true.
Proof.
  rewrite !well_formed_iff. intros [Hd Hl]. split.
  - unfold names, fillna; cbn. rewrite map_map.
    erewrite map_ext; [exact Hd|].
    intros c. destruct (String.eqb (fst c) n); reflexivity.
  - cbn. apply Forall_map. cbn.
    rewrite List.Forall_forall in Hl |- *. intros c Hc.
    destruct (String.eqb (fst c) n); cbn; [rewrite length_map|]; apply Hl, Hc.
Qed.

Lemma wf_merge (left right t : DataFrame) (key : string) :
  merge left right key = Ok t -> well_formed t = true.
Proof.
  unfold merge. destruct (well_formed left && well_formed right); [|discriminate].
  destruct (column left key) as [lk|]; [|discriminate].
  destruct (column right key) as [rk|]; [|discriminate].
  cbn [bind]. cbv zeta.
  match goal with
  | |- (if distinct (names ?o) then _ else _) = _ -> _ =>
      destruct (distinct (names o)) eqn:Hd; [|discriminate]
  end.
  intros [= <-]. unfold well_formed. rewrite Hd. cbn.
  apply forallb_forall. intros c Hc. apply Nat.eqb_eq.
  apply in_app_or in Hc as [Hc|Hc]; apply in_map_iff in Hc as (x & <- & _);
    cbn; apply length_map.
Qed.

Lemma mapM_length {A B : Type} (f : A -> result B) (l : list A) (vs : list B) :
  mapM f l = Ok vs -> length vs = length l.
Proof.
  intros H. apply mapM_ok in H. symmetry. apply (Forall2_length _ _ _ H).
Qed.

Lemma wf_dated (t t' : DataFrame) :
  Stage.dated t = Ok t' -> well_formed t = true -> well_formed t' = true.
Proof.
  unfold Stage.dated. intros H Hwf. inv_bind H.
  apply (wf_drop _ _ _ H).
  apply wf_setitem; [apply wf_setitem; [exact Hwf|]|].
  - apply (apply_ok _ _ _ E).
  - apply (apply_ok _ _ _ E0).
Qed.

Lemma wf_priced (t t' : DataFrame) :
  Stage.priced t = Ok t' -> well_formed t = true -> well_formed t' = true.
Proof.
  unfold Stage.priced, astype_str, replace_astype_float. intros H Hwf. inv_bind H.
  pose proof (wf_dropna _ _ _ E Hwf) as Hwf1.
  pose proof (column_length _ _ _ Hwf1 E0) as Hlen.
  apply (wf_drop _ _ _ H).
  rewrite column_setitem_same in E1. injection E1 as <-.
  apply wf_setitem; [apply wf_setitem; assumption|].
  cbn. rewrite (mapM_length _ _ _ E2). exact Hlen.
Qed.

Lemma wf_fill_with_mean (t t' : DataFrame) (n : string) :
  Stage.fill_with_mean t n = Ok t' -> well_formed t = true -> well_formed t' = true.
Proof.
  unfold Stage.fill_with_mean. intros H Hwf. inv_bind H.
  injection H as <-. apply wf_fillna. exact Hwf.
Qed.

Lemma wf_hosted (t t' : DataFrame) :
  Stage.hosted t = Ok t' -> well_formed t = true -> well_formed t' = true.
Proof.
  unfold Stage.hosted. intros H Hwf. inv_bind H.
  apply (wf_drop _ _ _ H), (wf_fill_with_mean _ _ _ E0).
  apply wf_setitem; [exact Hwf | apply (apply_ok _ _ _ E)].
Qed.

Lemma qcut_length (col buckets : list cell) (q : nat) :
  qcut col q = Ok buckets -> length buckets = length col.
Proof.
  unfold qcut. destruct (numbers col) as [[|x values]|]; cbn [bind];
    intros [= <-]; apply length_map.
Qed.

Lemma wf_rated (t t' : DataFrame) :
  Stage.rated t = Ok t' -> well_formed t = true -> well_formed t' = true.
Proof.
  unfold Stage.rated, astype_str, replace_astype_float. intros H Hwf. inv_bind H.
  pose proof (column_length _ _ _ Hwf E) as Hlen.
  rewrite column_setitem_same in E0. injection E0 as <-.
  assert (Hwf1 : well_formed
                   (setitem (setitem t "host_response_rate_num" a)
                      "host_response_rate_num" a1) = true).
  { apply wf_setitem; [apply wf_setitem; assumption|].
    cbn. rewrite (mapM_length _ _ _ E1). exact Hlen. }
  pose proof (wf_fill_with_mean _ _ _ E2 Hwf1) as Hwf2.
  apply (wf_drop _ _ _ H). apply wf_setitem; [exact Hwf2|].
  rewrite (qcut_length _ _ _ E4). apply (column_length _ _ _ Hwf2 E3).
Qed.

Lemma wf_dummies (column_name : string) (values : list string) :
  forall t t',
    Stage.foldM (Stage.add_dummy column_name) values t = Ok t' ->
    well_formed t = true -> well_formed t' = true.
Proof.
  induction values as [|v values IH]; intros t t' H Hwf; cbn [Stage.foldM] in H.
  - injection H as <-. exact Hwf.
  - inv_bind H. apply (IH _ _ H).
    destruct (add_dummy_ok _ _ _ _ E) as (dummy & Hd & ->).
    apply wf_setitem; [exact Hwf | apply (apply_ok _ _ _ Hd)].
Qed.

Lemma wf_split_columns (column_name : string) (n : nat) (t t' : DataFrame) :
  Stage.split_columns column_name n t = Ok t' ->
  well_formed t = true -> well_formed t' = true.
Proof.
  unfold Stage.split_columns. intros H Hwf. inv_bind H.
  apply (wf_dummies _ _ _ _ H Hwf).
Qed.

Lemma wf_fill_mode (t t' : DataFrame) (n : string) :
  Stage.fill_mode t n = Ok t' -> well_formed t = true -> well_formed t' = true.
Proof.
  unfold Stage.fill_mode. intros H Hwf. inv_bind H. injection H as <-.
  apply wf_setitem; [exact Hwf|].
  rewrite length_map. apply (column_length _ _ _ Hwf E).
Qed.

Lemma wf_with_fee (t t' : DataFrame) :
  Stage.with_fee t = Ok t' -> well_formed t = true -> well_formed t' = true.
Proof.
  unfold Stage.with_fee. intros H Hwf. inv_bind H.
  apply (wf_drop _ _ _ H).
  apply wf_setitem; [exact Hwf | apply (apply_ok _ _ _ E)].
Qed.

Lemma wf_means (cols : list string) :
  forall t t',
    Stage.foldM Stage.fill_with_mean cols t = Ok t' ->
    well_formed t = true -> well_formed t' = true.
Proof.
  induction cols as [|c cols IH]; intros t t' H Hwf; cbn [Stage.foldM] in H.
  - injection H as <-. exact Hwf.
  - inv_bind H. apply (IH _ _ H), (wf_fill_with_mean _ _ _ E Hwf).
Qed.

Lemma wf_joined (listings calendar t : DataFrame) :
  Stage.joined listings calendar = Ok t -> well_formed t = true.
Proof.
  unfold Stage.joined. intros H. inv_bind H.
  apply (wf_drop _ _ _ H), (wf_merge _ _ _ _ E).
Qed.

(** The tables of a run are all well formed. *)
Lemma trace_well_formed (listings calendar out : DataFrame)
    (tr : Trace listings calendar out) :
  well_formed (t_joined tr) = true
  /\ well_formed (t_dated tr) = true
  /\ well_formed (t_priced tr) = true
  /\ well_formed (t_counted tr) = true
  /\ well_formed (t_verified' tr) = true
  /\ well_formed (t_beds tr) = true
  /\ well_formed out = true.
Proof.
  destruct tr; cbn.
  pose proof (wf_joined _ _ _ run_joined0) as H1.
  pose proof (wf_dated _ _ run_dated0 H1) as H2.
  pose proof (wf_priced _ _ run_priced0 H2) as H3.
  pose proof (wf_hosted _ _ run_hosted0 H3) as H4.
  pose proof (wf_rated _ _ run_rated0 H4) as H5.
  pose proof (wf_fill_with_mean _ _ _ run_counted0 H5) as H6.
  pose proof (wf_split_columns _ _ _ _ run_verified0 H6) as H7.
  pose proof (wf_drop _ _ _ run_verified'0 H7) as H8.
  pose proof (wf_fill_mode _ _ _ run_bathrooms0 H8) as H9.
  pose proof (wf_fill_mode _ _ _ run_bedrooms0 H9) as H10.
  pose proof (wf_fill_mode _ _ _ run_beds0 H10) as H11.
  pose proof (wf_split_columns _ _ _ _ run_amenities0 H11) as H12.
  pose proof (wf_drop _ _ _ run_amenities'0 H12) as H13.
  pose proof (wf_with_fee _ _ run_fee0 H13) as H14.
  pose proof (wf_means _ _ _ run_reviews0 H14) as H15.
  repeat split; assumption.
Qed.

(** ** The columns of the returned table *)

Lemma column_absent (t : DataFrame) (n : string) (e : exn) :
  column t n = Raise e -> mem n (names t) = false.
Proof.
  intros H. destruct (mem n (names t)) eqn:Hm; [|reflexivity].
  destruct (column_of_name _ _ Hm) as [col Hcol]. congruence.
Qed.

Lemma columns_to_drop_apart :
  forallb (fun n => negb (mem n touched)
                    && negb (dummy_of "host_verifications" n)
                    && negb (dummy_of "amenities" n)) columns_to_drop = true.
Proof. vm_compute. reflexivity. Qed.

Lemma dropped_apart (n : string) :
  In n columns_to_drop ->
  ~ In n touched
  /\ dummy_of "host_verifications" n = false
  /\ dummy_of "amenities" n = false.
Proof.
  intros Hn. pose proof columns_to_drop_apart as H.
  rewrite forallb_forall in H. specialize (H n Hn).
  apply andb_prop in H as [H Ha]. apply andb_prop in H as [Ht Hv].
  apply negb_true_iff in Ht, Hv, Ha. apply mem_not_In in Ht. tauto.
Qed.

Lemma joined_dropped (listings calendar t : DataFrame) (n : string) :
  Stage.joined listings calendar = Ok t ->
  In n columns_to_drop -> column t n = Raise KeyError.
Proof.
  unfold Stage.joined. intros H Hn. inv_bind H.
  apply (column_dropped _ _ _ _ H). apply mem_In. exact Hn.
Qed.

Lemma dated_drops (t t' : DataFrame) :
  Stage.dated t = Ok t' -> column t' "date" = Raise KeyError.
Proof.
  unfold Stage.dated. intros H. inv_bind H.
  apply (column_dropped _ _ _ _ H). reflexivity.
Qed.

Lemma priced_drops (t t' : DataFrame) :
  Stage.priced t = Ok t' -> column t' "price_x" = Raise KeyError.
Proof.
  unfold Stage.priced. intros H. inv_bind H.
  apply (column_dropped _ _ _ _ H). reflexivity.
Qed.

Lemma hosted_drops (t t' : DataFrame) :
  Stage.hosted t = Ok t' -> column t' "host_since" = Raise KeyError.
Proof.
  unfold Stage.hosted. intros H. inv_bind H.
  apply (column_dropped _ _ _ _ H). reflexivity.
Qed.

Lemma rated_drops (t t' : DataFrame) (n : string) :
  Stage.rated t = Ok t' ->
  In n ["host_response_rate"; "host_response_rate_num"] ->
  column t' n = Raise KeyError.
Proof.
  unfold Stage.rated. intros H Hn. inv_bind H.
  apply (column_dropped _ _ _ _ H). apply mem_In. exact Hn.
Qed.

Lemma with_fee_drops (t t' : DataFrame) :
  Stage.with_fee t = Ok t' -> column t' "extra_people" = Raise KeyError.
Proof.
  unfold Stage.with_fee. intros H. inv_bind H.
  apply (column_dropped _ _ _ _ H). reflexivity.
Qed.

Lemma column_of_In (t : DataFrame) (n : string) (c : list cell) :
  distinct (names t) = true -> In (n, c) (columns t) -> column t n = Ok c.
Proof.
  intros Hd Hin. unfold column.
  rewrite (assoc_of_In n c (columns t)); [reflexivity | | exact Hin].
  apply distinct_NoDup. exact Hd.
Qed.

Lemma merge_key (left right t : DataFrame) (key : string) :
  merge left right key = Ok t -> exists col, column t key = Ok col.
Proof.
  unfold merge. intros H.
  destruct (well_formed left && well_formed right); [|discriminate].
  destruct (column left key) as [lk|] eqn:Hlk; [|discriminate].
  destruct (column right key) as [rk|]; [|discriminate].
  cbn [bind] in H. cbv zeta in H.
  match type of H with
  | (if distinct (names ?o) then _ else _) = _ =>
      destruct (distinct (names o)) eqn:Hd; [|discriminate]
  end.
  injection H as <-. eexists.
  apply column_of_In; [exact Hd|]. cbn [columns].
  apply in_or_app. left. apply in_map_iff. exists (key, lk).
  split; [|apply column_In; exact Hlk].
  cbn [fst snd]. rewrite String.eqb_refl. reflexivity.
Qed.

Lemma joined_key (listings calendar t : DataFrame) :
  Stage.joined listings calendar = Ok t ->
  exists col, column t "listing_id" = Ok col.
Proof.
  unfold Stage.joined. intros H. inv_bind H.
  destruct (merge_key _ _ _ _ E) as [col Hcol]. exists col.
  rewrite (proj2 (drop_ok _ _ _ H)) by reflexivity. exact Hcol.
Qed.

(** X5.  The returned table is well formed: no two columns share a name and
    every column has one cell per row.  It has none of the columns of
    [columns_to_drop] and none of the raw columns the steps read and drop;
    it has the identifier of the listing and the six columns the steps
    compute, which are the columns the cells behind the call read. *)
Theorem output_columns (h : heap) (listings_df calendar_df : ref)
    (listings calendar out : DataFrame) :
  h !! listings_df = Some listings ->
  h !! calendar_df = Some calendar ->
  cleaned h listings_df calendar_df out ->
  well_formed out = true
  /\ (forall n, In n (columns_to_drop ++ raw_columns) -> mem n (names out) = false)
  /\ (forall n, In n read_later ->
        exists col, column out n = Ok col /\ length col = nrows out).
Proof.
  intros Hl Hc Hout.
  destruct (cleaned_trace _ _ _ _ _ _ Hl Hc Hout) as [tr].
  pose proof (trace_well_formed _ _ _ tr) as (_ & _ & _ & _ & _ & _ & Hwf).
  assert (Hkey : exists col, column out "listing_id" = Ok col).
  { destruct (carried _ _ _ tr "listing_id") as (px & _ & ->);
      [vm_compute; intuition discriminate | reflexivity | reflexivity |].
    destruct (joined_key _ _ _ (run_joined _ _ _ tr)) as [keys ->]. cbn. eauto. }
  split; [exact Hwf|]. split.
  - intros n Hn. apply (column_absent _ _ KeyError).
    apply in_app_or in Hn as [Hn|Hn].
    + destruct (dropped_apart n Hn) as (Ht & Hv & Ha).
      destruct (carried _ _ _ tr n Ht Hv Ha) as (px & _ & ->).
      rewrite (joined_dropped _ _ _ n (run_joined _ _ _ tr) Hn). reflexivity.
    + destruct tr.
      destruct (priced_ok _ _ run_priced0) as (px & prices & _ & _ & _ & _ & Hrest).
      cbn in Hn.
      destruct Hn as [<-|[<-|[<-|[<-|[<-|[<-|[<-|[<-|[]]]]]]]]]; follow.
      * rewrite (Hrest "date") by reflexivity.
        rewrite (dated_drops _ _ run_dated0). reflexivity.
      * apply (priced_drops _ _ run_priced0).
      * apply (hosted_drops _ _ run_hosted0).
      * apply (rated_drops _ _ _ run_rated0). in_list.
      * apply (rated_drops _ _ _ run_rated0). in_list.
      * apply (column_dropped _ _ _ _ run_verified'0). reflexivity.
      * apply (column_dropped _ _ _ _ run_amenities'0). reflexivity.
      * apply (with_fee_drops _ _ run_fee0).
  - intros n Hn.
    assert (Hcol : exists col, column out n = Ok col).
    { destruct tr.
      destruct (dated_ok _ _ run_dated0) as (_ & _ & months & years & _ & _ & Hm & Hy).
      destruct (priced_ok _ _ run_priced0) as (px & prices & _ & _ & _ & Hp & Hrest).
      destruct (hosted_ok _ _ run_hosted0) as (_ & _ & hy & v & _ & _ & Hh).
      destruct (rated_ok _ _ run_rated0)
        as (_ & _ & raw & rates & v' & buckets & _ & _ & _ & _ & Hb).
      destruct (with_fee_ok _ _ run_fee0) as (_ & _ & fee & _ & Hf).
      cbn in Hn. destruct Hn as [<-|[<-|[<-|[<-|[<-|[<-|[<-|[]]]]]]]];
        [exact Hkey|..]; follow.
      - rewrite (Hrest "month") by reflexivity. rewrite Hm. cbn. eauto.
      - rewrite (Hrest "year") by reflexivity. rewrite Hy. cbn. eauto.
      - eauto.
      - eauto.
      - eauto.
      - eauto. }
    destruct Hcol as [col Hcol]. exists col. split; [exact Hcol|].
    apply (column_length _ _ _ Hwf Hcol).
Qed.

Lemma output_columns_demo :
  mem "price_x" (names Demo.out) = false
  /\ exists col, column Demo.out "price" = Ok col /\ length col = nrows Demo.out.
Proof.
  assert (Hrun : cleaned Demo.memory 0 1 Demo.out) by run_call.
  destruct (output_columns Demo.memory 0 1 Demo.listings Demo.calendar Demo.out
              eq_refl eq_refl Hrun) as (_ & Hgone & Hthere).
  split.
  - apply Hgone. apply in_or_app. right. unfold raw_columns. cbn. tauto.
  - apply Hthere. unfold read_later, engineered. cbn. tauto.
Defined.

(** ** The columns the merged table has to have *)

Lemma needed_apart :
  forallb (fun n => negb (mem n columns_to_drop))
    (["date"; "price_x"; "host_since"; "host_response_rate";
      "host_listings_count"; "host_verifications"; "bathrooms"; "bedrooms";
      "beds"; "amenities"; "extra_people"] ++ review_scores_columns) = true.
Proof. vm_compute. reflexivity. Qed.

Lemma bind_ok_inv {A B : Type} (m : result A) (k : A -> result B) (b : B) :
  bind m k = Ok b -> exists a, m = Ok a.
Proof. destruct m; [eauto | discriminate]. Qed.

Lemma dated_needs (t t' : DataFrame) :
  Stage.dated t = Ok t' -> exists col, column t "date" = Ok col.
Proof.
  unfold Stage.dated. intros H. inv_bind H.
  destruct (drop_needs _ _ _ "date" H (or_introl eq_refl)) as [col Hcol].
  rewrite !column_setitem_other in Hcol by reflexivity. eauto.
Qed.

Lemma hosted_needs (t t' : DataFrame) :
  Stage.hosted t = Ok t' -> exists col, column t "host_since" = Ok col.
Proof.
  unfold Stage.hosted. intros H. inv_bind H.
  destruct (drop_needs _ _ _ "host_since" H (or_introl eq_refl)) as [col Hcol].
  rewrite (proj1 (proj2 (fill_with_mean_ok _ _ _ E0))) in Hcol by reflexivity.
  rewrite column_setitem_other in Hcol by reflexivity. eauto.
Qed.

Lemma split_columns_needs (column_name : string) (n : nat) (t t' : DataFrame) :
  Stage.split_columns column_name n t = Ok t' ->
  exists col, column t column_name = Ok col.
Proof. unfold Stage.split_columns. intros H. inv_bind H. eauto. Qed.

Lemma with_fee_needs (t t' : DataFrame) :
  Stage.with_fee t = Ok t' -> exists col, column t "extra_people" = Ok col.
Proof.
  unfold Stage.with_fee. intros H. inv_bind H.
  destruct (drop_needs _ _ _ "extra_people" H (or_introl eq_refl)) as [col Hcol].
  rewrite column_setitem_other in Hcol by reflexivity. eauto.
Qed.

(** What the table after the price step has, the joined table had. *)
Lemma priced_from_joined (listings calendar out : DataFrame)
    (tr : Trace listings calendar out) (n : string) :
  mem n ["month"; "year"; "date"; "price"; "price_x"] = false ->
  (exists col, column (t_priced tr) n = Ok col) ->
  exists col, column (t_joined tr) n = Ok col.
Proof.
  destruct tr; cbn [t_priced t_joined]. intros Hn [col Hcol].
  destruct (dated_ok _ _ run_dated0) as (_ & Hkeep & _).
  destruct (priced_ok _ _ run_priced0) as (px & prices & _ & _ & _ & _ & Hrest).
  rewrite Hrest in Hcol.
  - apply bind_ok_inv in Hcol as [c Hc]. exists c. rewrite <- Hc. symmetry.
    apply Hkeep. apply mem_not_In. apply mem_not_In in Hn.
    cbn in *. tauto.
  - apply mem_not_In. apply mem_not_In in Hn. cbn in *. tauto.
Qed.

(** X6.  [clean_dataset] returns a table only if the merged table has every
    column of [columns_to_drop] and every column a later step reads; when a
    column of [columns_to_drop] is absent from the merged table, the call
    raises [KeyError]. *)
Theorem needed_columns (h : heap) (listings_df calendar_df : ref)
    (listings calendar : DataFrame) :
  h !! listings_df = Some listings ->
  h !! calendar_df = Some calendar ->
  (forall out, cleaned h listings_df calendar_df out ->
     exists m, merged listings calendar = Ok m
               /\ forall n, In n needed -> mem n (names m) = true)
  /\ (forall m n, merged listings calendar = Ok m ->
        In n columns_to_drop -> mem n (names m) = false ->
        snd (clean_dataset listings_df calendar_df h) = Raise KeyError).
Proof.
  intros Hl Hc. split.
  - intros out Hout.
    destruct (cleaned_trace _ _ _ _ _ _ Hl Hc Hout) as [tr].
    pose proof (run_joined _ _ _ tr) as Hj. unfold Stage.joined in Hj.
    fold (merged listings calendar) in Hj.
    destruct (merged listings calendar) as [m|] eqn:Hm; [|discriminate].
    cbn [bind] in Hj. exists m. split; [reflexivity|].
    intros n Hn. unfold needed in Hn. apply in_app_or in Hn as [Hn|Hn].
    + destruct (drop_needs _ _ _ n Hj Hn) as [col Hcol].
      apply (column_mem _ _ _ Hcol).
    + assert (Hapart : mem n columns_to_drop = false).
      { pose proof needed_apart as H. rewrite forallb_forall in H.
        apply negb_true_iff. apply H. exact Hn. }
      assert (Hcol : exists col, column (t_joined tr) n = Ok col).
      { destruct tr as [tj td tp th trr tc tv tv' tba tbe tbd ta ta' tf
                          rj rd rp rh rr rc rv rv' rba rbe rbd ra ra' rf rrev].
        cbn [t_joined] in *.
        pose (tr := mkTrace listings calendar out tj td tp th trr tc tv tv' tba
                      tbe tbd ta ta' tf rj rd rp rh rr rc rv rv' rba rbe rbd
                      ra ra' rf rrev).
        cbn in Hn.
        destruct Hn as [<-|[<-|[<-|[<-|[<-|[<-|[<-|[<-|[<-|[<-|[<-|Hn]]]]]]]]]]].
        - apply (dated_needs _ _ rd).
        - destruct (dated_ok _ _ rd) as (_ & Hkeep & _).
          destruct (priced_ok _ _ rp) as (px & prices & Hpx & _).
          rewrite Hkeep in Hpx by reflexivity. eauto.
        - apply (priced_from_joined _ _ _ tr); [reflexivity|].
          apply (hosted_needs _ _ rh).
        - apply (priced_from_joined _ _ _ tr); [reflexivity|]. cbn [t_priced tr].
          destruct (rated_ok _ _ rr) as (_ & _ & raw & ? & ? & ? & Hraw & _).
          revert Hraw. follow. eauto.
        - apply (priced_from_joined _ _ _ tr); [reflexivity|]. cbn [t_priced tr].
          destruct (fill_with_mean_ok _ _ _ rc) as (_ & _ & col & ? & Hcol & _).
          revert Hcol. follow. eauto.
        - apply (priced_from_joined _ _ _ tr); [reflexivity|]. cbn [t_priced tr].
          destruct (split_columns_needs _ _ _ _ rv) as [col Hcol].
          revert Hcol. follow. eauto.
        - apply (priced_from_joined _ _ _ tr); [reflexivity|]. cbn [t_priced tr].
          destruct (fill_mode_ok _ _ _ rba) as (_ & _ & col & ? & Hcol & _).
          revert Hcol. follow. eauto.
        - apply (priced_from_joined _ _ _ tr); [reflexivity|]. cbn [t_priced tr].
          destruct (fill_mode_ok _ _ _ rbe) as (_ & _ & col & ? & Hcol & _).
          revert Hcol. follow. eauto.
        - apply (priced_from_joined _ _ _ tr); [reflexivity|]. cbn [t_priced tr].
          destruct (fill_mode_ok _ _ _ rbd) as (_ & _ & col & ? & Hcol & _).
          revert Hcol. follow. eauto.
        - apply (priced_from_joined _ _ _ tr); [reflexivity|]. cbn [t_priced tr].
          destruct (split_columns_needs _ _ _ _ ra) as [col Hcol].
          revert Hcol. follow. eauto.
        - apply (priced_from_joined _ _ _ tr); [reflexivity|]. cbn [t_priced tr].
          destruct (with_fee_needs _ _ rf) as [col Hcol].
          revert Hcol. follow. eauto.
        - apply (priced_from_joined _ _ _ tr);
            [destruct Hn as [<-|[<-|[<-|[<-|[<-|[<-|[<-|[]]]]]]]]; reflexivity|].
          cbn [t_priced tr].
          destruct (foldM_means_ok _ _ _ rrev review_scores_columns_distinct)
            as (_ & _ & Hrev).
          destruct (Hrev n Hn) as (col & ? & Hcol & _).
          revert Hcol.
          destruct Hn as [<-|[<-|[<-|[<-|[<-|[<-|[<-|[]]]]]]]]; follow; eauto. }
      destruct Hcol as [col Hcol].
      rewrite (proj2 (drop_ok _ _ _ Hj) n Hapart) in Hcol.
      apply (column_mem _ _ _ Hcol).
  - intros m n Hm Hn Habsent.
    apply (clean_dataset_raises h _ _ listings calendar KeyError Hl Hc).
    unfold Stage.clean_table, Stage.joined.
    fold (merged listings calendar). rewrite Hm. cbn [bind].
    unfold drop.
    assert (Hall : forallb (fun l => mem l (names m)) columns_to_drop = false).
    { destruct (forallb _ columns_to_drop) eqn:H; [|reflexivity].
      rewrite forallb_forall in H. rewrite (H n Hn) in Habsent. discriminate. }
    rewrite Hall. reflexivity.
Qed.

Lemma needed_columns_demo :
  exists m, merged Demo.listings Demo.calendar = Ok m
            /\ mem "price_y" (names m) = true.
Proof.
  assert (Hrun : cleaned Demo.memory 0 1 Demo.out) by run_call.
  destruct (proj1 (needed_columns Demo.memory 0 1 Demo.listings Demo.calendar
                     eq_refl eq_refl) Demo.out Hrun) as (m & Hm & Hall).
  exists m. split; [exact Hm|]. apply Hall. in_list.
Defined.

(** ** The rows of the join *)

Lemma map_nth_seq (l : list cell) :
  map (fun i => nth i l NaN) (seq 0 (length l)) = l.
Proof.
  induction l as [|x l IH]; [reflexivity|].
  cbn [length seq map nth]. rewrite <- seq_shift, map_map.
  cbn [nth]. rewrite IH. reflexivity.
Qed.

Lemma filter_map_length {A B : Type} (f : B -> bool) (g : A -> B) (l : list A) :
  length (List.filter (fun x => f (g x)) l) = length (List.filter f (map g l)).
Proof.
  induction l as [|x l IH]; [reflexivity|].
  cbn. destruct (f (g x)); cbn; rewrite IH; reflexivity.
Qed.

Lemma matches_seq (k : cell) (rk : list cell) :
  length (List.filter (fun j => cell_eqb k (nth j rk NaN)) (seq 0 (length rk)))
  = matches k rk.
Proof.
  unfold matches.
  rewrite (filter_map_length (cell_eqb k) (fun j => nth j rk NaN)).
  rewrite map_nth_seq. reflexivity.
Qed.

Lemma length_pairs (lk rk : list cell) :
  length
    (flat_map (fun i =>
       map (fun j => (i, j))
         (List.filter (fun j => cell_eqb (nth i lk NaN) (nth j rk NaN))
            (seq 0 (length rk))))
       (seq 0 (length lk)))
  = list_sum (map (fun k => matches k rk) lk).
Proof.
  rewrite <- (map_nth_seq lk) at 2. rewrite map_map.
  induction (seq 0 (length lk)) as [|i l IH]; [reflexivity|].
  cbn [flat_map map list_sum]. rewrite length_app, length_map, matches_seq, IH.
  reflexivity.
Qed.

Lemma merge_rows (left right t : DataFrame) (key : string) (lk rk : list cell) :
  merge left right key = Ok t ->
  column left key = Ok lk ->
  column right key = Ok rk ->
  well_formed left = true
  /\ well_formed right = true
  /\ nrows t = list_sum (map (fun k => matches k rk) lk).
Proof.
  unfold merge. intros H Hlk Hrk.
  destruct (well_formed left && well_formed right) eqn:Hwf; [|discriminate].
  apply andb_prop in Hwf as [Hwl Hwr].
  rewrite Hlk, Hrk in H. cbn [bind] in H. cbv zeta in H.
  match type of H with
  | (if distinct (names ?o) then _ else _) = _ =>
      destruct (distinct (names o)); [|discriminate]
  end.
  injection H as <-. cbn [nrows].
  rewrite <- (column_length _ _ _ Hwl Hlk), <- (column_length _ _ _ Hwr Hrk).
  split; [exact Hwl|]. split; [exact Hwr|]. apply length_pairs.
Qed.

Lemma renamed_id (listings : DataFrame) (ids : list cell) :
  well_formed (rename listings [("id", "listing_id")]) = true ->
  column listings "id" = Ok ids ->
  column (rename listings [("id", "listing_id")]) "listing_id" = Ok ids.
Proof.
  intros Hwf Hids. apply well_formed_iff in Hwf as [Hd _].
  unfold column. erewrite assoc_of_In; [reflexivity | exact Hd |].
  cbn. apply in_map_iff. exists ("id", ids). split; [reflexivity|].
  apply column_In. exact Hids.
Qed.

Lemma cell_eqb_sym (a b : cell) : cell_eqb a b = cell_eqb b a.
Proof.
  destruct a, b; cbn; try reflexivity.
  - apply String.eqb_sym.
  - destruct (Qeq_bool q q0) eqn:E1, (Qeq_bool q0 q) eqn:E2; try reflexivity.
    + apply Qeq_bool_iff in E1. symmetry in E1. apply Qeq_bool_iff in E1. congruence.
    + apply Qeq_bool_iff in E2. symmetry in E2. apply Qeq_bool_iff in E2. congruence.
Qed.

Lemma cell_eqb_trans (a b c : cell) :
  cell_eqb a b = true -> cell_eqb b c = true -> cell_eqb a c = true.
Proof.
  destruct a, b, c; cbn; try discriminate; try reflexivity.
  - intros H1 H2. apply String.eqb_eq in H1, H2. subst. apply String.eqb_refl.
  - intros H1 H2. apply Qeq_bool_iff in H1, H2. apply Qeq_bool_iff.
    rewrite H1. exact H2.
Qed.

Lemma matches_distinct (k : cell) (ids : list cell) :
  distinct_cells ids = true -> (matches k ids <= 1)%nat.
Proof.
  unfold matches. induction ids as [|x ids IH]; cbn; [lia|].
  intros H. apply andb_prop in H as [Hx Hd]. specialize (IH Hd).
  destruct (cell_eqb k x) eqn:Ek; [|exact IH]. cbn.
  assert (Hnone : List.filter (cell_eqb k) ids = []).
  { apply negb_true_iff in Hx.
    clear IH Hd. induction ids as [|y ids IH]; [reflexivity|].
    cbn in Hx. apply orb_false_elim in Hx as [Hy Hx]. cbn.
    destruct (cell_eqb k y) eqn:Ey; [|exact (IH Hx)].
    rewrite cell_eqb_sym in Ek.
    rewrite (cell_eqb_trans x k y Ek Ey) in Hy. discriminate. }
  rewrite Hnone. cbn. lia.
Qed.

Lemma list_sum_bound (f : cell -> nat) (l : list cell) :
  (forall k, f k <= 1)%nat -> (list_sum (map f l) <= length l)%nat.
Proof.
  intros Hf. induction l as [|k l IH]; [cbn; lia|].
  change (f k + list_sum (map f l) <= S (length l))%nat.
  specialize (Hf k). lia.
Qed.

Lemma joined_count (listings calendar joined : DataFrame) (keys ids : list cell) :
  Stage.joined listings calendar = Ok joined ->
  column calendar "listing_id" = Ok keys ->
  column listings "id" = Ok ids ->
  nrows joined = list_sum (map (fun k => matches k ids) keys)
  /\ length keys = nrows calendar.
Proof.
  unfold Stage.joined. intros H Hkeys Hids. inv_bind H.
  rewrite (proj1 (drop_ok _ _ _ H)).
  assert (Hwr : well_formed (rename listings [("id", "listing_id")]) = true).
  { unfold merge in E.
    destruct (well_formed calendar && well_formed (rename listings _)) eqn:Hwf;
      [|discriminate].
    apply andb_prop in Hwf. tauto. }
  destruct (merge_rows _ _ _ _ keys ids E Hkeys (renamed_id _ _ Hwr Hids))
    as (Hwl & _ & Hn).
  split; [exact Hn | apply (column_length _ _ _ Hwl Hkeys)].
Qed.

(** X7.  The join is an inner join on the listing identifier: the joined
    table has, for every calendar row, as many rows as there are listings
    with the identifier of that row, so a calendar row of an unknown listing
    leaves no row; when no two listings share an identifier, it has at most
    as many rows as the calendar, namely one for each calendar row of a
    known listing. *)
Theorem joined_rows (listings calendar joined : DataFrame) (keys ids : list cell) :
  Stage.joined listings calendar = Ok joined ->
  column calendar "listing_id" = Ok keys ->
  column listings "id" = Ok ids ->
  nrows joined = list_sum (map (fun k => matches k ids) keys)
  /\ (distinct_cells ids = true ->
      (nrows joined <= nrows calendar)%nat
      /\ nrows joined
         = length (List.filter (fun k => existsb (cell_eqb k) ids) keys)).
Proof.
  intros H Hkeys Hids.
  destruct (joined_count _ _ _ _ _ H Hkeys Hids) as [Hn Hlen].
  split; [exact Hn|]. intros Hd. split.
  - rewrite Hn, <- Hlen. apply list_sum_bound. intros k.
    apply matches_distinct. exact Hd.
  - rewrite Hn. clear Hn Hlen Hkeys.
    induction keys as [|k keys IH]; [reflexivity|].
    change (list_sum (map (fun k => matches k ids) (k :: keys)))
      with (matches k ids + list_sum (map (fun k => matches k ids) keys))%nat.
    rewrite IH. cbn [List.filter].
    pose proof (matches_distinct k ids Hd) as Hk. unfold matches in *.
    destruct (existsb (cell_eqb k) ids) eqn:Ex.
    + apply existsb_exists in Ex as (x & Hx & Ekx).
      destruct (List.filter (cell_eqb k) ids) as [|y l] eqn:Ef.
      * assert (Hin : In x (List.filter (cell_eqb k) ids))
          by (apply filter_In; split; assumption).
        rewrite Ef in Hin. destruct Hin.
      * cbn in Hk |- *. destruct l; [reflexivity | cbn in Hk; lia].
    + destruct (List.filter (cell_eqb k) ids) as [|y l] eqn:Ef; [reflexivity|].
      assert (Hin : In y (List.filter (cell_eqb k) ids)) by (rewrite Ef; left; reflexivity).
      apply filter_In in Hin as [Hy Eky].
      assert (existsb (cell_eqb k) ids = true)
        by (apply existsb_exists; exists y; split; assumption).
      congruence.
Qed.

Lemma joined_rows_demo :
  nrows Demo.joined = 3%nat /\ (nrows Demo.joined <= nrows Demo.calendar)%nat.
Proof.
  destruct (joined_rows Demo.listings Demo.calendar Demo.joined
              [Num 1; Num 1; Num 2; Num 3] [Num 1; Num 2]
              eq_refl eq_refl eq_refl) as [Hn Hd].
  split; [exact Hn | apply (Hd eq_refl)].
Defined.

(** X8.  The returned table has the joined rows that have a price, so at
    most as many rows as the joined table; when no two listings share an
    identifier, it has at most as many rows as the calendar. *)
Theorem output_rows_bounded (h : heap) (listings_df calendar_df : ref)
    (listings calendar out : DataFrame) (ids : list cell) :
  h !! listings_df = Some listings ->
  h !! calendar_df = Some calendar ->
  cleaned h listings_df calendar_df out ->
  column listings "id" = Ok ids ->
  exists joined,
    Stage.joined listings calendar = Ok joined
    /\ (nrows out <= nrows joined)%nat
    /\ (distinct_cells ids = true -> (nrows out <= nrows calendar)%nat).
Proof.
  intros Hl Hc Hout Hids.
  destruct (cleaned_trace _ _ _ _ _ _ Hl Hc Hout) as [tr].
  pose proof (trace_well_formed _ _ _ tr) as (Hwj & Hwd & _).
  destruct tr; cbn [t_joined t_dated] in *.
  assert (Hle : (nrows out <= nrows t_joined0)%nat).
  { destruct (priced_ok _ _ run_priced0) as (px & prices & Hpx & Hnp & _).
    follow_rows. rewrite Hnp.
    rewrite <- (proj1 (dated_ok _ _ run_dated0)).
    rewrite <- (column_length _ _ _ Hwd Hpx). apply filter_length_le. }
  exists t_joined0. split; [exact run_joined0|]. split; [exact Hle|].
  intros Hd.
  assert (Hkeys : exists keys, column calendar "listing_id" = Ok keys).
  { unfold Stage.joined, merge in run_joined0.
    destruct (well_formed calendar && _); [|discriminate].
    destruct (column calendar "listing_id"); [eauto | discriminate]. }
  destruct Hkeys as [keys Hkeys].
  destruct (joined_count _ _ _ _ _ run_joined0 Hkeys Hids) as [Hn Hlen].
  assert ((nrows t_joined0 <= nrows calendar)%nat); [|lia].
  rewrite Hn, <- Hlen. apply list_sum_bound. intros k.
  apply matches_distinct. exact Hd.
Qed.

Lemma output_rows_bounded_demo : (nrows Demo.out <= nrows Demo.calendar)%nat.
Proof.
  assert (Hrun : cleaned Demo.memory 0 1 Demo.out) by run_call.
  destruct (output_rows_bounded Demo.memory 0 1 Demo.listings Demo.calendar
              Demo.out [Num 1; Num 2] eq_refl eq_refl Hrun eq_refl)
    as (joined & _ & _ & Hd).
  apply (Hd eq_refl).
Defined.

(** ** What [split_list_into_columns] leaves as it is *)

Lemma dummy_step (df : ref) (column_name value : string) (t : DataFrame) (h : heap) :
  h !! df = Some t ->
  (let! dummy := df_apply df (fun row => get_val_from_list row column_name value) in
   df_setitem df (dummy_name column_name value) dummy) h
  = match apply t (fun row => get_val_from_list row column_name value) with
    | Ok dummy => (<[df := setitem t (dummy_name column_name value) dummy]> h, Ok tt)
    | Raise e => (h, Raise e)
    end.
Proof.
  intros Hdf.
  unfold bindM, df_apply, df_setitem, query, update, bindM, load, lift, store.
  rewrite Hdf.
  destruct (apply t _) as [dummy|e]; [rewrite Hdf|]; reflexivity.
Qed.

Lemma for_each_dummies (df : ref) (column_name : string) (values : list string) :
  forall (t : DataFrame) (h : heap),
    h !! df = Some t ->
    for_each values (fun value =>
      let! dummy := df_apply df (fun row => get_val_from_list row column_name value) in
      df_setitem df (dummy_name column_name value) dummy) h
    = match Stage.foldM (Stage.add_dummy column_name) values t with
      | Ok t' => (<[df := t']> h, Ok tt)
      | Raise e => (h, Raise e)
      end.
Proof.
  induction values as [|v values IH]; intros t h Hdf; cbn [for_each Stage.foldM].
  - cbn. rewrite list_insert_id by exact Hdf. reflexivity.
  - unfold bindM at 1. cbv beta. rewrite (dummy_step df column_name v t h Hdf).
    unfold Stage.add_dummy at 1.
    destruct (apply t (fun row => get_val_from_list row column_name v))
      as [dummy|e] eqn:Happly; cbn [bind]; [|reflexivity].
    set (t1 := setitem t (dummy_name column_name v) dummy).
    assert (Hdf1 : <[df := t1]> h !! df = Some t1)
      by (apply list_lookup_insert_eq, (lookup_lt_Some _ _ _ Hdf)).
    destruct (foldM_dummies_total column_name values t1) as [t' Ht'].
    { subst t1. cbn. unfold apply in Happly.
      destruct (nrows t); [discriminate | discriminate]. }
    rewrite (IH t1 _ Hdf1), Ht', list_insert_insert_eq. reflexivity.
Qed.

(** The call on the heap does what [Stage.split_columns] says, and leaves
    the heap as it is when it raises. *)
Lemma split_list_into_columns_exact (h : heap) (df : ref) (t : DataFrame)
    (column_name : string) (n : nat) :
  h !! df = Some t ->
  split_list_into_columns df column_name n h
  = match Stage.split_columns column_name n t with
    | Ok t' => (<[df := t']> h, Ok tt)
    | Raise e => (h, Raise e)
    end.
Proof.
  intros Hdf.
  unfold split_list_into_columns, Stage.split_columns, df_getitem.
  unfold bindM at 1, query, bindM at 1, load, lift. rewrite Hdf.
  destruct (column t column_name) as [col|e]; cbn [bind]; [|reflexivity].
  unfold bindM at 1.
  destruct (selected col n) as [values|e]; cbn [bind]; [|reflexivity].
  apply for_each_dummies. exact Hdf.
Qed.

Lemma prefix_longer (a rest : string) (c : ascii) :
  String.prefix (String.append a (String c rest)) a = false.
Proof.
  induction a as [|x a IH]; cbn; [reflexivity|].
  destruct (ascii_dec x x); [exact IH | reflexivity].
Qed.

Lemma dummy_of_self (column_name : string) : dummy_of column_name column_name = false.
Proof. unfold dummy_of. apply (prefix_longer column_name "" "_"). Qed.

Lemma In_unique (c : cell) (col : list cell) : In c (unique col) -> In c col.
Proof.
  induction col as [|x col IH]; cbn; [tauto|].
  intros [H|H]; [left; exact H|]. right. apply IH.
  apply filter_In in H. tauto.
Qed.

Lemma all_texts (cells : list cell) :
  (forall c, In c cells -> exists s, c = Str s) ->
  exists texts, cells = map Str texts.
Proof.
  induction cells as [|c cells IH]; intros H; [exists []; reflexivity|].
  destruct (H c (or_introl eq_refl)) as [s ->].
  destruct IH as [texts ->]; [intros c Hc; apply H; right; exact Hc|].
  exists (s :: texts). reflexivity.
Qed.

Lemma selected_texts (col : list cell) (n : nat) :
  (forall c, In c col -> exists s, c = Str s) ->
  exists values, selected col n = Ok values.
Proof.
  intros H. destruct (all_texts (unique col)) as [texts Htexts].
  { intros c Hc. apply H, In_unique, Hc. }
  unfold selected. rewrite Htexts, count_values_texts. cbn [bind]. eauto.
Qed.

Lemma column_raises (t : DataFrame) (n : string) (e : exn) :
  column t n = Raise e -> e = KeyError.
Proof. unfold column. destruct (assoc n (columns t)); [discriminate | congruence]. Qed.

(** X9.  How [split_list_into_columns] fails.  Without the column it raises
    [KeyError]; when a cell of the column is not a text, for instance a
    missing value, it raises [AttributeError]; whenever it raises, the table
    is as it was before the call, with no indicator column added.  On a
    table with rows whose column holds texts only it returns. *)
Theorem split_list_into_columns_failure (h : heap) (df : ref) (t : DataFrame)
    (column_name : string) (max_dummies_num : nat) :
  h !! df = Some t ->
  (forall e, column t column_name = Raise e ->
     split_list_into_columns df column_name max_dummies_num h = (h, Raise KeyError))
  /\ (forall col c, column t column_name = Ok col -> In c col ->
        text c = Raise AttributeError ->
        split_list_into_columns df column_name max_dummies_num h
        = (h, Raise AttributeError))
  /\ (forall h' e,
        split_list_into_columns df column_name max_dummies_num h = (h', Raise e) ->
        h' = h)
  /\ (forall col, column t column_name = Ok col ->
        (forall c, In c col -> exists s, c = Str s) ->
        nrows t <> 0%nat ->
        exists t',
          split_list_into_columns df column_name max_dummies_num h
          = (<[df := t']> h, Ok tt)).
Proof.
  intros Hdf. rewrite (split_list_into_columns_exact h df t _ _ Hdf).
  split; [|split; [|split]].
  - intros e He. rewrite (column_raises _ _ _ He) in He.
    unfold Stage.split_columns. rewrite He. reflexivity.
  - intros col c Hcol Hc Htext.
    unfold Stage.split_columns, selected. rewrite Hcol. cbn [bind].
    rewrite count_values_nontext; [reflexivity|].
    apply unique_keeps_nontext. apply Exists_exists.
    exists c. split; [apply list_elem_of_In; exact Hc | exact Htext].
  - intros h' e.
    destruct (Stage.split_columns column_name max_dummies_num t);
      intros [= <- ?]; reflexivity.
  - intros col Hcol Htexts Hrows.
    unfold Stage.split_columns. rewrite Hcol. cbn [bind].
    destruct (selected_texts col max_dummies_num Htexts) as [values ->]. cbn [bind].
    destruct (foldM_dummies_total column_name values t Hrows) as [t' ->].
    exists t'. reflexivity.
Qed.

Lemma split_list_into_columns_failure_demo :
  split_list_into_columns 0 "amenities" 10 [mkFrame 2 [("amenities", [Str "{TV}"; NaN])]]
  = ([mkFrame 2 [("amenities", [Str "{TV}"; NaN])]], Raise AttributeError).
Proof.
  apply (proj1 (proj2 (split_list_into_columns_failure
                         [mkFrame 2 [("amenities", [Str "{TV}"; NaN])]] 0
                         (mkFrame 2 [("amenities", [Str "{TV}"; NaN])])
                         "amenities" 10 eq_refl))
           [Str "{TV}"; NaN] NaN eq_refl).
  - right. left. reflexivity.
  - reflexivity.
Defined.

Lemma length_encounter_order (items : list string) :
  (length (encounter_order items) <= length items)%nat.
Proof.
  induction items as [|x items IH]; cbn; [lia|].
  pose proof (filter_length_le (fun y => negb (String.eqb x y)) (encounter_order items)).
  lia.
Qed.

(** X10.  [split_list_into_columns] changes nothing but the indicator
    columns of the table it is given: the number of rows, the list column
    itself and every column whose name does not start with the column name
    and an underscore are as before; the columns of the table keep their
    order, and at most [max_dummies_num] columns are new, each named by the
    column name, an underscore and an item; no other table is changed. *)
Theorem split_list_into_columns_frame (h h' : heap) (df : ref) (t : DataFrame)
    (column_name : string) (max_dummies_num : nat) :
  h !! df = Some t ->
  split_list_into_columns df column_name max_dummies_num h = (h', Ok tt) ->
  exists t' added,
    h' = <[df := t']> h
    /\ nrows t' = nrows t
    /\ column t' column_name = column t column_name
    /\ (forall m, dummy_of column_name m = false -> column t' m = column t m)
    /\ names t' = names t ++ added
    /\ (length added <= max_dummies_num)%nat
    /\ Forall (fun m => dummy_of column_name m = true) added
    /\ (forall l, l <> df -> h' !! l = h !! l).
Proof.
  intros Hdf Hrun. rewrite (split_list_into_columns_exact h df t _ _ Hdf) in Hrun.
  destruct (Stage.split_columns column_name max_dummies_num t) as [t'|e] eqn:Hsplit;
    [|discriminate].
  injection Hrun as <-.
  destruct (split_columns_ok _ _ _ _ Hsplit) as [Hrows Hkeep].
  unfold Stage.split_columns in Hsplit. inv_bind Hsplit.
  rename a into col, a0 into values.
  exists t', (List.filter (fun m => negb (mem m (names t)))
                (encounter_order (map (dummy_name column_name) values))).
  split; [reflexivity|]. split; [exact Hrows|].
  split; [rewrite <- E; apply Hkeep, dummy_of_self|]. split; [exact Hkeep|].
  split; [rewrite (names_foldM_dummies _ _ _ _ Hsplit); apply fold_add_key|].
  split; [|split].
  - etransitivity; [apply filter_length_le|].
    etransitivity; [apply length_encounter_order|].
    rewrite length_map. unfold selected in E0. inv_bind E0. injection E0 as <-.
    rewrite length_map. apply firstn_le_length.
  - apply List.Forall_forall. intros m Hm.
    apply filter_In in Hm as [Hm _]. apply (proj1 (In_encounter_order _ _)) in Hm.
    apply in_map_iff in Hm as (v & <- & _). apply dummy_of_dummy_name.
  - intros l Hl. apply list_lookup_insert_ne. congruence.
Qed.

Lemma split_list_into_columns_frame_demo :
  exists t' added,
    Amenities.after = [t']
    /\ column t' "amenities" = Ok Amenities.col
    /\ names t' = ["amenities"] ++ added
    /\ (length added <= 10)%nat.
Proof.
  destruct (split_list_into_columns_frame [Amenities.table] Amenities.after 0
              Amenities.table "amenities" 10 eq_refl)
    as (t' & added & Hh & _ & Hcol & _ & Hnames & Hlen & _).
  { vm_compute. reflexivity. }
  exists t', added. split; [exact Hh|]. split; [exact Hcol|].
  split; [exact Hnames | exact Hlen].
Defined.

(** ** Every indicator column marks a row *)

Lemma count_values_ok_texts (cells : list cell) :
  forall d d', count_values cells d = Ok d' -> exists texts, cells = map Str texts.
Proof.
  induction cells as [|c cells IH]; intros d d' H; [exists []; reflexivity|].
  cbn [count_values] in H. destruct c as [|s|q]; cbn in H; try discriminate.
  destruct (IH _ _ H) as [texts ->]. exists (s :: texts). reflexivity.
Qed.

Lemma In_of_firstn {A : Type} (n : nat) (l : list A) (x : A) :
  In x (firstn n l) -> In x l.
Proof.
  revert l. induction n as [|n IH]; intros [|y l]; cbn; try tauto.
  intros [H|H]; [left; exact H | right; exact (IH l H)].
Qed.

Lemma selected_held (col : list cell) (n : nat) (values : list string) (value : string) :
  selected col n = Ok values ->
  In value values ->
  exists i, (i < length col)%nat /\ holds (nth i col NaN) value.
Proof.
  unfold selected. intros H Hin. inv_bind H. injection H as <-.
  rename a into d.
  destruct (count_values_ok_texts _ _ _ E) as [texts Htexts].
  rewrite Htexts, count_values_texts in E. injection E as <-.
  apply in_map_iff in Hin as ([v k] & <- & Hin). cbn [fst].
  apply In_of_firstn in Hin.
  apply (Permutation_in _ (sorted_desc_perm _)) in Hin.
  apply (in_map fst) in Hin. cbn [fst] in Hin.
  rewrite keys_of_items in Hin. apply (proj1 (In_encounter_order _ _)) in Hin.
  apply in_flat_map in Hin as (s & Hs & Hv).
  assert (Hcell : In (Str s) col).
  { apply In_unique. rewrite Htexts. apply in_map. exact Hs. }
  destruct (In_nth _ _ NaN Hcell) as (i & Hi & Hnth).
  exists i. split; [exact Hi|]. rewrite Hnth. exists s. split; [reflexivity | exact Hv].
Qed.

(** X11.  No indicator column is empty: every item that gets a column is an
    item of some row, and the indicator column of the item holds 1.0 in that
    row. *)
Theorem indicator_marks_a_row (h h' : heap) (df : ref) (t : DataFrame)
    (column_name : string) (max_dummies_num : nat) (col : list cell) :
  h !! df = Some t ->
  column t column_name = Ok col ->
  length col = nrows t ->
  split_list_into_columns df column_name max_dummies_num h = (h', Ok tt) ->
  exists t' values,
    h' !! df = Some t'
    /\ selected col max_dummies_num = Ok values
    /\ forall value, In value values ->
         exists dummy i,
           column t' (dummy_name column_name value) = Ok dummy
           /\ (i < nrows t)%nat
           /\ holds (nth i col NaN) value
           /\ dummy !! i = Some (Num 1).
Proof.
  intros Hdf Hcol Hlen Hrun.
  rewrite (split_list_into_columns_exact h df t _ _ Hdf) in Hrun.
  destruct (Stage.split_columns column_name max_dummies_num t) as [t'|e] eqn:Hsplit;
    [|discriminate].
  injection Hrun as <-.
  unfold Stage.split_columns in Hsplit. rewrite Hcol in Hsplit. cbn [bind] in Hsplit.
  destruct (selected col max_dummies_num) as [values|e] eqn:Hsel; [|discriminate].
  cbn [bind] in Hsplit.
  exists t', values.
  split; [apply list_lookup_insert_eq, (lookup_lt_Some _ _ _ Hdf)|].
  split; [reflexivity|].
  intros value Hvalue.
  destruct (foldM_dummies column_name col values t t'
              (selected_distinct _ _ _ Hsel) Hcol Hsplit value Hvalue)
    as (dummy & Hdummy & _ & Hrows).
  destruct (selected_held col _ values value Hsel Hvalue) as (i & Hi & Hheld).
  rewrite Hlen in Hi.
  exists dummy, i. split; [exact Hdummy|]. split; [exact Hi|]. split; [exact Hheld|].
  destruct (Hrows i Hi) as [[_ H1]|[Hnot _]]; [exact H1 | contradiction].
Qed.

Lemma indicator_marks_a_row_demo :
  exists t' values,
    Amenities.after !! 0%nat = Some t'
    /\ selected Amenities.col 10 = Ok values
    /\ forall value, In value values ->
         exists dummy i,
           column t' (dummy_name "amenities" value) = Ok dummy
           /\ (i < 5)%nat
           /\ holds (nth i Amenities.col NaN) value
           /\ dummy !! i = Some (Num 1).
Proof.
  refine (indicator_marks_a_row [Amenities.table] Amenities.after 0
            Amenities.table "amenities" 10 Amenities.col eq_refl eq_refl eq_refl _).
  vm_compute. reflexivity.
Defined.

(** ** The order of the buckets *)

Lemma searchsorted_mono (bins : list Q) (x y : Q) :
  (x <= y)%Q -> (searchsorted bins x <= searchsorted bins y)%nat.
Proof.
  intros Hxy. unfold searchsorted.
  induction bins as [|b bins IH]; cbn; [lia|].
  destruct (Qle_bool x b) eqn:Ex; cbn.
  - destruct (Qle_bool y b); cbn; lia.
  - assert (Ey : Qle_bool y b = false).
    { destruct (Qle_bool y b) eqn:Ey; [|reflexivity].
      apply Qle_bool_iff in Ey.
      assert (Hx : Qle_bool x b = true)
        by (apply Qle_bool_iff; apply (Qle_trans _ _ _ Hxy Ey)).
      congruence. }
    rewrite Ey. cbn. lia.
Qed.

Lemma bucket_mono (lo : Q) (rest : list Q) (x y a b : Q) :
  (lo <= x)%Q ->
  (x <= y)%Q ->
  bucket (lo :: rest) (Num x) = Num a ->
  bucket (lo :: rest) (Num y) = Num b ->
  (a <= b)%Q.
Proof.
  intros Hlo Hxy. cbn [bucket nth].
  set (ix := if Qeq_bool x lo then 1%nat else searchsorted (lo :: rest) x).
  set (iy := if Qeq_bool y lo then 1%nat else searchsorted (lo :: rest) y).
  assert (Hle : (ix <= iy)%nat).
  { assert (Habove : forall z, (lo < z)%Q -> (1 <= searchsorted (lo :: rest) z)%nat).
    { intros z Hz. unfold searchsorted. cbn [List.filter].
      destruct (Qle_bool z lo) eqn:E.
      - apply Qle_bool_iff in E. exfalso. apply (Qlt_not_le _ _ Hz E).
      - cbn. lia. }
    subst ix iy.
    destruct (Qeq_bool x lo) eqn:Ex, (Qeq_bool y lo) eqn:Ey.
    - lia.
    - apply Habove. apply Qeq_bool_iff in Ex. apply Qeq_bool_neq in Ey.
      apply Qle_lt_or_eq in Hxy as [Hlt|Heq].
      + rewrite <- Ex. exact Hlt.
      + exfalso. apply Ey. rewrite <- Heq. exact Ex.
    - exfalso. apply Qeq_bool_iff in Ey. apply Qeq_bool_neq in Ex. apply Ex.
      apply Qle_antisym; [rewrite <- Ey; exact Hxy | exact Hlo].
    - apply searchsorted_mono. exact Hxy. }
  destruct (Nat.eqb ix (length (lo :: rest)) || Nat.eqb ix 0); [discriminate|].
  destruct (Nat.eqb iy (length (lo :: rest)) || Nat.eqb iy 0); [discriminate|].
  intros [= <-] [= <-]. rewrite <- Zle_Qle. lia.
Qed.

Lemma qcut_monotone (col buckets : list cell) (i j : nat) (x y a b : Q) :
  qcut col 5 = Ok buckets ->
  col !! i = Some (Num x) ->
  col !! j = Some (Num y) ->
  (x <= y)%Q ->
  buckets !! i = Some (Num a) ->
  buckets !! j = Some (Num b) ->
  (a <= b)%Q.
Proof.
  unfold qcut. intros H Hi Hj Hxy Ha Hb.
  destruct (numbers col) as [values|e] eqn:Hnum; cbn [bind] in H; [|discriminate].
  destruct values as [|v values].
  - injection H as <-. rewrite list_lookup_fmap, Hi in Ha. discriminate.
  - injection H as <-.
    rewrite list_lookup_fmap, Hi in Ha. rewrite list_lookup_fmap, Hj in Hb.
    change (Some (bucket (edges (v :: values) 5) (Num x)) = Some (Num a)) in Ha.
    change (Some (bucket (edges (v :: values) 5) (Num y)) = Some (Num b)) in Hb.
    injection Ha as Ha. injection Hb as Hb.
    destruct (edges_facts (v :: values)) as (rest & hi & Hedges & _); [discriminate|].
    rewrite Hedges in Ha, Hb.
    apply (bucket_mono (nth 0 (sort (v :: values)) 0%Q) rest x y a b);
      [|exact Hxy | exact Ha | exact Hb].
    apply sorted_first; [apply sort_sorted|]. apply In_sort.
    apply list_elem_of_lookup_2, list_elem_of_In in Hi.
    destruct (numbers_In _ _ Hnum _ Hi) as [Hnan|(x' & [= <-] & Hx)];
      [discriminate | exact Hx].
Qed.

(** X12.  The buckets follow the response rates: of two rows of the returned
    table, the one with the higher rate, the missing rates counted as the
    mean, never lies in a lower bucket, and rows of equal rate lie in the
    same bucket. *)
Theorem response_rate_buckets_monotone (h : heap) (listings_df calendar_df : ref)
    (listings calendar out : DataFrame) :
  h !! listings_df = Some listings ->
  h !! calendar_df = Some calendar ->
  cleaned h listings_df calendar_df out ->
  exists (tr : Trace listings calendar out) raw rates v buckets,
    column (t_priced tr) "host_response_rate" = Ok raw
    /\ mapM (to_number ["%"]%char) raw = Ok rates
    /\ mean rates = Ok v
    /\ column out "host_response_rate_buckets" = Ok buckets
    /\ forall i j x y a b,
         map (fill v) rates !! i = Some (Num x) ->
         map (fill v) rates !! j = Some (Num y) ->
         buckets !! i = Some (Num a) ->
         buckets !! j = Some (Num b) ->
         ((x <= y)%Q -> (a <= b)%Q) /\ ((x == y)%Q -> (a == b)%Q).
Proof.
  intros Hl Hc Hout.
  destruct (cleaned_trace _ _ _ _ _ _ Hl Hc Hout) as [tr].
  exists tr. destruct tr; cbn [t_priced].
  destruct (rated_ok _ _ run_rated0)
    as (_ & _ & raw & rates & v & buckets & Hraw & Hrates & Hv & Hq & Ho).
  exists raw, rates, v, buckets.
  split; [revert Hraw; follow; auto|]. split; [exact Hrates|].
  split; [exact Hv|]. split; [follow; exact Ho|].
  intros i j x y a b Hi Hj Ha Hb. split.
  - intros Hxy. apply (qcut_monotone _ _ i j x y a b Hq Hi Hj Hxy Ha Hb).
  - intros Hxy. apply Qle_antisym.
    + apply (qcut_monotone _ _ i j x y a b Hq Hi Hj); [|exact Ha | exact Hb].
      rewrite Hxy. apply Qle_refl.
    + apply (qcut_monotone _ _ j i y x b a Hq Hj Hi); [|exact Hb | exact Ha].
      rewrite Hxy. apply Qle_refl.
Qed.

Lemma response_rate_buckets_monotone_demo :
  exists buckets a b,
    column Demo.out "host_response_rate_buckets" = Ok buckets
    /\ buckets !! 0%nat = Some (Num a)
    /\ buckets !! 1%nat = Some (Num b)
    /\ (a <= b)%Q.
Proof.
  assert (Hrun : cleaned Demo.memory 0 1 Demo.out) by run_call.
  destruct (response_rate_buckets_monotone Demo.memory 0 1 Demo.listings
              Demo.calendar Demo.out eq_refl eq_refl Hrun)
    as (tr & raw & rates & v & buckets & Hraw & Hrates & Hv & Ho & Hmono).
  assert (Hb : buckets = [Num 0; Num 4]).
  { vm_compute in Ho. injection Ho as <-. reflexivity. }
  assert (Hfilled : map (fill v) rates = [Num 96; Num 100]).
  { destruct tr. cbn [t_priced] in Hraw.
    rewrite joined_demo in run_joined0. injection run_joined0 as <-.
    vm_compute in run_dated0. injection run_dated0 as <-.
    vm_compute in run_priced0. injection run_priced0 as <-.
    vm_compute in Hraw. injection Hraw as <-.
    vm_compute in Hrates. injection Hrates as <-.
    vm_compute in Hv. injection Hv as <-. reflexivity. }
  exists buckets, 0%Q, 4%Q. rewrite Hb.
  split; [rewrite <- Hb; exact Ho|]. split; [reflexivity|]. split; [reflexivity|].
  apply (proj1 (Hmono 0%nat 1%nat 96%Q 100%Q 0%Q 4%Q
                  ltac:(rewrite Hfilled; reflexivity)
                  ltac:(rewrite Hfilled; reflexivity)
                  ltac:(rewrite Hb; reflexivity)
                  ltac:(rewrite Hb; reflexivity))).
  discriminate.
Defined.

(** ** Filling with the mean keeps the mean *)







(** ** Filling with the mode *)

Section Mode.

Variable qs : list Q.

Lemma before_iff (x y : Q) :
  before qs x y = true
  <-> (count y qs < count x qs)%nat
      \/ (count x qs = count y qs /\ (x < y)%Q).
Proof.
  unfold before. rewrite orb_true_iff, andb_true_iff, negb_true_iff.
  rewrite Nat.ltb_lt, Nat.eqb_eq.
  assert (H : Qle_bool y x = false <-> (x < y)%Q).
  { split.
    - intros E. apply Qnot_le_lt. intros Hle. apply Qle_bool_iff in Hle. congruence.
    - intros Hlt. destruct (Qle_bool y x) eqn:E; [|reflexivity].
      apply Qle_bool_iff in E. exfalso. apply (Qlt_not_le _ _ Hlt E). }
  rewrite H. reflexivity.
Qed.

Lemma before_irrefl (x : Q) : before qs x x = false.
Proof.
  destruct (before qs x x) eqn:E; [|reflexivity].
  apply before_iff in E as [E|[_ E]]; [lia|].
  exfalso. apply (Qlt_irrefl _ E).
Qed.

Lemma before_trans (x y z : Q) :
  before qs x y = true -> before qs y z = true -> before qs x z = true.
Proof.
  rewrite !before_iff. intros [H1|[H1 L1]] [H2|[H2 L2]].
  - left. lia.
  - left. lia.
  - left. lia.
  - right. split; [lia|]. apply (Qlt_trans _ _ _ L1 L2).
Qed.

Lemma before_negtrans (x y z : Q) :
  before qs x y = false -> before qs y z = false -> before qs x z = false.
Proof.
  intros H1 H2. destruct (before qs x z) eqn:E; [|reflexivity]. exfalso.
  assert (N1 : ~ ((count y qs < count x qs)%nat
                  \/ (count x qs = count y qs /\ (x < y)%Q)))
    by (rewrite <- before_iff; congruence).
  assert (N2 : ~ ((count z qs < count y qs)%nat
                  \/ (count y qs = count z qs /\ (y < z)%Q)))
    by (rewrite <- before_iff; congruence).
  apply before_iff in E.
  assert (C1 : (count x qs <= count y qs)%nat) by lia.
  assert (C2 : (count y qs <= count z qs)%nat) by lia.
  destruct E as [E|[E L]]; [lia|].
  assert (Hyx : (y <= x)%Q).
  { apply Qnot_lt_le. intros L1. apply N1. right. split; [lia | exact L1]. }
  assert (Hzy : (z <= y)%Q).
  { apply Qnot_lt_le. intros L2. apply N2. right. split; [lia | exact L2]. }
  apply (Qlt_not_le _ _ L). apply (Qle_trans _ _ _ Hzy Hyx).
Qed.

Lemma pick_spec (l : list Q) :
  forall b,
    let r := fold_left (fun b x => if before qs x b then x else b) l b in
    (r = b \/ In r l)
    /\ before qs b r = false
    /\ forall x, In x l -> before qs x r = false.
Proof.
  induction l as [|x l IH]; intros b; cbn [fold_left].
  - split; [left; reflexivity|]. split; [apply before_irrefl|]. intros x [].
  - destruct (before qs x b) eqn:E.
    + destruct (IH x) as (Hin & Hb & Hall). cbv zeta in *.
      set (r := fold_left _ l x) in *.
      split; [destruct Hin as [->|Hin]; right; [left; reflexivity | right; exact Hin]|].
      split.
      * destruct (before qs b r) eqn:Eb; [|reflexivity].
        rewrite (before_trans x b r E Eb) in Hb. discriminate.
      * intros y [<-|Hy]; [exact Hb | apply Hall, Hy].
    + destruct (IH b) as (Hin & Hb & Hall). cbv zeta in *.
      set (r := fold_left _ l b) in *.
      split; [destruct Hin as [->|Hin]; [left; reflexivity | right; right; exact Hin]|].
      split; [exact Hb|].
      intros y [<-|Hy]; [apply (before_negtrans x b r E Hb) | apply Hall, Hy].
Qed.

End Mode.

Lemma mode0_most_frequent (col : list cell) (qs : list Q) :
  numbers col = Ok qs ->
  qs <> [] ->
  exists v,
    mode0 col = Ok (Num v)
    /\ In v qs
    /\ forall x, In x qs ->
         (count x qs <= count v qs)%nat
         /\ (count x qs = count v qs -> (v <= x)%Q).
Proof.
  intros Hqs Hne. unfold mode0. rewrite Hqs. cbn [bind].
  destruct qs as [|q qs']; [contradiction|].
  destruct (pick_spec (q :: qs') qs' q) as (Hin & Hq & Hall). cbv zeta in *.
  set (v := fold_left _ qs' q) in *.
  exists v. split; [reflexivity|].
  split; [destruct Hin as [->|Hin]; [left; reflexivity | right; exact Hin]|].
  intros x Hx.
  assert (Hx' : before (q :: qs') x v = false)
    by (destruct Hx as [<-|Hx]; [exact Hq | apply Hall, Hx]).
  assert (N : ~ ((count v (q :: qs') < count x (q :: qs'))%nat
                 \/ (count x (q :: qs') = count v (q :: qs') /\ (x < v)%Q)))
    by (rewrite <- before_iff; congruence).
  split; [lia|]. intros Heq. apply Qnot_lt_le. intros L. apply N. right.
  split; assumption.
Qed.

Lemma fill_with_mode_exact (h : heap) (df : ref) (t : DataFrame) (name : string) :
  h !! df = Some t ->
  fill_with_mode df name h
  = match Stage.fill_mode t name with
    | Ok t' => (<[df := t']> h, Ok tt)
    | Raise e => (h, Raise e)
    end.
Proof.
  intros Hdf.
  unfold Stage.fill_mode, fill_with_mode, df_getitem, df_setitem.
  unfold bindM, query, update, bindM, load, lift, store.
  rewrite Hdf.
  destruct (column t name) as [col|e] eqn:Hcol; cbn [bind]; [|reflexivity].
  rewrite Hdf, Hcol.
  destruct (mode0 col) as [m|e]; cbn [bind]; [|reflexivity].
  rewrite Hdf. reflexivity.
Qed.

(** X14.  The statement [df[c] = df[c].fillna(df[c].mode()[0])] that fills
    [bathrooms], [bedrooms] and [beds].  On a column without any value it
    raises and leaves the table as it was.  Otherwise the missing cells of
    the column, and nothing else in the table, are replaced by one value of
    the column: a most frequent one and, among the most frequent, the
    smallest. *)
Theorem fill_with_mode_most_frequent (h : heap) (df : ref) (t : DataFrame)
    (name : string) (col : list cell) (qs : list Q) :
  h !! df = Some t ->
  column t name = Ok col ->
  numbers col = Ok qs ->
  (qs = [] -> exists e, fill_with_mode df name h = (h, Raise e))
  /\ (qs <> [] ->
      exists v t',
        In v qs
        /\ (forall x, In x qs ->
              (count x qs <= count v qs)%nat
              /\ (count x qs = count v qs -> (v <= x)%Q))
        /\ fill_with_mode df name h = (<[df := t']> h, Ok tt)
        /\ column t' name = Ok (map (fill (Num v)) col)
        /\ nrows t' = nrows t
        /\ forall m, String.eqb name m = false -> column t' m = column t m).
Proof.
  intros Hdf Hcol Hqs. rewrite (fill_with_mode_exact h df t name Hdf).
  unfold Stage.fill_mode. rewrite Hcol. cbn [bind]. split.
  - intros ->. unfold mode0. rewrite Hqs. cbn [bind]. eauto.
  - intros Hne.
    destruct (mode0_most_frequent col qs Hqs Hne) as (v & Hmode & Hin & Hbest).
    rewrite Hmode. cbn [bind].
    exists v, (setitem t name (map (fill (Num v)) col)).
    split; [exact Hin|]. split; [exact Hbest|]. split; [reflexivity|].
    split; [apply column_setitem_same|]. split; [reflexivity|].
    intros m Hm. apply column_setitem_other. exact Hm.
Qed.

Lemma fill_with_mode_most_frequent_demo :
  exists v t',
    fill_with_mode 0 "beds" [mkFrame 4 [("beds", [Num 2; NaN; Num 1; Num 2])]]
    = ([t'], Ok tt)
    /\ column t' "beds" = Ok (map (fill (Num v)) [Num 2; NaN; Num 1; Num 2])
    /\ In v [2%Q; 1%Q; 2%Q].
Proof.
  destruct (proj2 (fill_with_mode_most_frequent
                     [mkFrame 4 [("beds", [Num 2; NaN; Num 1; Num 2])]] 0
                     (mkFrame 4 [("beds", [Num 2; NaN; Num 1; Num 2])]) "beds"
                     [Num 2; NaN; Num 1; Num 2] [2%Q; 1%Q; 2%Q]
                     eq_refl eq_refl eq_refl))
    as (v & t' & Hin & _ & Hrun & Hcol & _); [discriminate|].
  exists v, t'. split; [exact Hrun|]. split; [exact Hcol | exact Hin].
Defined.

(** ** The amount a text spells *)










Example amount_read_price :
  to_number ["$"; ","; " "]%char (Str "$1,250.50") = Ok (Num (2501 # 2))
  /\ to_number ["%"]%char (Str "96%") = Ok (Num 96).
Proof. split; reflexivity. Qed.

(** ** Month and year *)

Lemma select_Forall {A : Type} (P : A -> Prop) (mask : list bool) (l : list A) :
  Forall P l -> Forall P (select mask l).
Proof.
  intros H. revert mask. induction H as [|x l Hx Hl IH]; intros [|b mask]; cbn;
    try constructor.
  destruct b; [constructor; [exact Hx|]|]; apply IH.
Qed.

Lemma apply_whole (t : DataFrame) (f : Row -> result cell) (vs : list cell) :
  (forall row v, f row = Ok v -> whole v) ->
  apply t f = Ok vs -> Forall whole vs.
Proof.
  intros Hf H. unfold apply in H. destruct (nrows t); [discriminate|].
  apply mapM_ok in H. induction H as [|row v rows vs Hv _ IH]; constructor.
  - apply (Hf row v Hv).
  - exact IH.
Qed.

Lemma month_whole (row : Row) (v : cell) : get_month_from_date row = Ok v -> whole v.
Proof.
  unfold get_month_from_date. intros H. inv_bind H. injection H as <-.
  eexists. reflexivity.
Qed.

Lemma year_whole (row : Row) (v : cell) : get_year_from_date row = Ok v -> whole v.
Proof.
  unfold get_year_from_date. intros H. inv_bind H. injection H as <-.
  eexists. reflexivity.
Qed.

(** X16.  In the returned table [month] and [year] hold a whole number in
    every row: they are never missing, and nothing checks that the month
    lies between 1 and 12. *)
Theorem month_year_whole (h : heap) (listings_df calendar_df : ref)
    (listings calendar out : DataFrame) :
  h !! listings_df = Some listings ->
  h !! calendar_df = Some calendar ->
  cleaned h listings_df calendar_df out ->
  (exists months years,
     column out "month" = Ok months
     /\ column out "year" = Ok years
     /\ length months = nrows out
     /\ length years = nrows out
     /\ Forall whole months
     /\ Forall whole years)
  /\ get_month_from_date [("date", Str "2016-13-01")] = Ok (of_int 13).
Proof.
  intros Hl Hc Hout. split; [|reflexivity].
  destruct (cleaned_trace _ _ _ _ _ _ Hl Hc Hout) as [tr].
  pose proof (trace_well_formed _ _ _ tr) as (_ & _ & _ & _ & _ & _ & Hwf).
  destruct tr.
  destruct (dated_ok _ _ run_dated0) as (_ & _ & months & years & Hm & Hy & Hcm & Hcy).
  destruct (priced_ok _ _ run_priced0) as (px & prices & _ & _ & _ & _ & Hrest).
  assert (Hom : column out "month" = Ok (select (map notnull px) months)).
  { follow. rewrite (Hrest "month") by reflexivity. rewrite Hcm. reflexivity. }
  assert (Hoy : column out "year" = Ok (select (map notnull px) years)).
  { follow. rewrite (Hrest "year") by reflexivity. rewrite Hcy. reflexivity. }
  exists (select (map notnull px) months), (select (map notnull px) years).
  split; [exact Hom|]. split; [exact Hoy|].
  split; [apply (column_length _ _ _ Hwf Hom)|].
  split; [apply (column_length _ _ _ Hwf Hoy)|].
  split; apply select_Forall.
  - apply (apply_whole _ _ _ month_whole Hm).
  - apply (apply_whole _ _ _ year_whole Hy).
Qed.

Lemma month_year_whole_demo :
  exists months years,
    column Demo.out "month" = Ok months
    /\ column Demo.out "year" = Ok years
    /\ Forall whole months
    /\ Forall whole years.
Proof.
  assert (Hrun : cleaned Demo.memory 0 1 Demo.out) by run_call.
  destruct (month_year_whole Demo.memory 0 1 Demo.listings Demo.calendar Demo.out
              eq_refl eq_refl Hrun)
    as ((months & years & Hm & Hy & _ & _ & Hwm & Hwy) & _).
  exists months, years. repeat split; assumption.
Defined.

(** ** Calling the cleaner again *)

(** X17.  [clean_dataset] can be called again on the same two tables: since
    the first call has not changed them, the second call ends as the first,
    with the same exception or with a table equal to the first one, which it
    leaves in place. *)
Theorem clean_dataset_repeatable (h : heap) (listings_df calendar_df : ref)
    (listings calendar : DataFrame) :
  h !! listings_df = Some listings ->
  h !! calendar_df = Some calendar ->
  let first := clean_dataset listings_df calendar_df h in
  let second := clean_dataset listings_df calendar_df (fst first) in
  match snd first with
  | Ok r1 =>
      exists r2 out,
        snd second = Ok r2
        /\ fst first !! r1 = Some out
        /\ fst second !! r2 = Some out
        /\ fst second !! r1 = Some out
  | Raise e => snd second = Raise e
  end.
Proof.
  intros Hl Hc first second.
  destruct (clean_dataset_agrees h _ _ _ _ Hl Hc) as (ext & Hfst & Hres).
  fold first in Hfst, Hres.
  assert (Hl1 : fst first !! listings_df = Some listings)
    by (rewrite Hfst; apply lookup_app_l_Some; exact Hl).
  assert (Hc1 : fst first !! calendar_df = Some calendar)
    by (rewrite Hfst; apply lookup_app_l_Some; exact Hc).
  destruct (clean_dataset_agrees (fst first) _ _ _ _ Hl1 Hc1) as (ext2 & Hfst2 & Hres2).
  fold second in Hfst2, Hres2.
  destruct (Stage.clean_table listings calendar) as [t|e].
  - destruct Hres as (r1 & Hr1 & Ht1). destruct Hres2 as (r2 & Hr2 & Ht2).
    rewrite Hr1. exists r2, t. split; [exact Hr2|]. split; [exact Ht1|].
    split; [exact Ht2|]. rewrite Hfst2. apply lookup_app_l_Some. exact Ht1.
  - rewrite Hres. exact Hres2.
Qed.

Lemma clean_dataset_repeatable_demo :
  exists r2,
    snd (clean_dataset 0 1 (fst (clean_dataset 0 1 Demo.memory))) = Ok r2
    /\ fst (clean_dataset 0 1 (fst (clean_dataset 0 1 Demo.memory))) !! r2
       = Some Demo.out.
Proof.
  pose proof (clean_dataset_repeatable Demo.memory 0 1 Demo.listings Demo.calendar
                eq_refl eq_refl) as H.
  cbv zeta in H. rewrite (proj1 clean_dataset_demo) in H.
  destruct H as (r2 & out & Hr2 & H1 & H2 & _).
  exists r2. split; [exact Hr2|].
  rewrite H2. rewrite <- H1. vm_compute. reflexivity.
Defined.

(** ** Where the rows of the join come from *)

Lemma merge_origin (left right t : DataFrame) (key : string) (lk rk : list cell) :
  merge left right key = Ok t ->
  column left key = Ok lk ->
  column right key = Ok rk ->
  exists pairs : list (nat * nat),
    nrows t = length pairs
    /\ Forall (fun p => (fst p < nrows left)%nat
                        /\ (snd p < nrows right)%nat
                        /\ cell_eqb (nth (fst p) lk NaN) (nth (snd p) rk NaN) = true)
         pairs
    /\ (forall n c, column left n = Ok c ->
          column t (if negb (String.eqb n key) && mem n (names right)
                    then String.append n "_x" else n)
          = Ok (map (fun p => nth (fst p) c NaN) pairs))
    /\ (forall n c, column right n = Ok c -> String.eqb n key = false ->
          column t (if negb (String.eqb n key) && mem n (names left)
                    then String.append n "_y" else n)
          = Ok (map (fun p => nth (snd p) c NaN) pairs)).
Proof.
  unfold merge. intros H Hlk Hrk.
  destruct (well_formed left && well_formed right); [|discriminate].
  rewrite Hlk, Hrk in H. cbn [bind] in H. cbv zeta in H.
  match type of H with
  | (if distinct (names (mkFrame (length ?ps) _)) then _ else _) = _ =>
      set (pairs := ps) in *
  end.
  match type of H with
  | (if distinct (names ?o) then _ else _) = _ =>
      destruct (distinct (names o)) eqn:Hd; [|discriminate]
  end.
  injection H as <-. exists pairs.
  split; [reflexivity|]. split; [|split].
  - apply List.Forall_forall. intros [i j] Hp. subst pairs.
    apply in_flat_map in Hp as (i' & Hi' & Hp).
    apply in_map_iff in Hp as (j' & [= <- <-] & Hj').
    apply filter_In in Hj' as [Hj' Heq].
    apply in_seq in Hi', Hj'. cbn [fst snd]. repeat split; [lia | lia | exact Heq].
  - intros n c Hc. apply (column_of_In _ _ _ Hd). cbn [columns].
    apply in_or_app. left. apply in_map_iff. exists (n, c).
    split; [reflexivity | apply column_In; exact Hc].
  - intros n c Hc Hn. apply (column_of_In _ _ _ Hd). cbn [columns].
    apply in_or_app. right. apply in_map_iff. exists (n, c).
    split; [reflexivity|]. apply filter_In.
    split; [apply column_In; exact Hc | cbn; rewrite Hn; reflexivity].
Qed.

Lemma renamed_column (listings : DataFrame) (n : string) (c : list cell) :
  well_formed (rename listings [("id", "listing_id")]) = true ->
  column listings n = Ok c ->
  String.eqb n "id" = false ->
  column (rename listings [("id", "listing_id")]) n = Ok c.
Proof.
  intros Hwf Hc Hn. apply well_formed_iff in Hwf as [Hd _].
  apply column_of_In; [apply distinct_NoDup; exact Hd|].
  cbn [rename columns]. apply in_map_iff. exists (n, c).
  split; [|apply column_In; exact Hc].
  cbn [fst snd assoc]. rewrite (String.eqb_sym "id" n), Hn. reflexivity.
Qed.

(** X18.  Every row of the joined table puts one calendar row beside one
    listing with the same identifier:  [listing_id], [price_x] and any other
    kept column of the calendar hold the cells of that calendar row, so the
    price that is cleaned is the price of the calendar date and not the
    price of the listing, and each kept column of the listings holds the
    cell of that listing. *)
Theorem joined_row_origin (listings calendar joined : DataFrame)
    (keys ids prices : list cell) :
  Stage.joined listings calendar = Ok joined ->
  column calendar "listing_id" = Ok keys ->
  column listings "id" = Ok ids ->
  column calendar "price" = Ok prices ->
  mem "price" (names listings) = true ->
  exists pairs : list (nat * nat),
    nrows joined = length pairs
    /\ Forall (fun p => (fst p < nrows calendar)%nat
                        /\ (snd p < nrows listings)%nat
                        /\ cell_eqb (nth (fst p) keys NaN) (nth (snd p) ids NaN) = true)
         pairs
    /\ column joined "listing_id" = Ok (map (fun p => nth (fst p) keys NaN) pairs)
    /\ column joined "price_x" = Ok (map (fun p => nth (fst p) prices NaN) pairs)
    /\ (forall n c, column calendar n = Ok c ->
          mem n (names listings) = false ->
          mem n columns_to_drop = false ->
          column joined n = Ok (map (fun p => nth (fst p) c NaN) pairs))
    /\ (forall n c, column listings n = Ok c ->
          String.eqb n "id" = false ->
          mem n (names calendar) = false ->
          mem n columns_to_drop = false ->
          column joined n = Ok (map (fun p => nth (snd p) c NaN) pairs)).
Proof.
  unfold Stage.joined. intros H Hkeys Hids Hprices Hshared. inv_bind H.
  rename a into m.
  assert (Hwr : well_formed (rename listings [("id", "listing_id")]) = true).
  { unfold merge in E.
    destruct (well_formed calendar && well_formed (rename listings _)) eqn:Hwf;
      [|discriminate].
    apply andb_prop in Hwf. tauto. }
  pose proof (renamed_id _ _ Hwr Hids) as Hrk.
  destruct (merge_origin _ _ _ _ keys ids E Hkeys Hrk)
    as (pairs & Hn & Hpairs & Hleft & Hright).
  destruct (drop_ok _ _ _ H) as [Hrows Hkeep].
  assert (Hnames : forall n, String.eqb n "id" = false ->
            String.eqb n "listing_id" = false ->
            mem n (names (rename listings [("id", "listing_id")]))
            = mem n (names listings)).
  { intros n Hid Hlid. unfold names, rename, mem. cbn [columns].
    induction (columns listings) as [|[k x] l IH]; [reflexivity|].
    cbn [map existsb fst snd]. rewrite IH. f_equal.
    cbn [assoc]. destruct (String.eqb "id" k) eqn:Ek; [|reflexivity].
    apply String.eqb_eq in Ek. subst k. rewrite Hid, Hlid. reflexivity. }
  exists pairs. split; [rewrite Hrows; exact Hn|].
  split; [exact Hpairs|]. split; [|split; [|split]].
  - rewrite Hkeep by reflexivity. apply (Hleft "listing_id" keys Hkeys).
  - rewrite Hkeep by reflexivity.
    pose proof (Hleft "price" prices Hprices) as Hp.
    rewrite (Hnames "price" eq_refl eq_refl), Hshared in Hp. exact Hp.
  - intros n c Hc Hfree Hkept. rewrite (Hkeep n Hkept).
    pose proof (Hleft n c Hc) as Hp.
    destruct (String.eqb n "listing_id") eqn:Ekey; [exact Hp|].
    destruct (String.eqb n "id") eqn:Eid.
    + apply String.eqb_eq in Eid. subst n.
      apply column_mem in Hids. congruence.
    + rewrite (Hnames n Eid Ekey), Hfree in Hp. exact Hp.
  - intros n c Hc Hid Hfree Hkept. rewrite (Hkeep n Hkept).
    destruct (String.eqb n "listing_id") eqn:Ekey.
    + apply String.eqb_eq in Ekey. subst n.
      apply column_mem in Hkeys. congruence.
    + pose proof (Hright n c (renamed_column _ _ _ Hwr Hc Hid) Ekey) as Hp.
      rewrite Ekey, Hfree in Hp. exact Hp.
Qed.

Lemma joined_row_origin_demo :
  exists pairs : list (nat * nat),
    nrows Demo.joined = length pairs
    /\ column Demo.joined "price_x"
       = Ok (map (fun p => nth (fst p) [Str "$85.00"; NaN; Str "$150.00"; Str "$1,250.00"] NaN)
               pairs).
Proof.
  destruct (joined_row_origin Demo.listings Demo.calendar Demo.joined
              [Num 1; Num 1; Num 2; Num 3] [Num 1; Num 2]
              [Str "$85.00"; NaN; Str "$150.00"; Str "$1,250.00"]
              eq_refl eq_refl eq_refl eq_refl eq_refl)
    as (pairs & Hn & _ & _ & Hp & _).
  exists pairs. split; [exact Hn | exact Hp].
Defined.

(** ** Listings and hosts *)

Lemma length_unique (col : list cell) : (length (unique col) <= length col)%nat.
Proof.
  induction col as [|c col IH]; cbn; [lia|].
  pose proof (filter_length_le (fun d => negb (cell_eqb c d)) (unique col)). lia.
Qed.

Lemma filter_keeps_all {A : Type} (f : A -> bool) (l : list A) :
  length (List.filter f l) = length l -> List.filter f l = l.
Proof.
  induction l as [|x l IH]; [reflexivity|]. cbn.
  destruct (f x); cbn; intros H.
  - injection H as H. rewrite (IH H). reflexivity.
  - pose proof (filter_length_le f l). lia.
Qed.

Lemma unique_all_iff (col : list cell) :
  length (unique col) = length col <-> distinct_cells col = true.
Proof.
  induction col as [|c col IH]; [cbn; tauto|].
  cbn [unique distinct_cells length].
  pose proof (filter_length_le (fun d => negb (cell_eqb c d)) (unique col)) as Hf.
  pose proof (length_unique col) as Hu.
  rewrite andb_true_iff, negb_true_iff. split.
  - intros H. injection H as H.
    assert (Hlen : length (unique col) = length col) by lia.
    assert (Hkeep : List.filter (fun d => negb (cell_eqb c d)) (unique col) = unique col)
      by (apply filter_keeps_all; lia).
    split; [|apply IH; exact Hlen].
    destruct (existsb (cell_eqb c) col) eqn:Ex; [|reflexivity].
    apply existsb_exists in Ex as (d & Hd & Hcd).
    assert (Hd' : In d (unique col)).
    { apply IH in Hlen. clear -Hlen Hd.
      induction col as [|x col IHc]; [destruct Hd|].
      cbn in Hlen. apply andb_prop in Hlen as [Hx Hlen]. apply negb_true_iff in Hx.
      cbn [unique]. destruct Hd as [<-|Hd]; [left; reflexivity|].
      right. apply filter_In. split; [apply (IHc Hlen Hd)|].
      apply negb_true_iff. destruct (cell_eqb x d) eqn:E; [|reflexivity].
      assert (existsb (cell_eqb x) col = true)
        by (apply existsb_exists; exists d; split; assumption).
      congruence. }
    rewrite <- Hkeep in Hd'. apply filter_In in Hd' as [_ Hneg].
    rewrite Hcd in Hneg. discriminate.
  - intros [Hc Hd]. apply IH in Hd. f_equal. rewrite <- Hd.
    f_equal. apply filter_keeps_all.
    assert (Hall : forall d, In d (unique col) -> negb (cell_eqb c d) = true).
    { intros d Hin. apply In_unique in Hin. apply negb_true_iff.
      destruct (cell_eqb c d) eqn:E; [|reflexivity].
      assert (existsb (cell_eqb c) col = true)
        by (apply existsb_exists; exists d; split; assumption).
      congruence. }
    clear -Hall. induction (unique col) as [|x l IHl]; [reflexivity|].
    cbn. rewrite (Hall x (or_introl eq_refl)). cbn. f_equal.
    apply IHl. intros d Hin. apply Hall. right. exact Hin.
Qed.

Lemma filter_and {A : Type} (f g : A -> bool) (l : list A) :
  (forall x, g x && f x = f x) ->
  List.filter f (List.filter g l) = List.filter f l.
Proof.
  intros H. rewrite filter_twice. apply filter_ext. exact H.
Qed.

Lemma filter_comm {A : Type} (f g : A -> bool) (l : list A) :
  List.filter f (List.filter g l) = List.filter g (List.filter f l).
Proof.
  rewrite !filter_twice. apply filter_ext. intros x. apply andb_comm.
Qed.

Lemma unique_notnull (col : list cell) :
  unique (List.filter notnull col) = List.filter notnull (unique col).
Proof.
  induction col as [|c col IH]; [reflexivity|].
  cbn [List.filter unique]. destruct (notnull c) eqn:Ec.
  - cbn [unique]. rewrite IH. f_equal. apply filter_comm.
  - rewrite IH. symmetry. apply filter_and.
    destruct c; try discriminate Ec. intros [|s|q]; reflexivity.
Qed.

Lemma nulls_unique (col : list cell) :
  length (List.filter isnull (unique col))
  = if existsb isnull col then 1%nat else 0%nat.
Proof.
  induction col as [|c col IH]; [reflexivity|].
  cbn [unique List.filter existsb]. destruct c as [|s|q]; cbn [isnull orb].
  - cbn [length]. f_equal. rewrite filter_twice.
    assert (H : forall l : list cell,
              List.filter (fun d => negb (cell_eqb NaN d) && isnull d) l = []).
    { intros l. induction l as [|[|t|r] l IHl]; cbn;
        [reflexivity | exact IHl | exact IHl | exact IHl]. }
    rewrite H. reflexivity.
  - rewrite filter_and; [exact IH|]. intros [|t|r]; cbn; try reflexivity.
    apply andb_false_r.
  - rewrite filter_and; [exact IH|]. intros [|t|r]; cbn; try reflexivity.
    apply andb_false_r.
Qed.

Lemma length_by_null (l : list cell) :
  length l = (length (List.filter notnull l) + length (List.filter isnull l))%nat.
Proof.
  induction l as [|c l IH]; [reflexivity|].
  cbn [List.filter length]. destruct c; cbn [notnull isnull negb length]; lia.
Qed.

Lemma existsb_isnull (col : list cell) : In NaN col -> existsb isnull col = true.
Proof.
  intros H. apply existsb_exists. exists NaN. split; [exact H | reflexivity].
Qed.

(** X19.  The two numbers the notebook prints for the listings table: there
    are never more hosts than listings, and as many exactly when no two
    listings have the same host; the listings without host identifier count
    as those of one more host. *)
Theorem hosts_and_listings (listings_df : DataFrame) (host_id : list cell) :
  well_formed listings_df = true ->
  column listings_df "host_id" = Ok host_id ->
  exists n,
    hosts_number listings_df = Ok n
    /\ (n <= listings_number listings_df)%nat
    /\ (n = listings_number listings_df <-> distinct_cells host_id = true)
    /\ (In NaN host_id ->
        n = S (length (unique (List.filter notnull host_id)))).
Proof.
  intros Hwf Hcol. unfold hosts_number, listings_number. rewrite Hcol. cbn [bind].
  pose proof (column_length _ _ _ Hwf Hcol) as Hlen.
  exists (length (unique host_id)). split; [reflexivity|].
  split; [rewrite <- Hlen; apply length_unique|].
  split; [rewrite <- Hlen; apply unique_all_iff|].
  intros Hin. rewrite (length_by_null (unique host_id)), nulls_unique.
  rewrite (existsb_isnull _ Hin), unique_notnull. lia.
Qed.

Lemma hosts_and_listings_demo :
  exists n,
    hosts_number (mkFrame 3 [("host_id", [Num 7; NaN; Num 7])]) = Ok n
    /\ (n <= 3)%nat.
Proof.
  destruct (hosts_and_listings (mkFrame 3 [("host_id", [Num 7; NaN; Num 7])])
              [Num 7; NaN; Num 7] eq_refl eq_refl) as (n & Hn & Hle & _).
  exists n. split; [exact Hn | exact Hle].
Defined.

(** ** Listings per month *)

Lemma length_select_le {A : Type} (mask : list bool) (l : list A) :
  (length (select mask l) <= length l)%nat.
Proof.
  revert l. induction mask as [|b mask IH]; intros [|x l]; cbn; try lia.
  specialize (IH l). destruct b; cbn; lia.
Qed.

Lemma labels_set (s : Series) (label value : Z) :
  map fst (series_set s label value)
  = if existsb (Z.eqb label) (map fst s) then map fst s else map fst s ++ [label].
Proof.
  induction s as [|[l v] s IH]; cbn [series_set map existsb fst]; [reflexivity|].
  rewrite (Z.eqb_sym label l).
  destruct (Z.eqb l label); cbn [map fst orb]; [reflexivity|].
  rewrite IH. destruct (existsb (Z.eqb label) (map fst s)); reflexivity.
Qed.

Lemma values_set (P : Z * Z -> Prop) (s : Series) (label value : Z) :
  Forall P s -> P (label, value) ->
  (forall l v, P (l, v) -> l = label -> P (l, value)) ->
  Forall P (series_set s label value).
Proof.
  intros Hs Hnew Hsame. induction Hs as [|[l v] s Hx Hs IH]; cbn [series_set].
  - constructor; [exact Hnew | constructor].
  - destruct (Z.eqb l label) eqn:E.
    + apply Z.eqb_eq in E. constructor; [apply (Hsame l v Hx E) | exact Hs].
    + constructor; [exact Hx | exact IH].
Qed.

Lemma months_loop_ok (df : DataFrame) (month year listing_id : list cell)
    (bound : Z) :
  column df "month" = Ok month ->
  column df "year" = Ok year ->
  column df "listing_id" = Ok listing_id ->
  bound = Z.of_nat (length listing_id) ->
  forall months s,
    exists s',
      months_loop df months s = Ok s'
      /\ map fst s'
         = fold_left (fun ls i => if existsb (Z.eqb i) ls then ls else ls ++ [i])
             months (map fst s)
      /\ (Forall (fun e => fst e = 0 \/ 0 <= snd e <= bound)%Z s ->
          Forall (fun e => fst e = 0 \/ 0 <= snd e <= bound)%Z s').
Proof.
  intros Hm Hy Hid Hb.
  induction months as [|i months IH]; intros s; cbn [months_loop fold_left].
  - exists s. split; [reflexivity|]. split; [reflexivity | tauto].
  - unfold listings_of_month. rewrite Hm, Hy, Hid. cbn [bind].
    set (n := Z.of_nat (length (unique (select _ listing_id)))).
    destruct (IH (series_set s i n)) as (s' & Hrun & Hlabels & Hvalues).
    exists s'. split; [exact Hrun|]. split; [rewrite Hlabels, labels_set; reflexivity|].
    intros Hs. apply Hvalues.
    assert (Hn : (0 <= n <= bound)%Z).
    { subst n bound. split; [lia|]. apply inj_le.
      etransitivity; [apply length_unique | apply length_select_le]. }
    apply values_set; [exact Hs | right; exact Hn |].
    intros l v _ _. right. exact Hn.
Qed.

Lemma labels_exists (p : Z -> bool) (s : Series) :
  existsb (fun e => p (fst e)) s = existsb p (map fst s).
Proof.
  induction s as [|[l v] s IH]; cbn; [reflexivity | rewrite IH; reflexivity].
Qed.

Lemma labels_filter (p : Z -> bool) (s : Series) :
  map fst (List.filter (fun e => p (fst e)) s) = List.filter p (map fst s).
Proof.
  induction s as [|[l v] s IH]; cbn; [reflexivity|].
  destruct (p l); cbn; rewrite IH; reflexivity.
Qed.

(** X20.  The cell that counts the listings of each month of 2016 runs on
    the table [clean_dataset] returns without raising: the table has the
    three columns the cell reads.  The series it plots has the twelve labels
    1 to 12 in order, the value 12 it starts from at label 0 being dropped,
    and no count is negative or higher than the number of rows. *)
Theorem listings_by_month (h : heap) (listings_df calendar_df : ref)
    (listings calendar out : DataFrame) :
  h !! listings_df = Some listings ->
  h !! calendar_df = Some calendar ->
  cleaned h listings_df calendar_df out ->
  exists s,
    number_of_listings_by_month out = Ok s
    /\ map fst s = [1; 2; 3; 4; 5; 6; 7; 8; 9; 10; 11; 12]%Z
    /\ Forall (fun e => 0 <= snd e <= Z.of_nat (nrows out))%Z s.
Proof.
  intros Hl Hc Hout.
  destruct (cleaned_trace _ _ _ _ _ _ Hl Hc Hout) as [tr].
  pose proof (trace_well_formed _ _ _ tr) as (_ & _ & _ & _ & _ & _ & Hwf).
  assert (Hkey : exists col, column out "listing_id" = Ok col).
  { destruct (carried _ _ _ tr "listing_id") as (px & _ & ->);
      [vm_compute; intuition discriminate | reflexivity | reflexivity |].
    destruct (joined_key _ _ _ (run_joined _ _ _ tr)) as [keys ->]. cbn. eauto. }
  destruct Hkey as [ids Hids].
  assert (Hmy : exists months years,
             column out "month" = Ok months /\ column out "year" = Ok years).
  { destruct tr.
    destruct (dated_ok _ _ run_dated0) as (_ & _ & months & years & _ & _ & Hm & Hy).
    destruct (priced_ok _ _ run_priced0) as (px & prices & _ & _ & _ & _ & Hrest).
    exists (select (map notnull px) months), (select (map notnull px) years).
    split; follow.
    - rewrite (Hrest "month") by reflexivity. rewrite Hm. reflexivity.
    - rewrite (Hrest "year") by reflexivity. rewrite Hy. reflexivity. }
  destruct Hmy as (months & years & Hm & Hy).
  destruct (months_loop_ok out months years ids _ Hm Hy Hids eq_refl
              (map Z.of_nat (seq 1 12)) [(0, 12)]%Z)
    as (s' & Hrun & Hlabels & Hvalues).
  unfold number_of_listings_by_month. cbv zeta. rewrite Hrun. cbn [bind].
  unfold series_drop.
  assert (Hzero : existsb (fun e => (fst e =? 0)%Z) s' = true).
  { rewrite (labels_exists (fun l => (l =? 0)%Z)), Hlabels. reflexivity. }
  rewrite Hzero. eexists. split; [reflexivity|]. split.
  - rewrite (labels_filter (fun l => negb (l =? 0)%Z)), Hlabels. reflexivity.
  - rewrite (column_length _ _ _ Hwf Hids) in Hvalues.
    assert (Hs' : Forall (fun e => fst e = 0 \/ 0 <= snd e <= Z.of_nat (nrows out))%Z s').
    { apply Hvalues. constructor; [left; reflexivity | constructor]. }
    apply List.Forall_forall. intros e He. apply filter_In in He as [He Hne].
    rewrite List.Forall_forall in Hs'. destruct (Hs' e He) as [H0|Hb]; [|exact Hb].
    rewrite H0 in Hne. discriminate.
Qed.

Lemma listings_by_month_demo :
  exists s,
    number_of_listings_by_month Demo.out = Ok s
    /\ map fst s = [1; 2; 3; 4; 5; 6; 7; 8; 9; 10; 11; 12]%Z.
Proof.
  assert (Hrun : cleaned Demo.memory 0 1 Demo.out) by run_call.
  destruct (listings_by_month Demo.memory 0 1 Demo.listings Demo.calendar Demo.out
              eq_refl eq_refl Hrun) as (s & Hs & Hlabels & _).
  exists s. split; [exact Hs | exact Hlabels].
Defined.

Example listings_by_month_counts :
  number_of_listings_by_month Demo.out
  = Ok [(1, 1); (2, 0); (3, 0); (4, 0); (5, 0); (6, 0); (7, 1); (8, 0); (9, 0);
        (10, 0); (11, 0); (12, 0)]%Z.
Proof. vm_compute. reflexivity. Qed.

(** ** When the items are few *)

Lemma cell_eqb_refl (c : cell) : cell_eqb c c = true.
Proof.
  destruct c as [|s|q]; cbn; [reflexivity | apply String.eqb_refl|].
  apply Qeq_bool_iff. reflexivity.
Qed.

Lemma unique_covers (c : cell) (col : list cell) :
  In c col -> exists c', In c' (unique col) /\ cell_eqb c' c = true.
Proof.
  induction col as [|x col IH]; intros Hin; [destruct Hin|].
  cbn [unique]. destruct Hin as [<-|Hin].
  - exists x. split; [left; reflexivity | apply cell_eqb_refl].
  - destruct (IH Hin) as (c' & Hc' & Heq).
    destruct (cell_eqb x c') eqn:Ex.
    + exists x. split; [left; reflexivity | apply (cell_eqb_trans x c' c Ex Heq)].
    + exists c'. split; [|exact Heq]. right. apply filter_In.
      split; [exact Hc' | rewrite Ex; reflexivity].
Qed.

Lemma length_sorted_desc (d : list (string * Z)) : length (sorted_desc d) = length d.
Proof. apply Permutation_length, sorted_desc_perm. Qed.

(** X21.  When the list column has no more than [max_dummies_num] different
    items, none is left out: every item of every row gets an indicator
    column, which holds 1.0 in that row. *)
Theorem few_items_all_kept (h h' : heap) (df : ref) (t : DataFrame)
    (column_name : string) (max_dummies_num : nat) (col : list cell)
    (texts : list string) :
  h !! df = Some t ->
  column t column_name = Ok col ->
  length col = nrows t ->
  unique col = map Str texts ->
  (length (encounter_order (flat_map list_items texts)) <= max_dummies_num)%nat ->
  split_list_into_columns df column_name max_dummies_num h = (h', Ok tt) ->
  exists t',
    h' !! df = Some t'
    /\ forall i value,
         (i < nrows t)%nat ->
         holds (nth i col NaN) value ->
         exists dummy,
           column t' (dummy_name column_name value) = Ok dummy
           /\ dummy !! i = Some (Num 1).
Proof.
  intros Hdf Hcol Hlen Htexts Hfew Hrun.
  rewrite (split_list_into_columns_exact h df t _ _ Hdf) in Hrun.
  destruct (Stage.split_columns column_name max_dummies_num t) as [t'|e] eqn:Hsplit;
    [|discriminate].
  injection Hrun as <-.
  unfold Stage.split_columns in Hsplit. rewrite Hcol in Hsplit. cbn [bind] in Hsplit.
  destruct (selected col max_dummies_num) as [values|e] eqn:Hsel; [|discriminate].
  cbn [bind] in Hsplit.
  exists t'. split; [apply list_lookup_insert_eq, (lookup_lt_Some _ _ _ Hdf)|].
  intros i value Hi (s & Hcell & Hvalue).
  assert (Hin : In value values).
  { pose proof Hsel as Hsel'. unfold selected in Hsel'.
    rewrite Htexts, count_values_texts in Hsel'. cbn [bind] in Hsel'.
    injection Hsel' as <-.
    set (d := fold_left (fun d v => tally v d) (flat_map list_items texts) []) in *.
    rewrite firstn_all2.
    2:{ rewrite length_sorted_desc, <- (length_map fst). subst d.
        rewrite keys_of_items. exact Hfew. }
    apply (Permutation_in _ (Permutation_sym (Permutation_map fst (sorted_desc_perm d)))).
    subst d. rewrite keys_of_items. apply In_encounter_order.
    apply in_flat_map. exists s. split; [|exact Hvalue].
    assert (Hs : In (Str s) col).
    { rewrite <- Hcell. apply nth_In. rewrite Hlen. exact Hi. }
    destruct (unique_covers _ _ Hs) as (c' & Hc' & Heq).
    apply cell_eqb_str in Heq. subst c'.
    rewrite Htexts in Hc'. apply in_map_iff in Hc' as (s' & [= ->] & Hs'). exact Hs'. }
  destruct (foldM_dummies column_name col values t t'
              (selected_distinct _ _ _ Hsel) Hcol Hsplit value Hin)
    as (dummy & Hdummy & _ & Hrows).
  exists dummy. split; [exact Hdummy|].
  destruct (Hrows i Hi) as [[_ H1]|[Hnot _]]; [exact H1|].
  exfalso. apply Hnot. exists s. split; assumption.
Qed.

Lemma few_items_all_kept_demo :
  exists t' dummy,
    fst (split_list_into_columns 0 "amenities" 10
           [mkFrame 2 [("amenities", [Str "{TV,Wifi}"; Str "{TV}"])]]) !! 0%nat
    = Some t'
    /\ column t' "amenities_Wifi" = Ok dummy
    /\ dummy !! 0%nat = Some (Num 1).
Proof.
  destruct (few_items_all_kept
              [mkFrame 2 [("amenities", [Str "{TV,Wifi}"; Str "{TV}"])]]
              (fst (split_list_into_columns 0 "amenities" 10
                      [mkFrame 2 [("amenities", [Str "{TV,Wifi}"; Str "{TV}"])]]))
              0 (mkFrame 2 [("amenities", [Str "{TV,Wifi}"; Str "{TV}"])])
              "amenities" 10 [Str "{TV,Wifi}"; Str "{TV}"] ["{TV,Wifi}"; "{TV}"]
              eq_refl eq_refl eq_refl eq_refl)
    as (t' & Ht' & Hall).
  - vm_compute. lia.
  - vm_compute. reflexivity.
  - destruct (Hall 0%nat "Wifi") as (dummy & Hd & H1).
    + cbn. lia.
    + exists "{TV,Wifi}". split; [reflexivity|]. vm_compute. tauto.
    + exists t', dummy. split; [exact Ht'|]. split; [exact Hd | exact H1].
Defined.

(** ** Rows keep together *)




(** ** The indicator columns of the returned table *)


Lemma split_columns_dummies (column_name : string) (n : nat) (t t' : DataFrame) :
  Stage.split_columns column_name n t = Ok t' ->
  exists col values,
    column t column_name = Ok col
    /\ selected col n = Ok values
    /\ forall value, In value values ->
         exists dummy,
           column t' (dummy_name column_name value) = Ok dummy
           /\ length dummy = nrows t
           /\ forall i, (i < nrows t)%nat ->
                (holds (nth i col NaN) value /\ dummy !! i = Some (Num 1))
                \/ (~ holds (nth i col NaN) value /\ dummy !! i = Some (Num 0)).
Proof.
  unfold Stage.split_columns. intros H.
  destruct (column t column_name) as [col|] eqn:Hcol; [|discriminate].
  cbn [bind] in H.
  destruct (selected col n) as [values|] eqn:Hsel; [|discriminate].
  cbn [bind] in H. exists col, values.
  split; [reflexivity|]. split; [exact Hsel|].
  apply (foldM_dummies column_name col values t t'
           (selected_distinct _ _ _ Hsel) Hcol H).
Qed.



(** ** Gaps that are not filled *)

Lemma selected_needs_texts (col : list cell) (n : nat) (values : list string) :
  selected col n = Ok values ->
  Forall (fun c => exists s, c = Str s) col.
Proof.
  unfold selected. intros H. inv_bind H.
  destruct (count_values_ok_texts _ _ _ E) as [texts Htexts].
  apply List.Forall_forall. intros c Hc.
  destruct (unique_covers c col Hc) as (c' & Hc' & Heq).
  rewrite Htexts in Hc'. apply in_map_iff in Hc' as (s & <- & _).
  exists s. rewrite cell_eqb_sym in Heq. apply cell_eqb_str in Heq. exact Heq.
Qed.

Lemma mode0_needs_value (col : list cell) (v : cell) :
  mode0 col = Ok v -> exists q, In (Num q) col.
Proof.
  unfold mode0. destruct (numbers col) as [qs|] eqn:Hqs; [|discriminate].
  cbn [bind]. destruct qs as [|q qs]; [discriminate|]. intros _.
  exists q. apply (In_numbers col _ q Hqs). left. reflexivity.
Qed.

(** X24.  The gaps that are not filled.  [clean_dataset] returns a table
    only if, in the joined rows with a price, every cell of
    [host_verifications] and of [amenities] is a text and each of
    [bathrooms], [bedrooms] and [beds] has a value in some row: a missing
    list, or a column to fill with the mode that has no value at all, ends
    the call with an exception instead of being filled. *)
Theorem gaps_not_filled (h : heap) (listings_df calendar_df : ref)
    (listings calendar out : DataFrame) :
  h !! listings_df = Some listings ->
  h !! calendar_df = Some calendar ->
  cleaned h listings_df calendar_df out ->
  (exists tr : Trace listings calendar out,
     (forall n, In n ["host_verifications"; "amenities"] ->
        exists col,
          column (t_priced tr) n = Ok col
          /\ Forall (fun c => exists s, c = Str s) col)
     /\ (forall n, In n ["bathrooms"; "bedrooms"; "beds"] ->
           exists col q,
             column (t_priced tr) n = Ok col /\ In (Num q) col))
  /\ snd (clean_dataset 0 1
            [Demo.listings_with "amenities" [Str "{TV,Wifi}"; NaN]; Demo.calendar])
     = Raise AttributeError
  /\ (exists e,
        snd (clean_dataset 0 1
               [Demo.listings_with "beds" [NaN; NaN]; Demo.calendar])
        = Raise e).
Proof.
  intros Hl Hc Hout. split; [|split; [vm_compute; reflexivity|]].
  - destruct (cleaned_trace _ _ _ _ _ _ Hl Hc Hout) as [tr].
    exists tr. destruct tr; cbn [t_priced]. split.
    + intros n [<-|[<-|[]]].
      * destruct (split_columns_dummies _ _ _ _ run_verified0)
          as (col & values & Hcol & Hsel & _).
        exists col. split; [revert Hcol; follow; auto|].
        apply (selected_needs_texts _ _ _ Hsel).
      * destruct (split_columns_dummies _ _ _ _ run_amenities0)
          as (col & values & Hcol & Hsel & _).
        exists col. split; [revert Hcol; follow; auto|].
        apply (selected_needs_texts _ _ _ Hsel).
    + destruct (fill_mode_ok _ _ _ run_bathrooms0) as (_ & _ & c1 & v1 & Hc1 & Hv1 & _).
      destruct (fill_mode_ok _ _ _ run_bedrooms0) as (_ & _ & c2 & v2 & Hc2 & Hv2 & _).
      destruct (fill_mode_ok _ _ _ run_beds0) as (_ & _ & c3 & v3 & Hc3 & Hv3 & _).
      intros n [<-|[<-|[<-|[]]]].
      * destruct (mode0_needs_value _ _ Hv1) as [q Hq].
        exists c1, q. split; [revert Hc1; follow; auto | exact Hq].
      * destruct (mode0_needs_value _ _ Hv2) as [q Hq].
        exists c2, q. split; [revert Hc2; follow; auto | exact Hq].
      * destruct (mode0_needs_value _ _ Hv3) as [q Hq].
        exists c3, q. split; [revert Hc3; follow; auto | exact Hq].
  - eexists. vm_compute. reflexivity.
Qed.

Lemma gaps_not_filled_demo :
  exists col,
    Forall (fun c => exists s, c = Str s) col /\ length col = nrows Demo.out.
Proof.
  assert (Hrun : cleaned Demo.memory 0 1 Demo.out) by run_call.
  destruct (proj1 (gaps_not_filled Demo.memory 0 1 Demo.listings Demo.calendar
                     Demo.out eq_refl eq_refl Hrun)) as (tr & Htexts & _).
  destruct (Htexts "amenities") as (col & Hcol & Hall); [right; left; reflexivity|].
  exists col. split; [exact Hall|]. clear Htexts.
  destruct tr. cbn [t_priced] in Hcol.
  rewrite joined_demo in run_joined0. injection run_joined0 as <-.
  vm_compute in run_dated0. injection run_dated0 as <-.
  vm_compute in run_priced0. injection run_priced0 as <-.
  vm_compute in Hcol. injection Hcol as <-. reflexivity.
Defined.
